(** * ModelPilot JavaScript client: request validation, transport and stream decoding

    A shallow embedding of the library's three source modules
    ([chat.js], [utils.js], [index.js]) and of its error classes
    ([errors.js]), followed by the properties established about them.

    Conventions of the embedding.
    - A JavaScript string is the list of its UTF-16 code units.
    - A JavaScript value is an element of [jsval]: [undefined], [null],
      booleans, finite numbers (exact rationals; [NaN], the infinities and
      the rounding of doubles are outside the model), strings, arrays and
      plain objects (own properties only, in insertion order).
    - Code that can throw lives in the [result] monad; [try]/[catch] is
      [try_catch].
    - The network is not part of the model: a function that would contact
      it returns a description of the call it makes. *)

From Stdlib Require Import List String Ascii ZArith NArith QArith Qround Bool Lia Arith.
From Stdlib Require Import DecimalString.
Import ListNotations.

Local Open Scope bool_scope.
Local Open Scope list_scope.

(* ===================================================================== *)
(** ** Strings *)
(* ===================================================================== *)

Module JsString.

(** UTF-16 code units. *)
Definition jsstring : Type := list N.

(** The code units of an 8-bit literal. *)
Definition lit (s : string) : jsstring :=
  List.map N_of_ascii (list_ascii_of_string s).

Fixpoint eqb (a b : jsstring) : bool :=
  match a, b with
  | [], [] => true
  | x :: a', y :: b' => N.eqb x y && eqb a' b'
  | _, _ => false
  end.

(** Decimal rendering of a non-negative integer (array indices in
    template literals). *)
Definition of_nat (n : nat) : jsstring :=
  lit (NilEmpty.string_of_uint (Nat.to_uint n)).

(** [prefix.startsWith]: is [p] a prefix of [s]? *)
Fixpoint startsWith (s p : jsstring) : bool :=
  match p, s with
  | [], _ => true
  | x :: p', y :: s' => N.eqb x y && startsWith s' p'
  | _ :: _, [] => false
  end.

End JsString.

Import JsString.

(* ===================================================================== *)
(** ** Values *)
(* ===================================================================== *)

#[warnings="-register-all"]
Inductive jsval : Type :=
| JUndefined
| JNull
| JBool (b : bool)
| JNum (q : Q)
| JStr (s : jsstring)
| JArr (items : list jsval)
| JObj (props : list (jsstring * jsval)).

Module Js.

(** ToBoolean. *)
Definition truthy (v : jsval) : bool :=
  match v with
  | JUndefined | JNull => false
  | JBool b => b
  | JNum q => negb (Qeq_bool q 0)
  | JStr s => match s with [] => false | _ => true end
  | JArr _ | JObj _ => true
  end.

(** The [typeof] operator. *)
Definition typeof (v : jsval) : string :=
  match v with
  | JUndefined => "undefined"
  | JNull => "object"
  | JBool _ => "boolean"
  | JNum _ => "number"
  | JStr _ => "string"
  | JArr _ | JObj _ => "object"
  end.

Definition is_undefined (v : jsval) : bool :=
  match v with JUndefined => true | _ => false end.

Definition nullish (v : jsval) : bool :=
  match v with JUndefined | JNull => true | _ => false end.

(** [a || b] on values. *)
Definition or (a b : jsval) : jsval := if truthy a then a else b.

(** Strict equality with a string constant: [v === 'lit']. *)
Definition str_eq (v : jsval) (s : jsstring) : bool :=
  match v with JStr t => JsString.eqb t s | _ => false end.

(** Numeric comparison [v op c]; only ever evaluated behind a
    [typeof v === 'number'] guard or on a stored number. *)
Definition num_rel (r : Q -> Q -> bool) (v : jsval) (c : Q) : bool :=
  match v with JNum q => r q c | _ => false end.

Definition Qlt_bool (a b : Q) : bool := negb (Qle_bool b a).

Definition lt (v : jsval) (c : Q) : bool := num_rel Qlt_bool v c.
Definition le (v : jsval) (c : Q) : bool := num_rel Qle_bool v c.
Definition gt (v : jsval) (c : Q) : bool := num_rel (fun a b => Qlt_bool b a) v c.

(** Own-property lookup in a property list: first binding of the key. *)
Fixpoint assoc (props : list (jsstring * jsval)) (k : jsstring) : option jsval :=
  match props with
  | [] => None
  | (k', v) :: rest => if JsString.eqb k' k then Some v else assoc rest k
  end.

(** [o[k] = v] on a property list: overwrite in place, or append. *)
Fixpoint set_prop (props : list (jsstring * jsval)) (k : jsstring) (v : jsval)
  : list (jsstring * jsval) :=
  match props with
  | [] => [(k, v)]
  | (k', v') :: rest =>
      if JsString.eqb k' k then (k', v) :: rest
      else (k', v') :: set_prop rest k v
  end.

(** Object spread [{...a, ...b}] on property lists. *)
Definition spread (a b : list (jsstring * jsval)) : list (jsstring * jsval) :=
  fold_left (fun acc kv => set_prop acc (fst kv) (snd kv)) b a.

Definition has_prop (props : list (jsstring * jsval)) (k : jsstring) : bool :=
  match assoc props k with Some _ => true | None => false end.

(** A canonical array index: decimal digits without a leading zero. *)
Definition digit_of (c : N) : option nat :=
  if (48 <=? c)%N && (c <=? 57)%N then Some (N.to_nat (c - 48)) else None.

Fixpoint digits_value (acc : nat) (s : jsstring) : option nat :=
  match s with
  | [] => Some acc
  | c :: s' =>
      match digit_of c with
      | Some d => digits_value (10 * acc + d) s'
      | None => None
      end
  end.

Definition index_of_key (k : jsstring) : option nat :=
  match k with
  | [] => None
  | [c] => digit_of c
  | c :: _ => if N.eqb c 48 then None else digits_value 0 k
  end.

(** Property read [v.k] / [v[k]]; a missing property reads as
    [undefined].  On [null] and [undefined], where a plain read throws
    (see [Exn.get]), this is the optional-chaining read [v?.k].
    Properties inherited from the built-in prototypes are not
    modelled. *)
Definition prop (v : jsval) (k : jsstring) : jsval :=
  match v with
  | JObj props =>
      match assoc props k with Some x => x | None => JUndefined end
  | JArr items =>
      if JsString.eqb k (lit "length") then JNum (inject_Z (Z.of_nat (List.length items)))
      else match index_of_key k with
           | Some i => nth i items JUndefined
           | None => JUndefined
           end
  | JStr s =>
      if JsString.eqb k (lit "length") then JNum (inject_Z (Z.of_nat (List.length s)))
      else match index_of_key k with
           | Some i =>
               match nth_error s i with
               | Some c => JStr [c]
               | None => JUndefined
               end
           | None => JUndefined
           end
  | _ => JUndefined
  end.

End Js.

(* ===================================================================== *)
(** ** Error classes ([errors.js]) *)
(* ===================================================================== *)

Inductive error_class : Type :=
| C_Error
| C_TypeError
| C_SyntaxError
| C_ModelPilotError
| C_APIError
| C_AuthenticationError
| C_RateLimitError
| C_InvalidRequestError
| C_PermissionDeniedError
| C_NotFoundError
| C_ConflictError
| C_UnprocessableEntityError
| C_InternalServerError.

(** A thrown error object: its class and the fields the constructors
    assign.  [message] holds the constructor's argument. *)
Record js_error : Type := mkError {
  class : error_class;
  name : jsstring;
  message : jsval;
  type : jsval;
  code : jsval;
  param : jsval;
  status : jsval;
  response : jsval
}.

Module Errors.

Definition error_class_eqb (a b : error_class) : bool :=
  match a, b with
  | C_Error, C_Error
  | C_TypeError, C_TypeError
  | C_SyntaxError, C_SyntaxError
  | C_ModelPilotError, C_ModelPilotError
  | C_APIError, C_APIError
  | C_AuthenticationError, C_AuthenticationError
  | C_RateLimitError, C_RateLimitError
  | C_InvalidRequestError, C_InvalidRequestError
  | C_PermissionDeniedError, C_PermissionDeniedError
  | C_NotFoundError, C_NotFoundError
  | C_ConflictError, C_ConflictError
  | C_UnprocessableEntityError, C_UnprocessableEntityError
  | C_InternalServerError, C_InternalServerError => true
  | _, _ => false
  end.

(** The [extends] clause of each class. *)
Definition super (c : error_class) : option error_class :=
  match c with
  | C_Error => None
  | C_TypeError | C_SyntaxError => Some C_Error
  | C_ModelPilotError => Some C_Error
  | C_APIError => Some C_ModelPilotError
  | C_AuthenticationError | C_RateLimitError | C_InvalidRequestError
  | C_PermissionDeniedError | C_NotFoundError | C_ConflictError
  | C_UnprocessableEntityError | C_InternalServerError => Some C_APIError
  end.

Fixpoint extends_upto (depth : nat) (c target : error_class) : bool :=
  error_class_eqb c target ||
  match depth with
  | O => false
  | S d => match super c with
           | Some p => extends_upto d p target
           | None => false
           end
  end.

(** [e instanceof target]; the hierarchy is three levels deep. *)
Definition instanceof (e : js_error) (target : error_class) : bool :=
  extends_upto 3 (class e) target.

(** Built-in errors. *)
Definition Error (msg : jsstring) : js_error :=
  mkError C_Error (lit "Error") (JStr msg)
          JUndefined JUndefined JUndefined JUndefined JUndefined.

Definition TypeError (msg : jsstring) : js_error :=
  mkError C_TypeError (lit "TypeError") (JStr msg)
          JUndefined JUndefined JUndefined JUndefined JUndefined.

Definition SyntaxError (msg : jsstring) : js_error :=
  mkError C_SyntaxError (lit "SyntaxError") (JStr msg)
          JUndefined JUndefined JUndefined JUndefined JUndefined.

(** [class ModelPilotError extends Error];
    [constructor(message, options = {})]. *)
Definition ModelPilotError (msg : jsval) (options : jsval) : js_error :=
  let options := if Js.is_undefined options then JObj [] else options in
  mkError C_ModelPilotError (lit "ModelPilotError") msg
          (Js.or (Js.prop options (lit "type")) (JStr (lit "modelpilot_error")))
          (Js.prop options (lit "code"))
          (Js.prop options (lit "param"))
          JUndefined JUndefined.

(** [class APIError extends ModelPilotError];
    [constructor(message, status, response = null)], with
    [response?.error?.code] and [response?.error?.param]. *)
Definition APIError (msg : jsval) (st : jsval) (resp : jsval) : js_error :=
  let resp := if Js.is_undefined resp then JNull else resp in
  let base := ModelPilotError msg (JObj [(lit "type", JStr (lit "api_error"))]) in
  mkError C_APIError (lit "APIError") (message base) (type base)
          (Js.prop (Js.prop resp (lit "error")) (lit "code"))
          (Js.prop (Js.prop resp (lit "error")) (lit "param"))
          st resp.

(** The subclasses of [APIError] call [super(message, status)] and then
    set [name] and [type]. *)
Definition subclass (c : error_class) (nm : string) (ty : string)
           (base : js_error) : js_error :=
  mkError c (lit nm) (message base) (JStr (lit ty))
          (code base) (param base) (status base) (response base).

Definition AuthenticationError (msg : jsval) : js_error :=
  subclass C_AuthenticationError "AuthenticationError" "authentication_error"
           (APIError msg (JNum 401) JUndefined).

Definition RateLimitError (msg : jsval) : js_error :=
  subclass C_RateLimitError "RateLimitError" "rate_limit_exceeded"
           (APIError msg (JNum 429) JUndefined).

(** [constructor(message, param = null)]: [this.param = param]. *)
Definition InvalidRequestError (msg : jsval) (prm : jsval) : js_error :=
  let prm := if Js.is_undefined prm then JNull else prm in
  let base := subclass C_InvalidRequestError "InvalidRequestError"
                       "invalid_request_error" (APIError msg (JNum 400) JUndefined) in
  mkError (class base) (name base) (message base) (type base)
          (code base) prm (status base) (response base).

Definition PermissionDeniedError (msg : jsval) : js_error :=
  subclass C_PermissionDeniedError "PermissionDeniedError" "permission_denied"
           (APIError msg (JNum 403) JUndefined).

Definition NotFoundError (msg : jsval) : js_error :=
  subclass C_NotFoundError "NotFoundError" "not_found_error"
           (APIError msg (JNum 404) JUndefined).

Definition ConflictError (msg : jsval) : js_error :=
  subclass C_ConflictError "ConflictError" "conflict_error"
           (APIError msg (JNum 409) JUndefined).

Definition UnprocessableEntityError (msg : jsval) : js_error :=
  subclass C_UnprocessableEntityError "UnprocessableEntityError"
           "unprocessable_entity" (APIError msg (JNum 422) JUndefined).

Definition InternalServerError (msg : jsval) : js_error :=
  subclass C_InternalServerError "InternalServerError" "internal_server_error"
           (APIError msg (JNum 500) JUndefined).

End Errors.

(* ===================================================================== *)
(** ** Computations that may throw *)
(* ===================================================================== *)

Inductive result (A : Type) : Type :=
| Ok (a : A)
| Throw (e : js_error).

Arguments Ok {A} a.
Arguments Throw {A} e.

Module Exn.

Definition bind {A B : Type} (c : result A) (k : A -> result B) : result B :=
  match c with
  | Ok a => k a
  | Throw e => Throw e
  end.

(** [if (cond) throw e;] *)
Definition throw_if (cond : bool) (e : js_error) : result unit :=
  if cond then Throw e else Ok tt.

(** [try { body } catch (error) { handler }] with a handler that ignores
    the error. *)
Definition try_catch {A : Type} (body : result A) (handler : A) : A :=
  match body with
  | Ok a => a
  | Throw _ => handler
  end.

(** Property read that throws on [null] and [undefined]. *)
Definition get (v : jsval) (k : jsstring) : result jsval :=
  match v with
  | JUndefined =>
      Throw (Errors.TypeError
               (lit "Cannot read properties of undefined (reading '" ++ k ++ lit "')"))
  | JNull =>
      Throw (Errors.TypeError
               (lit "Cannot read properties of null (reading '" ++ k ++ lit "')"))
  | _ => Ok (Js.prop v k)
  end.

End Exn.

Declare Scope exn_scope.
Delimit Scope exn_scope with exn.
Notation "x <- c ;; k" := (Exn.bind c (fun x => k))
  (at level 61, c at next level, right associativity) : exn_scope.
Notation "c ;; k" := (Exn.bind c (fun _ => k))
  (at level 61, right associativity) : exn_scope.
Local Open Scope exn_scope.

(* ===================================================================== *)
(** ** The client object ([index.js], fields set by the constructor) *)
(* ===================================================================== *)

Record ModelPilot : Type := mkClient {
  apiKey : jsval;
  baseURL : jsval;
  routerId : jsval;
  timeout : jsval;
  defaultHeaders : jsval;
  maxRetries : jsval
}.

(* ===================================================================== *)
(** ** Validators ([utils.js]) *)
(* ===================================================================== *)

Module Utils.

Import Exn.

Definition roles : list jsstring :=
  [lit "system"; lit "user"; lit "assistant"; lit "function"; lit "tool"].

(** [roles.includes(v)]. *)
Definition includes (l : list jsstring) (v : jsval) : bool :=
  existsb (Js.str_eq v) l.

(** The template literal [`${array}[${index}]${rest}`]. *)
Definition at_index (array : string) (index : nat) (rest : string) : jsstring :=
  lit array ++ lit "[" ++ JsString.of_nat index ++ lit "]" ++ lit rest.

(** Body of the [for (const [index, message] of messages.entries())]
    loop of [validateMessages]. *)
Fixpoint validateMessages_entries (index : nat) (entries : list jsval)
  : result unit :=
  match entries with
  | [] => Ok tt
  | message :: rest =>
      throw_if (negb (Js.truthy message) || negb (Js.typeof message =? "object")%string)
               (Errors.Error (at_index "messages" index " must be an object")) ;;
      throw_if (negb (Js.truthy (Js.prop message (lit "role"))))
               (Errors.Error (at_index "messages" index ".role is required")) ;;
      throw_if (negb (includes roles (Js.prop message (lit "role"))))
               (Errors.Error
                  (at_index "messages" index
                     ".role must be one of: system, user, assistant, function, tool")) ;;
      throw_if (negb (Js.truthy (Js.prop message (lit "content")))
                && negb (Js.truthy (Js.prop message (lit "function_call")))
                && negb (Js.truthy (Js.prop message (lit "tool_calls"))))
               (Errors.Error
                  (at_index "messages" index
                     ".content is required when role is not function or tool")) ;;
      validateMessages_entries (S index) rest
  end.

Definition validateMessages (messages : jsval) : result unit :=
  match messages with
  | JArr items =>
      throw_if (Nat.eqb (List.length items) 0)
               (Errors.Error (lit "messages array cannot be empty")) ;;
      validateMessages_entries 0 items
  | _ => Throw (Errors.Error (lit "messages must be an array"))
  end.

Fixpoint validateFunctions_entries (index : nat) (entries : list jsval)
  : result unit :=
  match entries with
  | [] => Ok tt
  | func :: rest =>
      throw_if (negb (Js.truthy func) || negb (Js.typeof func =? "object")%string)
               (Errors.Error (at_index "functions" index " must be an object")) ;;
      throw_if (negb (Js.truthy (Js.prop func (lit "name")))
                || negb (Js.typeof (Js.prop func (lit "name")) =? "string")%string)
               (Errors.Error
                  (at_index "functions" index ".name is required and must be a string")) ;;
      throw_if (Js.truthy (Js.prop func (lit "description"))
                && negb (Js.typeof (Js.prop func (lit "description")) =? "string")%string)
               (Errors.Error
                  (at_index "functions" index ".description must be a string")) ;;
      throw_if (Js.truthy (Js.prop func (lit "parameters"))
                && negb (Js.typeof (Js.prop func (lit "parameters")) =? "object")%string)
               (Errors.Error
                  (at_index "functions" index ".parameters must be an object")) ;;
      validateFunctions_entries (S index) rest
  end.

Definition validateFunctions (functions : jsval) : result unit :=
  match functions with
  | JArr items => validateFunctions_entries 0 items
  | _ => Throw (Errors.Error (lit "functions must be an array"))
  end.

Fixpoint validateTools_entries (index : nat) (entries : list jsval)
  : result unit :=
  match entries with
  | [] => Ok tt
  | tool :: rest =>
      throw_if (negb (Js.truthy tool) || negb (Js.typeof tool =? "object")%string)
               (Errors.Error (at_index "tools" index " must be an object")) ;;
      throw_if (negb (Js.truthy (Js.prop tool (lit "type"))))
               (Errors.Error (at_index "tools" index ".type is required")) ;;
      (if Js.str_eq (Js.prop tool (lit "type")) (lit "function") then
         throw_if (negb (Js.truthy (Js.prop tool (lit "function"))))
                  (Errors.Error
                     (at_index "tools" index
                        ".function is required when type is 'function'")) ;;
         validateFunctions (JArr [Js.prop tool (lit "function")])
       else Ok tt) ;;
      validateTools_entries (S index) rest
  end.

Definition validateTools (tools : jsval) : result unit :=
  match tools with
  | JArr items => validateTools_entries 0 items
  | _ => Throw (Errors.Error (lit "tools must be an array"))
  end.

End Utils.

(* ===================================================================== *)
(** ** Chat completions ([chat.js]) *)
(* ===================================================================== *)

(** The request path [`/router/${routerId}`], kept as its interpolated
    value. *)
Inductive endpoint : Type :=
| RouterEndpoint (routerId : jsval).

(** What [create] hands to the network layer once validation passed:
    either [this.client.request(endpoint, options)] or a direct
    [this.client.httpClient(config)] call for streaming. *)
Inductive dispatch : Type :=
| ViaRequest (url : endpoint) (options : list (jsstring * jsval))
| ViaHttpClient (url : endpoint) (config : list (jsstring * jsval)).

Module ChatCompletions.

Import Exn.

(** [if (params.key !== undefined) optional.key = params.key;] *)
Definition copy_defined (params : jsval) (key : jsstring)
           (optional : list (jsstring * jsval)) : list (jsstring * jsval) :=
  if negb (Js.is_undefined (Js.prop params key))
  then Js.set_prop optional key (Js.prop params key)
  else optional.

(** [if (params.key) optional.key = params.key;] *)
Definition copy_truthy (params : jsval) (key : jsstring)
           (optional : list (jsstring * jsval)) : list (jsstring * jsval) :=
  if Js.truthy (Js.prop params key)
  then Js.set_prop optional key (Js.prop params key)
  else optional.

Definition _buildOptionalParams (params : jsval) : list (jsstring * jsval) :=
  let optional := [] in
  (* Model selection *)
  let optional := copy_truthy params (lit "model") optional in
  (* Sampling parameters *)
  let optional := copy_defined params (lit "max_tokens") optional in
  let optional := copy_defined params (lit "temperature") optional in
  let optional := copy_defined params (lit "top_p") optional in
  let optional := copy_defined params (lit "frequency_penalty") optional in
  let optional := copy_defined params (lit "presence_penalty") optional in
  let optional := copy_defined params (lit "stop") optional in
  (* Function calling (legacy) *)
  let optional := copy_defined params (lit "functions") optional in
  let optional := copy_defined params (lit "function_call") optional in
  (* Tool calling (modern) *)
  let optional := copy_defined params (lit "tools") optional in
  let optional := copy_defined params (lit "tool_choice") optional in
  (* Response format *)
  let optional := copy_defined params (lit "response_format") optional in
  (* User identifier *)
  let optional := copy_defined params (lit "user") optional in
  (* Streaming *)
  let optional := copy_defined params (lit "stream") optional in
  optional.

Definition _createCompletion (client : ModelPilot)
           (payload : list (jsstring * jsval)) : dispatch :=
  ViaRequest (RouterEndpoint (routerId client))
             [(lit "method", JStr (lit "POST")); (lit "data", JObj payload)].

Definition _createStreamingCompletion (client : ModelPilot)
           (payload : list (jsstring * jsval)) : dispatch :=
  ViaHttpClient (RouterEndpoint (routerId client))
                [(lit "method", JStr (lit "POST"));
                 (lit "data", JObj payload);
                 (lit "responseType", JStr (lit "stream"));
                 (lit "headers",
                   JObj [(lit "Accept", JStr (lit "text/event-stream"));
                         (lit "Cache-Control", JStr (lit "no-cache"))])].

Definition create (client : ModelPilot) (params : jsval) : result dispatch :=
  (* Validate required parameters *)
  messages <- get params (lit "messages") ;;
  throw_if (negb (Js.truthy messages))
           (Errors.InvalidRequestError (JStr (lit "messages is required"))
                                       (JStr (lit "messages"))) ;;
  Utils.validateMessages messages ;;
  (* Validate optional parameters *)
  (if Js.truthy (Js.prop params (lit "functions"))
   then Utils.validateFunctions (Js.prop params (lit "functions"))
   else Ok tt) ;;
  (if Js.truthy (Js.prop params (lit "tools"))
   then Utils.validateTools (Js.prop params (lit "tools"))
   else Ok tt) ;;
  throw_if (Js.truthy (Js.prop params (lit "max_tokens"))
            && (negb (Js.typeof (Js.prop params (lit "max_tokens")) =? "number")%string
                || Js.le (Js.prop params (lit "max_tokens")) 0))
           (Errors.InvalidRequestError
              (JStr (lit "max_tokens must be a positive number"))
              (JStr (lit "max_tokens"))) ;;
  throw_if (Js.truthy (Js.prop params (lit "temperature"))
            && (negb (Js.typeof (Js.prop params (lit "temperature")) =? "number")%string
                || Js.lt (Js.prop params (lit "temperature")) 0
                || Js.gt (Js.prop params (lit "temperature")) 2))
           (Errors.InvalidRequestError
              (JStr (lit "temperature must be between 0 and 2"))
              (JStr (lit "temperature"))) ;;
  throw_if (Js.truthy (Js.prop params (lit "top_p"))
            && (negb (Js.typeof (Js.prop params (lit "top_p")) =? "number")%string
                || Js.le (Js.prop params (lit "top_p")) 0
                || Js.gt (Js.prop params (lit "top_p")) 1))
           (Errors.InvalidRequestError
              (JStr (lit "top_p must be between 0 and 1"))
              (JStr (lit "top_p"))) ;;
  (* Build request payload *)
  let requestPayload :=
    Js.spread [(lit "messages", Js.prop params (lit "messages"));
               (lit "routerId", routerId client)]
              (_buildOptionalParams params) in
  (* Handle streaming vs non-streaming *)
  if Js.truthy (Js.prop params (lit "stream"))
  then Ok (_createStreamingCompletion client requestPayload)
  else Ok (_createCompletion client requestPayload).

(** The JSON body of the call [create] dispatches. *)
Definition payload_of (d : dispatch) : jsval :=
  match d with
  | ViaRequest _ options => Js.prop (JObj options) (lit "data")
  | ViaHttpClient _ config => Js.prop (JObj config) (lit "data")
  end.

End ChatCompletions.

(* ===================================================================== *)
(** ** The client facade and the transport ([index.js]) *)
(* ===================================================================== *)

(** What the HTTP library hands back.  A response carries the numeric
    status and the parsed body; a rejection is the library's error
    object ([error.message], [error.response], [error.request]): a
    string message, the response when one was received, and whether a
    request object is attached. *)
Record axios_response : Type := mkResponse {
  resp_status : Z;
  resp_data : jsval
}.

Record axios_error : Type := mkAxiosError {
  ae_message : jsstring;
  ae_response : option axios_response;
  ae_request : bool
}.

Inductive axios_outcome : Type :=
| Resolved (r : axios_response)
| Rejected (e : axios_error).

(** How a call of [request] ends: [return v] or [throw v], where the
    thrown value is [lastError] ([None] standing for [undefined]). *)
Inductive completion : Type :=
| Returned (v : jsval)
| Thrown (e : option js_error).

(** One run of [request]: how it ended, how many times the HTTP client
    was called, and the back-off delays slept, oldest first. *)
Record request_run : Type := mkRun {
  outcome : completion;
  attempts : nat;
  delays : list Z
}.

Module Client.

Import Exn.

Definition validateConfig (config : jsval) : result jsval :=
  key <- get config (lit "apiKey") ;;
  throw_if (negb (Js.truthy key))
           (Errors.Error
              (lit "ModelPilot API key is required. Get one at https://modelpilot.co")) ;;
  throw_if (negb (Js.typeof (Js.prop config (lit "apiKey")) =? "string")%string)
           (Errors.Error (lit "API key must be a string")) ;;
  throw_if (Js.truthy (Js.prop config (lit "baseURL"))
            && negb (Js.typeof (Js.prop config (lit "baseURL")) =? "string")%string)
           (Errors.Error (lit "baseURL must be a string")) ;;
  throw_if (Js.truthy (Js.prop config (lit "timeout"))
            && (negb (Js.typeof (Js.prop config (lit "timeout")) =? "number")%string
                || Js.le (Js.prop config (lit "timeout")) 0))
           (Errors.Error (lit "timeout must be a positive number")) ;;
  throw_if (Js.truthy (Js.prop config (lit "maxRetries"))
            && (negb (Js.typeof (Js.prop config (lit "maxRetries")) =? "number")%string
                || Js.lt (Js.prop config (lit "maxRetries")) 0))
           (Errors.Error (lit "maxRetries must be a non-negative number")) ;;
  Ok config.

(** [this.apiKey.startsWith('mp_')]; the receiver is a string once
    [validateConfig] has passed. *)
Definition startsWith (v : jsval) (p : jsstring) : result bool :=
  match v with
  | JStr s => Ok (JsString.startsWith s p)
  | _ => Throw (Errors.TypeError (lit "this.apiKey.startsWith is not a function"))
  end.

(** [constructor(config = {})], up to the point where the HTTP client
    is created (which cannot fail). *)
Definition constructor (config : jsval) : result ModelPilot :=
  let config := if Js.is_undefined config then JObj [] else config in
  validatedConfig <- validateConfig config ;;
  let this :=
    mkClient
      (Js.prop validatedConfig (lit "apiKey"))
      (Js.or (Js.prop validatedConfig (lit "baseURL"))
             (JStr (lit "https://your-firebase-project.cloudfunctions.net")))
      (Js.or (Js.prop validatedConfig (lit "routerId")) (JStr (lit "default")))
      (Js.or (Js.prop validatedConfig (lit "timeout")) (JNum 30000))
      (Js.or (Js.prop validatedConfig (lit "defaultHeaders")) (JObj []))
      (Js.or (Js.prop validatedConfig (lit "maxRetries")) (JNum 3)) in
  ok <- startsWith (apiKey this) (lit "mp_") ;;
  throw_if (negb ok)
           (Errors.Error
              (lit "Invalid ModelPilot API key format. API key must start with "
               ++ [34%N] ++ lit "mp_" ++ [34%N]
               ++ lit ". Get your API key from https://modelpilot.co")) ;;
  Ok this.

(** [_handleError(error)]: the response interceptor's rejection
    handler.  It never returns normally. *)
Definition _handleError (error : axios_error) : result axios_response :=
  match ae_response error with
  | Some r =>
      let status := resp_status r in
      let data := resp_data r in
      if (status =? 401)%Z then
        msg <- get data (lit "message") ;;
        Throw (Errors.AuthenticationError (Js.or msg (JStr (lit "Invalid API key"))))
      else if (status =? 429)%Z then
        msg <- get data (lit "message") ;;
        Throw (Errors.RateLimitError (Js.or msg (JStr (lit "Rate limit exceeded"))))
      else if (status =? 400)%Z then
        msg <- get data (lit "message") ;;
        Throw (Errors.APIError (Js.or msg (JStr (lit "Bad request")))
                               (JNum (inject_Z status)) data)
      else if (status =? 422)%Z then
        msg <- get data (lit "message") ;;
        Throw (Errors.APIError (Js.or msg (JStr (lit "Bad request")))
                               (JNum (inject_Z status)) data)
      else
        msg <- get data (lit "message") ;;
        Throw (Errors.APIError (Js.or msg (JStr (lit "API error")))
                               (JNum (inject_Z status)) data)
  | None =>
      if ae_request error then
        Throw (Errors.ModelPilotError
                 (JStr (lit "Network error: No response received")) JUndefined)
      else
        Throw (Errors.ModelPilotError
                 (JStr (lit "Request error: " ++ ae_message error)) JUndefined)
  end.

Definition handleResponse (response : axios_response) : axios_response := response.

(** [this.httpClient(config)] seen from [request]: the HTTP library's
    outcome passed through the response interceptors. *)
Definition intercepted (o : axios_outcome) : result axios_response :=
  match o with
  | Resolved r => Ok (handleResponse r)
  | Rejected e => _handleError e
  end.

(** [Math.min(1000 * Math.pow(2, attempt), 10000)]. *)
Definition backoff (attempt : nat) : Z :=
  Z.min (1000 * 2 ^ Z.of_nat attempt) 10000.

(** [attempt <= this.maxRetries] and [attempt === this.maxRetries]. *)
Definition attempt_le (attempt : nat) (limit : jsval) : bool :=
  match limit with
  | JNum m => Qle_bool (inject_Z (Z.of_nat attempt)) m
  | _ => false
  end.

Definition attempt_eq (attempt : nat) (limit : jsval) : bool :=
  match limit with
  | JNum m => Qeq_bool (inject_Z (Z.of_nat attempt)) m
  | _ => false
  end.

(** The retry loop of [request(endpoint, options)].  The endpoint and
    the options only make up the configuration object, which is the same
    for every call of [this.httpClient(config)]; the transport is
    therefore given as [httpClient k], the outcome of the [k]-th call
    made during this request.  [fuel] bounds the number of iterations;
    [None] means it ran out, which [request] never does
    ([request_total]). *)
Fixpoint request_loop (this : ModelPilot) (httpClient : nat -> axios_outcome)
         (fuel : nat) (attempt : nat) (lastError : option js_error)
         (slept : list Z) : option request_run :=
  if negb (attempt_le attempt (maxRetries this)) then
    Some (mkRun (Thrown lastError) attempt slept)
  else
    match fuel with
    | O => None
    | S fuel' =>
        match intercepted (httpClient attempt) with
        | Ok response =>
            Some (mkRun (Returned (resp_data response)) (S attempt) slept)
        | Throw error =>
            (* Don't retry on authentication or client errors *)
            if Errors.instanceof error C_AuthenticationError
               || (Errors.instanceof error C_APIError && Js.lt (status error) 500)
            then Some (mkRun (Thrown (Some error)) (S attempt) slept)
            (* Don't retry on last attempt *)
            else if attempt_eq attempt (maxRetries this)
            then Some (mkRun (Thrown (Some error)) (S attempt) slept)
            (* Exponential backoff *)
            else request_loop this httpClient fuel' (S attempt) (Some error)
                              (slept ++ [backoff attempt])
        end
    end.

(** Iterations the loop can need: [attempt] ranges over the naturals
    not above [maxRetries]. *)
Definition iterations (limit : jsval) : nat :=
  match limit with
  | JNum m => Z.to_nat (Qfloor m + 1)
  | _ => 0
  end.

Definition request (this : ModelPilot) (httpClient : nat -> axios_outcome)
  : option request_run :=
  request_loop this httpClient (iterations (maxRetries this)) 0 None [].

End Client.

(* ===================================================================== *)
(** ** String built-ins used by the stream decoder *)
(* ===================================================================== *)

Module Str.

(** [s.split(sep)] for a one-character separator: never empty. *)
Fixpoint split (sep : N) (s : jsstring) : list jsstring :=
  match s with
  | [] => [[]]
  | c :: s' =>
      if N.eqb c sep then [] :: split sep s'
      else match split sep s' with
           | l :: ls => (c :: l) :: ls
           | [] => [[c]]
           end
  end.

Definition newline : N := 10.

(** [array.join(sep)] for a one-character separator. *)
Fixpoint join (sep : N) (l : list jsstring) : jsstring :=
  match l with
  | [] => []
  | [x] => x
  | x :: rest => x ++ sep :: join sep rest
  end.

(** WhiteSpace and LineTerminator code units, as [trim] strips them. *)
Definition is_space (c : N) : bool :=
  (((9 <=? c) && (c <=? 13)) || (c =? 32) || (c =? 160) || (c =? 5760)
   || ((8192 <=? c) && (c <=? 8202)) || (c =? 8232) || (c =? 8233)
   || (c =? 8239) || (c =? 8287) || (c =? 12288) || (c =? 65279))%N.

Fixpoint trimStart (s : jsstring) : jsstring :=
  match s with
  | c :: s' => if is_space c then trimStart s' else s
  | [] => []
  end.

Definition trimEnd (s : jsstring) : jsstring := rev (trimStart (rev s)).

Definition trim (s : jsstring) : jsstring := trimEnd (trimStart s).

(** [s.replace(/^data: /, '')]. *)
Definition strip_data_prefix (s : jsstring) : jsstring :=
  if JsString.startsWith s (lit "data: ") then skipn 6 s else s.

Definition is_empty (s : jsstring) : bool :=
  match s with [] => true | _ => false end.

End Str.

(* ===================================================================== *)
(** ** [JSON.parse] *)
(* ===================================================================== *)

Module JSON.

Inductive token : Type :=
| TLBrace | TRBrace | TLBrack | TRBrack | TColon | TComma
| TStr (s : jsstring)
| TNum (q : Q)
| TTrue | TFalse | TNull.

Definition is_digit (c : N) : bool := ((48 <=? c) && (c <=? 57))%N.

Definition is_ws (c : N) : bool :=
  ((c =? 32) || (c =? 9) || (c =? 10) || (c =? 13))%N.

(** Characters that can occur inside a number lexeme. *)
Definition is_num_char (c : N) : bool :=
  (is_digit c || (c =? 45) || (c =? 43) || (c =? 46) || (c =? 101) || (c =? 69))%N.

Definition is_lower (c : N) : bool := ((97 <=? c) && (c <=? 122))%N.

Definition hex_value (c : N) : option N :=
  if is_digit c then Some (c - 48)%N
  else if ((97 <=? c) && (c <=? 102))%N then Some (c - 87)%N
  else if ((65 <=? c) && (c <=? 70))%N then Some (c - 55)%N
  else None.

Fixpoint span (p : N -> bool) (s : jsstring) : jsstring * jsstring :=
  match s with
  | c :: s' => if p c then let (a, b) := span p s' in (c :: a, b) else ([], s)
  | [] => ([], [])
  end.

Definition digits_to_Z (ds : jsstring) : Z :=
  fold_left (fun acc c => 10 * acc + Z.of_N (c - 48))%Z ds 0%Z.

(** The value [m * 10^e]. *)
Definition scale (m e : Z) : Q :=
  if (0 <=? e)%Z then inject_Z (m * 10 ^ e)
  else Qmake m (Z.to_pos (10 ^ (- e))).

(** A complete number lexeme: an optional minus sign; an integer part
    that is a single zero or digits not starting with zero; an optional
    fraction (a dot and at least one digit); an optional exponent
    (e or E, an optional sign, at least one digit). *)
Definition parse_number (s : jsstring) : option Q :=
  let (negative, s1) :=
    match s with
    | 45%N :: r => (true, r)
    | _ => (false, s)
    end in
  let (int_part, s2) := span is_digit s1 in
  match int_part with
  | [] => None
  | d :: more =>
      if (d =? 48)%N && negb (Str.is_empty more) then None
      else
        let frac :=
          match s2 with
          | 46%N :: r =>
              let (f, r') := span is_digit r in
              if Str.is_empty f then None else Some (f, r')
          | _ => Some ([], s2)
          end in
        match frac with
        | None => None
        | Some (frac_part, s3) =>
            let expo :=
              match s3 with
              | [] => Some 0%Z
              | c :: r =>
                  if ((c =? 101) || (c =? 69))%N then
                    let (eneg, r1) :=
                      match r with
                      | 45%N :: r' => (true, r')
                      | 43%N :: r' => (false, r')
                      | _ => (false, r)
                      end in
                    let (ed, r2) := span is_digit r1 in
                    if Str.is_empty ed || negb (Str.is_empty r2) then None
                    else Some (if eneg then - digits_to_Z ed else digits_to_Z ed)%Z
                  else None
              end in
            match expo with
            | None => None
            | Some e =>
                let m := digits_to_Z (int_part ++ frac_part) in
                let m := if negative then (- m)%Z else m in
                Some (scale m (e - Z.of_nat (List.length frac_part)))
            end
        end
  end.

Definition parse_word (s : jsstring) : option token :=
  if JsString.eqb s (lit "true") then Some TTrue
  else if JsString.eqb s (lit "false") then Some TFalse
  else if JsString.eqb s (lit "null") then Some TNull
  else None.

(** Lexer state. Accumulators hold characters in reverse. *)
Inductive lex_mode : Type :=
| LStart
| LStr (acc : jsstring)
| LEsc (acc : jsstring)
| LHex (acc : jsstring) (read : nat) (value : N)
| LNum (acc : jsstring)
| LWord (acc : jsstring).

(** A character met between tokens. *)
Definition start (c : N) (toks : list token) : option (lex_mode * list token) :=
  if is_ws c then Some (LStart, toks)
  else if (c =? 123)%N then Some (LStart, TLBrace :: toks)
  else if (c =? 125)%N then Some (LStart, TRBrace :: toks)
  else if (c =? 91)%N then Some (LStart, TLBrack :: toks)
  else if (c =? 93)%N then Some (LStart, TRBrack :: toks)
  else if (c =? 58)%N then Some (LStart, TColon :: toks)
  else if (c =? 44)%N then Some (LStart, TComma :: toks)
  else if (c =? 34)%N then Some (LStr [], toks)
  else if is_digit c || (c =? 45)%N then Some (LNum [c], toks)
  else if is_lower c then Some (LWord [c], toks)
  else None.

(** The character an escape denotes: quotation mark, reverse solidus,
    solidus, then b, f, n, r, t. *)
Definition escape (c : N) : option N :=
  if (c =? 34)%N then Some 34%N
  else if (c =? 92)%N then Some 92%N
  else if (c =? 47)%N then Some 47%N
  else if (c =? 98)%N then Some 8%N
  else if (c =? 102)%N then Some 12%N
  else if (c =? 110)%N then Some 10%N
  else if (c =? 114)%N then Some 13%N
  else if (c =? 116)%N then Some 9%N
  else None.

(** Tokens are accumulated in reverse. *)
Fixpoint lex (mode : lex_mode) (toks : list token) (s : jsstring)
  : option (list token) :=
  match s with
  | [] =>
      match mode with
      | LStart => Some (rev toks)
      | LNum acc =>
          match parse_number (rev acc) with
          | Some q => Some (rev (TNum q :: toks))
          | None => None
          end
      | LWord acc =>
          match parse_word (rev acc) with
          | Some t => Some (rev (t :: toks))
          | None => None
          end
      | LStr _ | LEsc _ | LHex _ _ _ => None
      end
  | c :: s' =>
      match mode with
      | LStart =>
          match start c toks with
          | Some (mode', toks') => lex mode' toks' s'
          | None => None
          end
      | LStr acc =>
          if (c =? 34)%N then lex LStart (TStr (rev acc) :: toks) s'
          else if (c =? 92)%N then lex (LEsc acc) toks s'
          else if (c <? 32)%N then None
          else lex (LStr (c :: acc)) toks s'
      | LEsc acc =>
          if (c =? 117)%N then lex (LHex acc 0 0%N) toks s'
          else match escape c with
               | Some x => lex (LStr (x :: acc)) toks s'
               | None => None
               end
      | LHex acc read value =>
          match hex_value c with
          | Some h =>
              let value' := (16 * value + h)%N in
              if Nat.eqb read 3 then lex (LStr (value' :: acc)) toks s'
              else lex (LHex acc (S read) value') toks s'
          | None => None
          end
      | LNum acc =>
          if is_num_char c then lex (LNum (c :: acc)) toks s'
          else match parse_number (rev acc) with
               | Some q =>
                   match start c (TNum q :: toks) with
                   | Some (mode', toks') => lex mode' toks' s'
                   | None => None
                   end
               | None => None
               end
      | LWord acc =>
          if is_lower c then lex (LWord (c :: acc)) toks s'
          else match parse_word (rev acc) with
               | Some t =>
                   match start c (t :: toks) with
                   | Some (mode', toks') => lex mode' toks' s'
                   | None => None
                   end
               | None => None
               end
      end
  end.

(** Containers under construction, innermost first. *)
Inductive frame : Type :=
| FArr (items : list jsval)                            (* reversed *)
| FObj (props : list (jsstring * jsval))               (* between members *)
| FKey (props : list (jsstring * jsval)) (key : jsstring). (* awaiting a member's value *)

Inductive parse_mode : Type :=
| MValue      (* a value must follow *)
| MArrFirst   (* just after '[' *)
| MObjFirst   (* just after '{' *)
| MKey        (* after ',' in an object *)
| MColon      (* after a member name *)
| MAfter      (* after a value inside a container *)
| MDone (v : jsval).

(** A value is complete: hand it to the enclosing container. *)
Definition complete (v : jsval) (stack : list frame)
  : option (parse_mode * list frame) :=
  match stack with
  | [] => Some (MDone v, [])
  | FArr items :: outer => Some (MAfter, FArr (v :: items) :: outer)
  | FKey props key :: outer => Some (MAfter, FObj (Js.set_prop props key v) :: outer)
  | FObj _ :: _ => None
  end.

Definition value_start (t : token) (stack : list frame)
  : option (parse_mode * list frame) :=
  match t with
  | TStr s => complete (JStr s) stack
  | TNum q => complete (JNum q) stack
  | TTrue => complete (JBool true) stack
  | TFalse => complete (JBool false) stack
  | TNull => complete JNull stack
  | TLBrack => Some (MArrFirst, FArr [] :: stack)
  | TLBrace => Some (MObjFirst, FObj [] :: stack)
  | TRBrace | TRBrack | TColon | TComma => None
  end.

Definition step (mode : parse_mode) (stack : list frame) (t : token)
  : option (parse_mode * list frame) :=
  match mode, t, stack with
  | MValue, _, _ => value_start t stack
  | MArrFirst, TRBrack, FArr _ :: outer => complete (JArr []) outer
  | MArrFirst, _, _ => value_start t stack
  | MObjFirst, TRBrace, FObj _ :: outer => complete (JObj []) outer
  | MObjFirst, TStr k, FObj props :: outer => Some (MColon, FKey props k :: outer)
  | MKey, TStr k, FObj props :: outer => Some (MColon, FKey props k :: outer)
  | MColon, TColon, _ => Some (MValue, stack)
  | MAfter, TComma, FArr _ :: _ => Some (MValue, stack)
  | MAfter, TRBrack, FArr items :: outer => complete (JArr (rev items)) outer
  | MAfter, TComma, FObj _ :: _ => Some (MKey, stack)
  | MAfter, TRBrace, FObj props :: outer => complete (JObj props) outer
  | _, _, _ => None
  end.

Fixpoint run (mode : parse_mode) (stack : list frame) (toks : list token)
  : option jsval :=
  match toks with
  | [] => match mode, stack with
          | MDone v, [] => Some v
          | _, _ => None
          end
  | t :: toks' =>
      match step mode stack t with
      | Some (mode', stack') => run mode' stack' toks'
      | None => None
      end
  end.

(** [JSON.parse(text)]: the parsed value, or a [SyntaxError]. *)
Definition parse (text : jsstring) : result jsval :=
  match lex LStart [] text with
  | Some toks =>
      match run MValue [] toks with
      | Some v => Ok v
      | None => Throw (Errors.SyntaxError (lit "Unexpected token in JSON"))
      end
  | None => Throw (Errors.SyntaxError (lit "Unexpected token in JSON"))
  end.

End JSON.

(* ===================================================================== *)
(** ** The stream decoder ([utils.js], [chat.js]) *)
(* ===================================================================== *)

Module Stream.

Import Exn.

(** [extractStreamingText(chunk)]: the extracted content, or [null].
    The whole body sits in a [try] whose handler returns [null]. *)
Definition extractStreamingText (chunk : jsstring) : jsval :=
  try_catch
    (let cleanChunk := Str.strip_data_prefix chunk in
     (* Skip empty lines and [DONE] marker *)
     if Str.is_empty (Str.trim cleanChunk)
        || JsString.eqb (Str.trim cleanChunk) (lit "[DONE]")
     then Ok JNull
     else
       parsed <- JSON.parse cleanChunk ;;
       choices <- get parsed (lit "choices") ;;
       if Js.truthy choices && Js.truthy (Js.prop choices (lit "0")) then
         let choice := Js.prop choices (lit "0") in
         (* Handle delta format (streaming) *)
         if Js.truthy (Js.prop choice (lit "delta"))
            && Js.truthy (Js.prop (Js.prop choice (lit "delta")) (lit "content"))
         then Ok (Js.prop (Js.prop choice (lit "delta")) (lit "content"))
         (* Handle message format (non-streaming) *)
         else if Js.truthy (Js.prop choice (lit "message"))
                 && Js.truthy (Js.prop (Js.prop choice (lit "message")) (lit "content"))
         then Ok (Js.prop (Js.prop choice (lit "message")) (lit "content"))
         else Ok JNull
       else Ok JNull)
    JNull.

(** The chunk object yielded for an extracted text. *)
Definition content_chunk (created : Z) (text : jsval) : jsval :=
  JObj [(lit "choices",
          JArr [JObj [(lit "delta", JObj [(lit "content", text)]);
                      (lit "index", JNum 0);
                      (lit "finish_reason", JNull)]]);
        (lit "created", JNum (inject_Z created));
        (lit "model", JStr (lit "modelpilot-routed"));
        (lit "object", JStr (lit "chat.completion.chunk"))].

(** The final chunk with [finish_reason]. *)
Definition final_chunk (created : Z) : jsval :=
  JObj [(lit "choices",
          JArr [JObj [(lit "delta", JObj []);
                      (lit "index", JNum 0);
                      (lit "finish_reason", JStr (lit "stop"))]]);
        (lit "created", JNum (inject_Z created));
        (lit "model", JStr (lit "modelpilot-routed"));
        (lit "object", JStr (lit "chat.completion.chunk"))].

(** A [ChatCompletionStream] object: the underlying source, given as
    the texts ([chunk.toString()]) still to be delivered, and the line
    buffer. *)
Record ChatCompletionStream : Type := mkStream {
  stream : list jsstring;
  _buffer : jsstring
}.

(** [new ChatCompletionStream(stream)]. *)
Definition new (source : list jsstring) : ChatCompletionStream :=
  mkStream source [].

Section Iteration.

(** [clock k] is what [Math.floor(Date.now() / 1000)] evaluates to
    when the [k]-th chunk of an iteration is built. *)
Variable clock : nat -> Z.

(** One line (or the remaining buffer): yield a chunk if text can be
    extracted.  [yielded] are the chunks produced so far. *)
Definition process (yielded : list jsval) (line : jsstring) : list jsval :=
  if negb (Str.is_empty (Str.trim line)) then
    let text := extractStreamingText line in
    match text with
    | JNull => yielded
    | _ => yielded ++ [content_chunk (clock (List.length yielded)) text]
    end
  else yielded.

(** Body of [for await (const chunk of this.stream)]: state is the
    buffer and the chunks yielded so far. *)
Definition receive (state : jsstring * list jsval) (chunk : jsstring)
  : jsstring * list jsval :=
  let (buffer, yielded) := state in
  let buffer := buffer ++ chunk in
  (* Process complete lines *)
  let lines := Str.split Str.newline buffer in
  let buffer := last lines [] in      (* lines.pop() || '' *)
  let lines := removelast lines in
  (buffer, fold_left process lines yielded).

(** The async iterator run to completion: the chunks yielded, in
    order, and the stream object afterwards. *)
Definition iterate (this : ChatCompletionStream)
  : list jsval * ChatCompletionStream :=
  let (buffer, yielded) := fold_left receive (stream this) (_buffer this, []) in
  (* Process any remaining buffer content *)
  let yielded := process yielded buffer in
  (* Send final chunk with finish_reason *)
  let yielded := yielded ++ [final_chunk (clock (List.length yielded))] in
  (yielded, mkStream [] buffer).

Definition toArray (this : ChatCompletionStream) : list jsval :=
  fst (iterate this).

End Iteration.

(** ToString, as string concatenation applies it.  [number] renders a
    number (Number::toString works on doubles, which are not
    modelled). *)
Fixpoint to_string (number : Q -> jsstring) (v : jsval) : jsstring :=
  match v with
  | JUndefined => lit "undefined"
  | JNull => lit "null"
  | JBool true => lit "true"
  | JBool false => lit "false"
  | JNum q => number q
  | JStr s => s
  | JArr items =>
      (fix join (l : list jsval) : jsstring :=
         match l with
         | [] => []
         | x :: rest =>
             (match x with
              | JUndefined | JNull => []
              | _ => to_string number x
              end)
             ++ match rest with
                | [] => []
                | _ => 44%N :: join rest
                end
         end) items
  | JObj _ => lit "[object Object]"
  end.

(** [chunk.choices[0].delta.content]. *)
Definition delta_content (chunk : jsval) : jsval :=
  Js.prop (Js.prop (Js.prop (Js.prop chunk (lit "choices")) (lit "0")) (lit "delta"))
          (lit "content").

(** [getText()]: concatenation of the truthy contents. *)
Definition getText (number : Q -> jsstring) (clock : nat -> Z)
           (this : ChatCompletionStream) : jsstring :=
  fold_left
    (fun text chunk =>
       if Js.truthy (delta_content chunk)
       then text ++ to_string number (delta_content chunk)
       else text)
    (toArray clock this) [].

End Stream.

(* ===================================================================== *)
(** ** Request headers and request configuration ([utils.js], [index.js]) *)
(* ===================================================================== *)

Module Obj.

(** The entries [i -> x_i] of an array or of a string, from index [i]. *)
Fixpoint indexed (i : nat) (items : list jsval) : list (jsstring * jsval) :=
  match items with
  | [] => []
  | x :: rest => (JsString.of_nat i, x) :: indexed (S i) rest
  end.

(** The own enumerable properties a spread [{...v}] copies: those of an
    object, the indexed elements of an array or the characters of a
    string, nothing for the other values. *)
Definition own_props (v : jsval) : list (jsstring * jsval) :=
  match v with
  | JObj props => props
  | JArr items => indexed 0 items
  | JStr s => indexed 0 (List.map (fun c => JStr [c]) s)
  | _ => []
  end.

End Obj.

Module Headers.

Import Exn.

(** The headers [buildHeaders] sets before the additional ones. *)
Definition default_headers (key : jsstring) : list (jsstring * jsval) :=
  [(lit "Authorization", JStr (lit "Bearer " ++ key));
   (lit "User-Agent", JStr (lit "modelpilot-js/1.0.0"));
   (lit "X-Client-Library", JStr (lit "modelpilot-js"));
   (lit "Content-Type", JStr (lit "application/json"))].

(** [buildHeaders(apiKey, additionalHeaders = {})].  Only strings have a
    [startsWith] method. *)
Definition buildHeaders (apiKey additionalHeaders : jsval)
  : result (list (jsstring * jsval)) :=
  let additionalHeaders :=
    if Js.is_undefined additionalHeaders then JObj [] else additionalHeaders in
  match apiKey with
  | JStr key =>
      throw_if (negb (JsString.startsWith key (lit "mp_")))
               (Errors.Error
                  (lit "Invalid ModelPilot API key format. API key must start with "
                   ++ [34%N] ++ lit "mp_" ++ [34%N])) ;;
      Ok (Js.spread (default_headers key) (Obj.own_props additionalHeaders))
  | JUndefined =>
      Throw (Errors.TypeError
               (lit "Cannot read properties of undefined (reading 'startsWith')"))
  | JNull =>
      Throw (Errors.TypeError
               (lit "Cannot read properties of null (reading 'startsWith')"))
  | _ => Throw (Errors.TypeError (lit "apiKey.startsWith is not a function"))
  end.

(** The request interceptor of the constructor:
    [config.headers = buildHeaders(this.apiKey, config.headers)]. *)
Definition request_interceptor (this : ModelPilot) (config : list (jsstring * jsval))
  : result (list (jsstring * jsval)) :=
  headers <- buildHeaders (apiKey this) (Js.prop (JObj config) (lit "headers")) ;;
  Ok (Js.set_prop config (lit "headers") (JObj headers)).

End Headers.

Module Transport.

Import Exn.

(** The configuration object [request(endpoint, options = {})] hands to
    the HTTP client. *)
Definition request_config (endpoint : jsval) (options : jsval)
  : result (list (jsstring * jsval)) :=
  let options := if Js.is_undefined options then JObj [] else options in
  method <- get options (lit "method") ;;
  Ok (Js.spread
        [(lit "url", endpoint);
         (lit "method", Js.or method (JStr (lit "POST")));
         (lit "data", Js.prop options (lit "data"));
         (lit "params", Js.prop options (lit "params"));
         (lit "headers", Js.prop options (lit "headers"))]
        (Obj.own_props options)).





End Transport.

(* ===================================================================== *)
(** * Vocabulary of the statements *)
(* ===================================================================== *)

(** A client value; validation and payload assembly only read its
    router identifier. *)
Definition sample_client : ModelPilot :=
  mkClient (JStr (lit "mp_test-api-key"))
           (JStr (lit "https://your-firebase-project.cloudfunctions.net"))
           (JStr (lit "default")) (JNum 30000) (JObj []) (JNum 3).

Definition validMessages : jsval :=
  JArr [JObj [(lit "role", JStr (lit "user")); (lit "content", JStr (lit "Hello!"))]].

(** The validators of [utils.js] only ever throw plain [Error]s, which
    carry no parameter name. *)
Definition plain_error (e : js_error) : Prop :=
  class e = C_Error /\ param e = JUndefined /\
  Errors.instanceof e C_InvalidRequestError = false.

(** Requests on which the checks that precede the sampling parameters
    pass: [messages] is valid, and [functions] and [tools] are absent or
    valid. *)
Definition passes_structure (params : jsval) : Prop :=
  Js.truthy (Js.prop params (lit "messages")) = true /\
  Utils.validateMessages (Js.prop params (lit "messages")) = Ok tt /\
  (Js.truthy (Js.prop params (lit "functions")) = false \/
   Utils.validateFunctions (Js.prop params (lit "functions")) = Ok tt) /\
  (Js.truthy (Js.prop params (lit "tools")) = false \/
   Utils.validateTools (Js.prop params (lit "tools")) = Ok tt).

(** The optional fields copied when defined, in the order of
    [_buildOptionalParams]. *)
Definition defined_keys : list jsstring :=
  [lit "max_tokens"; lit "temperature"; lit "top_p"; lit "frequency_penalty";
   lit "presence_penalty"; lit "stop"; lit "functions"; lit "function_call";
   lit "tools"; lit "tool_choice"; lit "response_format"; lit "user"; lit "stream"].

Definition mem (k : jsstring) (l : list jsstring) : bool :=
  existsb (JsString.eqb k) l.

(** The payload [create] puts on the wire. *)
Definition requestPayload (c : ModelPilot) (params : jsval) : list (jsstring * jsval) :=
  Js.spread [(lit "messages", Js.prop params (lit "messages"));
             (lit "routerId", routerId c)]
            (ChatCompletions._buildOptionalParams params).

Definition empty_model_request : jsval :=
  JObj [(lit "messages", validMessages); (lit "model", JStr [])].

Definition sample_config : jsval :=
  JObj [(lit "apiKey", JStr (lit "mp_test-api-key"))].

Definition sample_request : jsval :=
  JObj [(lit "messages", validMessages); (lit "max_tokens", JNum 100)].

(** The class [_handleError] picks for a status. *)
Definition class_of_status (s : Z) : error_class :=
  if (s =? 401)%Z then C_AuthenticationError
  else if (s =? 429)%Z then C_RateLimitError
  else C_APIError.



(** The test under "Don't retry on authentication or client errors". *)
Definition no_retry (e : js_error) : bool :=
  Errors.instanceof e C_AuthenticationError
  || (Errors.instanceof e C_APIError && Js.lt (status e) 500).

(** How [request] ends when the given attempt is its last. *)
Definition completion_of (r : result axios_response) : completion :=
  match r with
  | Ok response => Returned (resp_data response)
  | Throw e => Thrown (Some e)
  end.

(** An attempt the loop goes past. *)
Definition retried (o : axios_outcome) : Prop :=
  exists e, Client.intercepted o = Throw e /\ no_retry e = false.

(** An outcome as HTTP delivers it: an error response has a status in
    the range 100..599 and a body that is neither [null] nor
    [undefined]. *)
Definition well_formed (o : axios_outcome) : Prop :=
  match o with
  | Resolved _ => True
  | Rejected error =>
      match ae_response error with
      | Some r => (100 <= resp_status r <= 599)%Z /\ Js.nullish (resp_data r) = false
      | None => True
      end
  end.

(** A transient failure: a 5xx response, or no response at all. *)
Definition transient (o : axios_outcome) : Prop :=
  match o with
  | Resolved _ => False
  | Rejected error =>
      match ae_response error with
      | Some r => (500 <= resp_status r <= 599)%Z
      | None => True
      end
  end.


(** A transport that answers 500 twice and then succeeds. *)
Definition flaky_transport (k : nat) : axios_outcome :=
  if (k <? 2)%nat then
    Rejected (mkAxiosError (lit "Request failed with status code 500")
                (Some (mkResponse 500
                         (JObj [(lit "error",
                                  JObj [(lit "message", JStr (lit "Server error"))])])))
                true)
  else Resolved (mkResponse 200 (JObj [(lit "success", JBool true)])).

Definition zero_retries_config : list (jsstring * jsval) :=
  [(lit "apiKey", JStr (lit "mp_test-api-key")); (lit "maxRetries", JNum 5)].

(** A JSON string literal: the text between quotation marks. *)
Definition quoted (s : string) : jsstring := [34%N] ++ lit s ++ [34%N].

(** The three buffers of the streaming tests. *)
Definition hello_buffer : jsstring :=
  lit "data: {" ++ quoted "choices" ++ lit ":[{" ++ quoted "delta" ++ lit ":{"
  ++ quoted "content" ++ lit ":" ++ quoted "Hello" ++ lit "}}]}" ++ [10%N; 10%N].

Definition world_buffer : jsstring :=
  lit "data: {" ++ quoted "choices" ++ lit ":[{" ++ quoted "delta" ++ lit ":{"
  ++ quoted "content" ++ lit ":" ++ quoted " world" ++ lit "}}]}" ++ [10%N; 10%N].

Definition done_buffer : jsstring := lit "data: [DONE]" ++ [10%N; 10%N].

(** Accessors on a yielded chunk. *)
Definition choice0 (chunk : jsval) : jsval :=
  Js.prop (Js.prop chunk (lit "choices")) (lit "0").

Definition delta (chunk : jsval) : jsval := Js.prop (choice0 chunk) (lit "delta").
Definition index (chunk : jsval) : jsval := Js.prop (choice0 chunk) (lit "index").
Definition finish_reason (chunk : jsval) : jsval :=
  Js.prop (choice0 chunk) (lit "finish_reason").
Definition object (chunk : jsval) : jsval := Js.prop chunk (lit "object").

(** Decoding a whole text at once: every complete line, then the
    unfinished rest, then the final chunk. *)
Definition decode_from (clock : nat -> Z) (yielded : list jsval) (text : jsstring)
  : list jsval :=
  let lines := Str.split Str.newline text in
  let yielded := fold_left (Stream.process clock) (removelast lines) yielded in
  let yielded := Stream.process clock yielded (last lines []) in
  yielded ++ [Stream.final_chunk (clock (List.length yielded))].

(** The test stream cut in the middle of its first JSON object and in
    the middle of a later line. *)
Definition recut_source : list jsstring :=
  let text := List.concat [hello_buffer; world_buffer; done_buffer] in
  [firstn 20 text; firstn 50 (skipn 20 text); skipn 70 text].

(** Chunks that carry content. *)
Definition is_content_chunk (chunk : jsval) : Prop :=
  exists created text, chunk = Stream.content_chunk created text.

Definition newline_free (line : jsstring) : Prop := ~ In Str.newline line.

(** A line whose payload [JSON.parse] rejects. *)
Definition malformed (line : jsstring) : Prop :=
  exists e, JSON.parse (Str.strip_data_prefix line) = Throw e.


(** A line that is not JSON, and a well-formed one. *)
Definition broken_line : jsstring := lit "data: {not json".

Definition hello_line : jsstring :=
  lit "data: {" ++ quoted "choices" ++ lit ":[{" ++ quoted "delta" ++ lit ":{"
  ++ quoted "content" ++ lit ":" ++ quoted "Hello" ++ lit "}}]}".

(** ** Declarative validity *)

(** [v && typeof v === 'object']: an object or an array. *)
Definition is_object (v : jsval) : bool :=
  Js.truthy v && (Js.typeof v =? "object")%string.

(** A message the validator lets through. *)
Definition message_ok (m : jsval) : bool :=
  is_object m
  && Utils.includes Utils.roles (Js.prop m (lit "role"))
  && (Js.truthy (Js.prop m (lit "content"))
      || Js.truthy (Js.prop m (lit "function_call"))
      || Js.truthy (Js.prop m (lit "tool_calls"))).

Definition messages_ok (v : jsval) : bool :=
  match v with
  | JArr (m :: rest) => forallb message_ok (m :: rest)
  | _ => false
  end.

Definition is_string (v : jsval) : bool :=
  match v with JStr _ => true | _ => false end.

(** A function definition the validator lets through. *)
Definition function_ok (f : jsval) : bool :=
  is_object f
  && Js.truthy (Js.prop f (lit "name")) && is_string (Js.prop f (lit "name"))
  && (negb (Js.truthy (Js.prop f (lit "description")))
      || is_string (Js.prop f (lit "description")))
  && (negb (Js.truthy (Js.prop f (lit "parameters")))
      || is_object (Js.prop f (lit "parameters"))).

Definition functions_ok (v : jsval) : bool :=
  match v with
  | JArr items => forallb function_ok items
  | _ => false
  end.

(** A tool the validator lets through: only tools of type "function"
    have their [function] looked at. *)
Definition tool_ok (t : jsval) : bool :=
  is_object t
  && Js.truthy (Js.prop t (lit "type"))
  && (negb (Js.str_eq (Js.prop t (lit "type")) (lit "function"))
      || function_ok (Js.prop t (lit "function"))).

Definition tools_ok (v : jsval) : bool :=
  match v with
  | JArr items => forallb tool_ok items
  | _ => false
  end.

(** An optional numeric parameter: absent (falsy), or a number in
    range. *)
Definition number_ok (v : jsval) (inside : Q -> bool) : bool :=
  negb (Js.truthy v)
  || match v with JNum q => inside q | _ => false end.

(** The requests [create] accepts. *)
Definition request_ok (params : jsval) : bool :=
  Js.truthy (Js.prop params (lit "messages"))
  && messages_ok (Js.prop params (lit "messages"))
  && (negb (Js.truthy (Js.prop params (lit "functions")))
      || functions_ok (Js.prop params (lit "functions")))
  && (negb (Js.truthy (Js.prop params (lit "tools")))
      || tools_ok (Js.prop params (lit "tools")))
  && number_ok (Js.prop params (lit "max_tokens")) (fun q => Js.Qlt_bool 0 q)
  && number_ok (Js.prop params (lit "temperature"))
               (fun q => Qle_bool 0 q && Qle_bool q 2)
  && number_ok (Js.prop params (lit "top_p"))
               (fun q => Js.Qlt_bool 0 q && Qle_bool q 1).

(** The configurations the constructor accepts. *)
Definition config_ok (cfg : jsval) : bool :=
  match Js.prop cfg (lit "apiKey") with
  | JStr key => JsString.startsWith key (lit "mp_")
  | _ => false
  end
  && (negb (Js.truthy (Js.prop cfg (lit "baseURL")))
      || is_string (Js.prop cfg (lit "baseURL")))
  && number_ok (Js.prop cfg (lit "timeout")) (fun q => Js.Qlt_bool 0 q)
  && number_ok (Js.prop cfg (lit "maxRetries")) (fun q => Qle_bool 0 q).

(** The client the constructor builds from an accepted configuration. *)
Definition client_of (cfg : jsval) : ModelPilot :=
  mkClient
    (Js.prop cfg (lit "apiKey"))
    (Js.or (Js.prop cfg (lit "baseURL"))
           (JStr (lit "https://your-firebase-project.cloudfunctions.net")))
    (Js.or (Js.prop cfg (lit "routerId")) (JStr (lit "default")))
    (Js.or (Js.prop cfg (lit "timeout")) (JNum 30000))
    (Js.or (Js.prop cfg (lit "defaultHeaders")) (JObj []))
    (Js.or (Js.prop cfg (lit "maxRetries")) (JNum 3)).

(** ** Sample inputs of the further properties *)

(** Additional headers that replace the bearer token. *)
Definition override_headers : list (jsstring * jsval) :=
  [(lit "Authorization", JStr (lit "Basic abc")); (lit "X-Trace", JStr (lit "1"))].

(** The fields [request] sets before it spreads the options. *)
Definition config_keys : list jsstring :=
  [lit "url"; lit "method"; lit "data"; lit "params"; lit "headers"].

Definition get_options : list (jsstring * jsval) :=
  [(lit "method", JStr (lit "GET")); (lit "url", JStr (lit "/elsewhere"))].

(** An attempt after which [request] stops: it is the last one allowed
    ([n] equals [maxRetries]), or it succeeded, or it was answered with
    a status below 500. *)
Definition final_attempt (m : Q) (n : nat) (o : axios_outcome) : Prop :=
  inject_Z (Z.of_nat n) == m \/
  match o with
  | Resolved _ => True
  | Rejected error =>
      match ae_response error with
      | Some r => (resp_status r < 500)%Z
      | None => False
      end
  end.

(** A transport that never gets a response. *)
Definition dead_transport (k : nat) : axios_outcome :=
  Rejected (mkAxiosError (lit "Network Error") None true).


(** The message [_handleError] falls back to for a status. *)
Definition default_message (s : Z) : jsstring :=
  if (s =? 401)%Z then lit "Invalid API key"
  else if (s =? 429)%Z then lit "Rate limit exceeded"
  else if (s =? 400)%Z then lit "Bad request"
  else if (s =? 422)%Z then lit "Bad request"
  else lit "API error".

(** An error response in the style of the tests:
    [{ error: { message, code, param } }]. *)
Definition nested_error_body : jsval :=
  JObj [(lit "error",
          JObj [(lit "message", JStr (lit "Model overloaded"));
                (lit "code", JStr (lit "overloaded"));
                (lit "param", JStr (lit "model"))])].

Definition overloaded : axios_error :=
  mkAxiosError (lit "Request failed with status code 503")
               (Some (mkResponse 503 nested_error_body)) true.

Definition null_body_401 : axios_error :=
  mkAxiosError (lit "Request failed with status code 401")
               (Some (mkResponse 401 JNull)) true.

(** ** The decoder as a function of the text *)

Definition is_null (v : jsval) : bool :=
  match v with JNull => true | _ => false end.

(** The texts extracted from the lines of [text], in order. *)
Definition line_texts (text : jsstring) : list jsval :=
  filter (fun v => negb (is_null v))
         (List.map Stream.extractStreamingText (Str.split Str.newline text)).

(** Content chunks for [texts], the first one built at tick [k]. *)
Fixpoint stamp (clock : nat -> Z) (k : nat) (texts : list jsval) : list jsval :=
  match texts with
  | [] => []
  | text :: rest => Stream.content_chunk (clock k) text :: stamp clock (S k) rest
  end.

Definition carriage_return : N := 13.

(** An event line without the space after the colon, a comment line,
    and the same lines with CRLF endings. *)
Definition tight_line : jsstring :=
  lit "data:{" ++ quoted "choices" ++ lit ":[{" ++ quoted "delta" ++ lit ":{"
  ++ quoted "content" ++ lit ":" ++ quoted "Hello" ++ lit "}}]}".

Definition crlf_lines : list jsstring := [hello_line; []; lit "data: [DONE]"; []].

(** A line of the form [field:rest] that is not a [data: ] line: the
    other fields of an event stream ([event], [id], [retry]), [data]
    without the space, and, with an empty field, a comment. *)
Definition other_field_line (field rest : jsstring) : Prop :=
  forallb JSON.is_lower field = true /\
  JsString.startsWith (field ++ 58%N :: rest) (lit "data: ") = false.

(** The same lines, some of them ending in a carriage return. *)
Definition same_up_to_cr (lines1 lines2 : list jsstring) : Prop :=
  Forall2 (fun a b => a = b \/ a = b ++ [carriage_return]) lines1 lines2.

(** The classes of the errors [request] can end with. *)
Definition request_error_classes : list error_class :=
  [C_TypeError; C_ModelPilotError; C_APIError; C_AuthenticationError; C_RateLimitError].

(** A transport that always answers 404. *)
Definition missing_transport (k : nat) : axios_outcome :=
  Rejected (mkAxiosError (lit "Request failed with status code 404")
              (Some (mkResponse 404 (JObj [(lit "message", JStr (lit "No such router"))])))
              true).




(* ===================================================================== *)
(** * Properties *)
(* ===================================================================== *)

(** ** Basic facts about strings, property lists and the error monad *)

Lemma jsstring_eqb_spec (a b : jsstring) : reflect (a = b) (JsString.eqb a b).
Proof.
  revert b; induction a as [|x a IH]; intros [|y b]; simpl;
    try (constructor; congruence).
  destruct (N.eqb_spec x y) as [->|Hxy]; simpl.
  - destruct (IH b) as [->|Hab]; constructor; congruence.
  - constructor; congruence.
Qed.

Lemma jsstring_eqb_refl (a : jsstring) : JsString.eqb a a = true.
Proof. destruct (jsstring_eqb_spec a a); congruence. Qed.

Lemma jsstring_eqb_sym (a b : jsstring) : JsString.eqb a b = JsString.eqb b a.
Proof.
  destruct (jsstring_eqb_spec a b), (jsstring_eqb_spec b a); congruence.
Qed.

Lemma assoc_set_prop (l : list (jsstring * jsval)) (k k' : jsstring) (v : jsval) :
  Js.assoc (Js.set_prop l k v) k' =
  if JsString.eqb k k' then Some v else Js.assoc l k'.
Proof.
  induction l as [|[k0 v0] l IH]; simpl.
  - reflexivity.
  - destruct (jsstring_eqb_spec k0 k) as [->|Hk0]; simpl.
    + destruct (JsString.eqb k k'); reflexivity.
    + rewrite IH.
      destruct (jsstring_eqb_spec k0 k') as [->|Hk0'].
      * destruct (jsstring_eqb_spec k k'); congruence.
      * reflexivity.
Qed.

Lemma bind_Ok {A B : Type} (c : result A) (k : A -> result B) (b : B) :
  Exn.bind c k = Ok b -> exists a, c = Ok a /\ k a = Ok b.
Proof. destruct c as [a|e]; simpl; [eauto | discriminate]. Qed.

Lemma throw_if_Ok (cond : bool) (e : js_error) (u : unit) :
  Exn.throw_if cond e = Ok u -> cond = false.
Proof. destruct cond; simpl; [discriminate | reflexivity]. Qed.

(** Inversion of a successful monadic computation, one step at a time. *)
Ltac exn_inv H :=
  let a := fresh "a" in
  let Ha := fresh "Hstep" in
  apply bind_Ok in H; destruct H as (a & Ha & H);
  try (apply throw_if_Ok in Ha).

(** ** The built-ins on examples *)

Example parse_nested :
  JSON.parse (lit " {" ++ quoted "a" ++ lit ": [1, -2.5e1, true, null, "
              ++ quoted "x\nA" ++ lit "], " ++ quoted "b" ++ lit ": {} } ")
  = Ok (JObj [(lit "a", JArr [JNum 1; JNum (-25); JBool true; JNull;
                              JStr [120%N; 10%N; 65%N]]);
              (lit "b", JObj [])]).
Proof. reflexivity. Qed.

Example parse_duplicate_key :
  JSON.parse (lit "{" ++ quoted "a" ++ lit ":1," ++ quoted "b" ++ lit ":2,"
              ++ quoted "a" ++ lit ":3}")
  = Ok (JObj [(lit "a", JNum 3); (lit "b", JNum 2)]).
Proof. reflexivity. Qed.

Example parse_unicode_escape :
  JSON.parse (quoted "A\u00e9\uD83D") = Ok (JStr [65%N; 233%N; 55357%N]).
Proof. reflexivity. Qed.

Example parse_rejects :
  forallb (fun text => match JSON.parse (lit text) with Ok _ => false | Throw _ => true end)
          ["";  "  ";  "{not json";  "01";  "1.";  "-";  "+1";  ".5";  "1e";  "[1,]";
           "[1 2]";  "[,1]";  "{,}";  "{1:2}";  "tru";  "truefalse";  "True";  "nul l";
           "1 ]";  "[1]]";  "[";  "1-2";  "undefined";  "NaN"]%string
  = true.
Proof. reflexivity. Qed.

Example split_lines :
  Str.split Str.newline (lit "ab" ++ [10%N] ++ lit "cd" ++ [10%N; 10%N])
  = [lit "ab"; lit "cd"; []; []].
Proof. reflexivity. Qed.

Example split_empty : Str.split Str.newline [] = [[]].
Proof. reflexivity. Qed.

Example trim_spaces :
  Str.trim ([9%N; 32%N; 160%N] ++ lit "a b" ++ [13%N; 10%N; 8233%N]) = lit "a b".
Proof. reflexivity. Qed.

(** Extraction falls back to the message format, and survives a
    payload that parses to [null] (the property read throws inside the
    [try]). *)
Example extract_message_format :
  Stream.extractStreamingText
    (lit "data: {" ++ quoted "choices" ++ lit ":[{" ++ quoted "message" ++ lit ":{"
     ++ quoted "content" ++ lit ":" ++ quoted "Hi" ++ lit "}}]}")
  = JStr (lit "Hi").
Proof. reflexivity. Qed.

Example extract_null_payload :
  Stream.extractStreamingText (lit "data: null") = JNull.
Proof. reflexivity. Qed.

(** ** Request validation *)

Lemma plain_Error (msg : jsstring) : plain_error (Errors.Error msg).
Proof. repeat split. Qed.

Lemma throw_if_plain (cond : bool) (msg : jsstring) (k : result unit) (e : js_error) :
  (k = Throw e -> plain_error e) ->
  Exn.bind (Exn.throw_if cond (Errors.Error msg)) (fun _ => k) = Throw e ->
  plain_error e.
Proof.
  destruct cond; simpl; intros Hk H.
  - injection H as <-. apply plain_Error.
  - auto.
Qed.

Lemma validateMessages_entries_plain (entries : list jsval) :
  forall index e,
    Utils.validateMessages_entries index entries = Throw e -> plain_error e.
Proof.
  induction entries as [|m rest IH]; intros index e; simpl.
  - discriminate.
  - repeat apply throw_if_plain. apply IH.
Qed.

Lemma validateMessages_plain (messages : jsval) (e : js_error) :
  Utils.validateMessages messages = Throw e -> plain_error e.
Proof.
  destruct messages; simpl;
    try (intros H; injection H as <-; apply plain_Error).
  apply throw_if_plain. apply validateMessages_entries_plain.
Qed.

Lemma validateFunctions_entries_plain (entries : list jsval) :
  forall index e,
    Utils.validateFunctions_entries index entries = Throw e -> plain_error e.
Proof.
  induction entries as [|m rest IH]; intros index e; simpl.
  - discriminate.
  - repeat apply throw_if_plain. apply IH.
Qed.

Lemma validateFunctions_plain (functions : jsval) (e : js_error) :
  Utils.validateFunctions functions = Throw e -> plain_error e.
Proof.
  destruct functions; simpl;
    try (intros H; injection H as <-; apply plain_Error).
  apply validateFunctions_entries_plain.
Qed.

Lemma bind_plain {A B : Type} (c : result A) (k : A -> result B) (e : js_error) :
  (c = Throw e -> plain_error e) ->
  (forall a, k a = Throw e -> plain_error e) ->
  Exn.bind c k = Throw e -> plain_error e.
Proof. destruct c as [a|e0]; simpl; intros H1 H2 H3; [exact (H2 a H3) | injection H3 as ->; exact (H1 eq_refl)]. Qed.

Lemma validateTools_entries_plain (entries : list jsval) :
  forall index e,
    Utils.validateTools_entries index entries = Throw e -> plain_error e.
Proof.
  induction entries as [|t rest IH]; intros index e; simpl.
  - discriminate.
  - do 2 apply throw_if_plain.
    apply bind_plain; [|intros _; apply IH].
    destruct (Js.str_eq _ _); [|discriminate].
    apply throw_if_plain.
    exact (validateFunctions_plain (JArr [Js.prop t (lit "function")]) e).
Qed.

Lemma validateTools_plain (tools : jsval) (e : js_error) :
  Utils.validateTools tools = Throw e -> plain_error e.
Proof.
  destruct tools; simpl;
    try (intros H; injection H as <-; apply plain_Error).
  apply validateTools_entries_plain.
Qed.

Lemma guard_ok (b : bool) (r : result unit) :
  b = false \/ r = Ok tt -> (if b then r else Ok tt) = Ok tt.
Proof. intros [-> | ->]; [reflexivity | destruct b; reflexivity]. Qed.

Lemma truthy_prop_get (params : jsval) (k : jsstring) :
  Js.truthy (Js.prop params k) = true ->
  Exn.get params k = Ok (Js.prop params k).
Proof. destruct params; simpl; try reflexivity; discriminate. Qed.

Lemma Qlt_bool_true (a b : Q) : a < b -> Js.Qlt_bool a b = true.
Proof.
  intros H. unfold Js.Qlt_bool.
  destruct (Qle_bool b a) eqn:E; [|reflexivity].
  apply Qle_bool_iff in E. exfalso. apply (Qlt_not_le a b); assumption.
Qed.

Lemma Qle_bool_true (a b : Q) : a <= b -> Qle_bool a b = true.
Proof. apply Qle_bool_iff. Qed.

Lemma truthy_nonzero (q : Q) : ~ q == 0 -> Js.truthy (JNum q) = true.
Proof.
  intros H. simpl. destruct (Qeq_bool q 0) eqn:E; [|reflexivity].
  apply Qeq_bool_iff in E. contradiction.
Qed.

(** What [create] does enforce: a negative [max_tokens] is rejected with
    an [InvalidRequestError] naming it. *)
Lemma create_rejects_negative_max_tokens (c : ModelPilot) (params : jsval) (q : Q) :
  passes_structure params ->
  Js.prop params (lit "max_tokens") = JNum q ->
  q < 0 ->
  ChatCompletions.create c params =
  Throw (Errors.InvalidRequestError
           (JStr (lit "max_tokens must be a positive number"))
           (JStr (lit "max_tokens"))).
Proof.
  intros (Hm & Hvm & Hf & Ht) Hq Hneg.
  unfold ChatCompletions.create.
  rewrite (truthy_prop_get _ _ Hm). cbn [Exn.bind].
  rewrite Hm. cbn [negb Exn.throw_if Exn.bind].
  rewrite Hvm. cbn [Exn.bind].
  rewrite (guard_ok _ _ Hf), (guard_ok _ _ Ht). cbn [Exn.bind].
  rewrite Hq.
  rewrite truthy_nonzero by (intros E; rewrite E in Hneg; discriminate).
  unfold Js.le, Js.num_rel.
  rewrite (Qle_bool_true q 0) by (apply Qlt_le_weak; assumption).
  reflexivity.
Qed.

(** A [temperature] above 2 or below 0 is rejected likewise, once
    [max_tokens] is absent. *)
Lemma create_rejects_temperature_out_of_range (c : ModelPilot) (params : jsval) (q : Q) :
  passes_structure params ->
  Js.prop params (lit "max_tokens") = JUndefined ->
  Js.prop params (lit "temperature") = JNum q ->
  q < 0 \/ 2 < q ->
  ChatCompletions.create c params =
  Throw (Errors.InvalidRequestError
           (JStr (lit "temperature must be between 0 and 2"))
           (JStr (lit "temperature"))).
Proof.
  intros (Hm & Hvm & Hf & Ht) Hmax Hq Hout.
  unfold ChatCompletions.create.
  rewrite (truthy_prop_get _ _ Hm). cbn [Exn.bind].
  rewrite Hm. cbn [negb Exn.throw_if Exn.bind].
  rewrite Hvm. cbn [Exn.bind].
  rewrite (guard_ok _ _ Hf), (guard_ok _ _ Ht). cbn [Exn.bind].
  rewrite Hmax. cbn [Js.truthy andb Exn.throw_if Exn.bind].
  rewrite Hq, truthy_nonzero.
  2:{ intros E. destruct Hout as [H|H]; rewrite E in H; discriminate. }
  unfold Js.lt, Js.gt, Js.num_rel.
  destruct Hout as [H|H]; rewrite (Qlt_bool_true _ _ H);
    cbn; rewrite ?orb_true_r; reflexivity.
Qed.

(** A [top_p] above 1 or below 0 is rejected likewise, once [max_tokens]
    and [temperature] are absent. *)
Lemma create_rejects_top_p_out_of_range (c : ModelPilot) (params : jsval) (q : Q) :
  passes_structure params ->
  Js.prop params (lit "max_tokens") = JUndefined ->
  Js.prop params (lit "temperature") = JUndefined ->
  Js.prop params (lit "top_p") = JNum q ->
  q < 0 \/ 1 < q ->
  ChatCompletions.create c params =
  Throw (Errors.InvalidRequestError
           (JStr (lit "top_p must be between 0 and 1"))
           (JStr (lit "top_p"))).
Proof.
  intros (Hm & Hvm & Hf & Ht) Hmax Htemp Hq Hout.
  unfold ChatCompletions.create.
  rewrite (truthy_prop_get _ _ Hm). cbn [Exn.bind].
  rewrite Hm. cbn [negb Exn.throw_if Exn.bind].
  rewrite Hvm. cbn [Exn.bind].
  rewrite (guard_ok _ _ Hf), (guard_ok _ _ Ht). cbn [Exn.bind].
  rewrite Hmax, Htemp. cbn [Js.truthy andb Exn.throw_if Exn.bind].
  rewrite Hq, truthy_nonzero.
  2:{ intros E. destruct Hout as [H|H]; rewrite E in H; discriminate. }
  unfold Js.le, Js.gt, Js.num_rel.
  destruct Hout as [H|H].
  - rewrite (Qle_bool_true q 0) by (apply Qlt_le_weak; assumption).
    cbn; rewrite ?orb_true_r; reflexivity.
  - rewrite (Qlt_bool_true _ _ H). cbn; rewrite ?orb_true_r; reflexivity.
Qed.

(** C1.  The claim says that [create] rejects [max_tokens <= 0] and
    [top_p] outside (0,1], the boundary value 0 included, before any
    network call.  On the code the boundary is not rejected: the range
    checks are guarded by the truthiness of the parameter, and 0 is
    falsy.  With valid messages and [max_tokens = 0], or [top_p = 0],
    [create] passes validation and dispatches the completion request,
    the zero value travelling in the payload. *)
Theorem create_lets_zero_max_tokens_and_top_p_through (c : ModelPilot) :
  ChatCompletions.create c
    (JObj [(lit "messages", validMessages); (lit "max_tokens", JNum 0)]) =
  Ok (ChatCompletions._createCompletion c
        [(lit "messages", validMessages); (lit "routerId", routerId c);
         (lit "max_tokens", JNum 0)])
  /\
  ChatCompletions.create c
    (JObj [(lit "messages", validMessages); (lit "top_p", JNum 0)]) =
  Ok (ChatCompletions._createCompletion c
        [(lit "messages", validMessages); (lit "routerId", routerId c);
         (lit "top_p", JNum 0)]).
Proof. split; reflexivity. Qed.

(** C2.  The claim says that every structurally invalid request fails
    with an [InvalidRequestError] carrying the offending parameter name.
    On the code only a missing (falsy) [messages] does; the validators of
    [utils.js] throw plain [Error]s.  An empty [messages] array and an
    unrecognized role both end in an error that is not an
    [InvalidRequestError] and has no [param]; no call is dispatched. *)
Theorem create_invalid_messages_throw_plain_Error (c : ModelPilot) :
  ChatCompletions.create c (JObj [(lit "messages", JArr [])]) =
    Throw (Errors.Error (lit "messages array cannot be empty"))
  /\
  ChatCompletions.create c
    (JObj [(lit "messages",
             JArr [JObj [(lit "role", JStr (lit "invalid"));
                         (lit "content", JStr (lit "test"))]])]) =
    Throw (Errors.Error
             (lit "messages[0].role must be one of: system, user, assistant, function, tool"))
  /\
  forall msg, Errors.instanceof (Errors.Error msg) C_InvalidRequestError = false
              /\ param (Errors.Error msg) = JUndefined.
Proof. repeat split. Qed.

(** Every failure of [create] is accounted for: a [TypeError] when
    [params] itself is nullish, the [InvalidRequestError] for a falsy
    [messages] or an out-of-range sampling parameter, and otherwise a
    plain [Error] from a validator. *)
Lemma create_failures (c : ModelPilot) (params : jsval) (e : js_error) :
  ChatCompletions.create c params = Throw e ->
  class e = C_TypeError \/
  (class e = C_InvalidRequestError /\
   (param e = JStr (lit "messages") \/ param e = JStr (lit "max_tokens") \/
    param e = JStr (lit "temperature") \/ param e = JStr (lit "top_p"))) \/
  plain_error e.
Proof.
  unfold ChatCompletions.create.
  destruct (Exn.get params (lit "messages")) as [messages|e0] eqn:Hget; cbn [Exn.bind].
  2:{ intros H; injection H as <-. left.
      destruct params; simpl in Hget; try discriminate;
        injection Hget as <-; reflexivity. }
  destruct (Js.truthy messages); cbn [negb Exn.throw_if Exn.bind].
  2:{ intros H; injection H as <-. right; left. split; [reflexivity|]. left; reflexivity. }
  destruct (Utils.validateMessages messages) eqn:Hvm; cbn [Exn.bind].
  2:{ intros H; injection H as <-. right; right. eapply validateMessages_plain; eauto. }
  destruct (if Js.truthy (Js.prop params (lit "functions")) then _ else _) eqn:Hvf;
    cbn [Exn.bind].
  2:{ intros H; injection H as <-. right; right.
      destruct (Js.truthy (Js.prop params (lit "functions"))); [|discriminate Hvf].
      eapply validateFunctions_plain; eauto. }
  destruct (if Js.truthy (Js.prop params (lit "tools")) then _ else _) eqn:Hvt;
    cbn [Exn.bind].
  2:{ intros H; injection H as <-. right; right.
      destruct (Js.truthy (Js.prop params (lit "tools"))); [|discriminate Hvt].
      eapply validateTools_plain; eauto. }
  destruct (_ && _); cbn [Exn.throw_if Exn.bind].
  { intros H; injection H as <-. right; left. split; [reflexivity|]. right; left; reflexivity. }
  destruct (_ && _); cbn [Exn.throw_if Exn.bind].
  { intros H; injection H as <-. right; left. split; [reflexivity|].
    right; right; left; reflexivity. }
  destruct (_ && _); cbn [Exn.throw_if Exn.bind].
  { intros H; injection H as <-. right; left. split; [reflexivity|].
    right; right; right; reflexivity. }
  destruct (Js.truthy (Js.prop params (lit "stream"))); intros H; discriminate H.
Qed.

(** ** Payload assembly *)

Lemma assoc_copy_defined (params : jsval) (key k : jsstring)
      (optional : list (jsstring * jsval)) :
  Js.assoc (ChatCompletions.copy_defined params key optional) k =
  if JsString.eqb key k && negb (Js.is_undefined (Js.prop params key))
  then Some (Js.prop params key)
  else Js.assoc optional k.
Proof.
  unfold ChatCompletions.copy_defined.
  destruct (Js.is_undefined (Js.prop params key)); simpl.
  - rewrite andb_false_r; reflexivity.
  - rewrite assoc_set_prop, andb_true_r; reflexivity.
Qed.

Lemma assoc_copy_truthy (params : jsval) (key k : jsstring)
      (optional : list (jsstring * jsval)) :
  Js.assoc (ChatCompletions.copy_truthy params key optional) k =
  if JsString.eqb key k && Js.truthy (Js.prop params key)
  then Some (Js.prop params key)
  else Js.assoc optional k.
Proof.
  unfold ChatCompletions.copy_truthy.
  destruct (Js.truthy (Js.prop params key)); simpl.
  - rewrite assoc_set_prop, andb_true_r; reflexivity.
  - rewrite andb_false_r; reflexivity.
Qed.

(** The binding [_buildOptionalParams] gives to an arbitrary key. *)
Lemma assoc_buildOptionalParams (params : jsval) (k : jsstring) :
  Js.assoc (ChatCompletions._buildOptionalParams params) k =
  if mem k defined_keys then
    if Js.is_undefined (Js.prop params k) then None else Some (Js.prop params k)
  else if JsString.eqb k (lit "model") then
    if Js.truthy (Js.prop params k) then Some (Js.prop params k) else None
  else None.
Proof.
  unfold ChatCompletions._buildOptionalParams.
  rewrite !assoc_copy_defined, assoc_copy_truthy.
  unfold mem, defined_keys. cbn [existsb].
  repeat match goal with
  | |- context [JsString.eqb ?a k] =>
      rewrite (jsstring_eqb_sym a k);
      destruct (jsstring_eqb_spec k a) as [->|?];
      [ cbn; repeat match goal with
                    | |- context [Js.is_undefined ?x] => destruct (Js.is_undefined x)
                    | |- context [Js.truthy ?x] => destruct (Js.truthy x)
                    end; reflexivity
      | cbn [andb orb] ]
  end.
  reflexivity.
Qed.

Lemma set_prop_keys (l : list (jsstring * jsval)) (k : jsstring) (v : jsval) :
  NoDup (map fst l) -> NoDup (map fst (Js.set_prop l k v)).
Proof.
  assert (Hin : forall l x, In x (map fst (Js.set_prop l k v)) ->
                            x = k \/ In x (map fst l)).
  { clear l. induction l as [|[k0 v0] l IH]; simpl; intros x Hx.
    - destruct Hx as [<-|[]]; auto.
    - destruct (jsstring_eqb_spec k0 k) as [->|Hne]; simpl in Hx.
      + destruct Hx; auto.
      + destruct Hx as [<-|Hx]; auto. apply IH in Hx. tauto. }
  induction l as [|[k0 v0] l IH]; simpl; intros Hnd.
  - constructor; [intros []|constructor].
  - inversion Hnd as [|? ? Hnotin Hnd']; subst.
    destruct (jsstring_eqb_spec k0 k) as [->|Hne]; simpl.
    + constructor; assumption.
    + constructor; [|auto].
      intros Hx. apply Hin in Hx. destruct Hx; [congruence|contradiction].
Qed.

Lemma assoc_None_not_in (l : list (jsstring * jsval)) (k : jsstring) :
  Js.assoc l k = None <-> ~ In k (map fst l).
Proof.
  induction l as [|[k0 v0] l IH]; simpl.
  - tauto.
  - destruct (jsstring_eqb_spec k0 k) as [->|Hne].
    + split; [discriminate|]. intros H; exfalso; auto.
    + rewrite IH. tauto.
Qed.

(** Spreading a property list without repeated keys over another: the
    spread list's bindings win. *)
Lemma assoc_spread (a b : list (jsstring * jsval)) (k : jsstring) :
  NoDup (map fst b) ->
  Js.assoc (Js.spread a b) k =
  match Js.assoc b k with Some v => Some v | None => Js.assoc a k end.
Proof.
  unfold Js.spread. revert a.
  induction b as [|[k0 v0] b IH]; intros a Hnd; simpl.
  - reflexivity.
  - inversion Hnd as [|? ? Hnotin Hnd']; subst.
    rewrite IH by assumption.
    destruct (jsstring_eqb_spec k0 k) as [->|Hne].
    + apply assoc_None_not_in in Hnotin. rewrite Hnotin.
      rewrite assoc_set_prop, jsstring_eqb_refl. reflexivity.
    + rewrite assoc_set_prop.
      destruct (jsstring_eqb_spec k0 k); [contradiction|reflexivity].
Qed.

Lemma buildOptionalParams_keys (params : jsval) :
  NoDup (map fst (ChatCompletions._buildOptionalParams params)).
Proof.
  unfold ChatCompletions._buildOptionalParams,
    ChatCompletions.copy_defined, ChatCompletions.copy_truthy.
  repeat match goal with
  | |- NoDup (map fst (if ?c then _ else _)) => destruct c
  | |- NoDup (map fst (Js.set_prop _ _ _)) => apply set_prop_keys
  end; constructor.
Qed.

Lemma create_payload (c : ModelPilot) (params : jsval) (d : dispatch) :
  ChatCompletions.create c params = Ok d ->
  ChatCompletions.payload_of d = JObj (requestPayload c params).
Proof.
  unfold ChatCompletions.create. intros H.
  repeat exn_inv H.
  destruct (Js.truthy (Js.prop params (lit "stream")));
    injection H as <-; reflexivity.
Qed.

Lemma assoc_requestPayload (c : ModelPilot) (params : jsval) (k : jsstring) :
  Js.assoc (requestPayload c params) k =
  if JsString.eqb k (lit "messages") then Some (Js.prop params (lit "messages"))
  else if JsString.eqb k (lit "routerId") then Some (routerId c)
  else Js.assoc (ChatCompletions._buildOptionalParams params) k.
Proof.
  unfold requestPayload.
  rewrite assoc_spread by apply buildOptionalParams_keys.
  rewrite assoc_buildOptionalParams. cbn [Js.assoc].
  rewrite (jsstring_eqb_sym (lit "messages") k), (jsstring_eqb_sym (lit "routerId") k).
  destruct (jsstring_eqb_spec k (lit "messages")) as [->|?]; [reflexivity|].
  destruct (jsstring_eqb_spec k (lit "routerId")) as [->|?]; [reflexivity|].
  destruct (mem k defined_keys).
  - destruct (Js.is_undefined _); reflexivity.
  - destruct (JsString.eqb k (lit "model")); [|reflexivity].
    destruct (Js.truthy _); reflexivity.
Qed.

(** ** The constructor *)

(** What [validateConfig] has checked when it returns. *)
Lemma validateConfig_Ok (config v : jsval) :
  Client.validateConfig config = Ok v ->
  v = config /\
  Js.truthy (Js.prop config (lit "apiKey")) = true /\
  Js.typeof (Js.prop config (lit "apiKey")) = "string"%string /\
  (Js.truthy (Js.prop config (lit "maxRetries")) = true ->
   exists m, Js.prop config (lit "maxRetries") = JNum m /\ 0 <= m).
Proof.
  unfold Client.validateConfig. intros H.
  exn_inv H. exn_inv H. exn_inv H. exn_inv H. exn_inv H. exn_inv H.
  injection H as <-.
  assert (Hkey : a = Js.prop config (lit "apiKey")).
  { destruct config; simpl in Hstep; try discriminate; injection Hstep as <-;
      reflexivity. }
  subst a.
  apply negb_false_iff in Hstep0.
  apply negb_false_iff in Hstep1. apply String.eqb_eq in Hstep1.
  repeat split; try assumption.
  intros Ht. rewrite Ht in Hstep4. cbn [andb] in Hstep4.
  apply orb_false_iff in Hstep4. destruct Hstep4 as [Hty Hlt].
  destruct (Js.prop config (lit "maxRetries")) as [| |b|m|s|l|o];
    try discriminate Hty.
  exists m. split; [reflexivity|].
  unfold Js.lt, Js.num_rel, Js.Qlt_bool in Hlt.
  apply negb_false_iff in Hlt. apply Qle_bool_iff in Hlt. exact Hlt.
Qed.

(** The fields of a constructed client, in terms of the configuration. *)
Lemma constructor_fields (cfg : jsval) (c : ModelPilot) :
  Client.constructor cfg = Ok c ->
  c = mkClient
        (Js.prop cfg (lit "apiKey"))
        (Js.or (Js.prop cfg (lit "baseURL"))
               (JStr (lit "https://your-firebase-project.cloudfunctions.net")))
        (Js.or (Js.prop cfg (lit "routerId")) (JStr (lit "default")))
        (Js.or (Js.prop cfg (lit "timeout")) (JNum 30000))
        (Js.or (Js.prop cfg (lit "defaultHeaders")) (JObj []))
        (Js.or (Js.prop cfg (lit "maxRetries")) (JNum 3))
  /\ Client.validateConfig cfg = Ok cfg.
Proof.
  unfold Client.constructor. intros H.
  destruct cfg; try discriminate H; cbn [Js.is_undefined] in H;
    exn_inv H; destruct (validateConfig_Ok _ _ Hstep) as (-> & _);
    exn_inv H; exn_inv H; injection H as <-; split; (reflexivity || assumption).
Qed.


(** ** The wire payload *)

Lemma mem_In (k : jsstring) (l : list jsstring) : mem k l = true <-> In k l.
Proof.
  unfold mem. rewrite existsb_exists. split.
  - intros (x & Hin & Heq). destruct (jsstring_eqb_spec k x); congruence.
  - intros Hin. exists k. split; [assumption | apply jsstring_eqb_refl].
Qed.

(** C8, counterexample.  A request whose [model] is the empty string is
    valid and has [model] present ([!== undefined]), yet the payload
    dispatched for it has no [model] field. *)
Lemma create_drops_empty_model :
  ChatCompletions.create sample_client empty_model_request =
    Ok (ChatCompletions._createCompletion sample_client
          [(lit "messages", validMessages); (lit "routerId", JStr (lit "default"))])
  /\ Js.is_undefined (Js.prop empty_model_request (lit "model")) = false
  /\ Js.has_prop [(lit "messages", validMessages); (lit "routerId", JStr (lit "default"))]
                 (lit "model") = false.
Proof. repeat split. Qed.

(** C8, as amended.  For every request that passes validation on a
    constructed client, the payload holds [messages] as given and the
    router identifier, which is the configured one or ["default"] when
    none (or a falsy one) was configured; each of the thirteen optional
    fields of [defined_keys] is in the payload exactly when its input
    value is not [undefined], [model] exactly when its input value is
    truthy, each with the input value unchanged; the payload has no
    other field. *)
Theorem create_payload_fields (cfg : jsval) (c : ModelPilot) (params : jsval)
        (d : dispatch) :
  Client.constructor cfg = Ok c ->
  ChatCompletions.create c params = Ok d ->
  exists payload,
    ChatCompletions.payload_of d = JObj payload /\
    Js.assoc payload (lit "messages") = Some (Js.prop params (lit "messages")) /\
    Js.assoc payload (lit "routerId") =
      Some (Js.or (Js.prop cfg (lit "routerId")) (JStr (lit "default"))) /\
    (forall k, In k defined_keys ->
               Js.assoc payload k =
               if Js.is_undefined (Js.prop params k) then None
               else Some (Js.prop params k)) /\
    Js.assoc payload (lit "model") =
      (if Js.truthy (Js.prop params (lit "model"))
       then Some (Js.prop params (lit "model")) else None) /\
    (forall k, Js.has_prop payload k = true ->
               In k (lit "messages" :: lit "routerId" :: lit "model" :: defined_keys)).
Proof.
  intros Hc Hd.
  exists (requestPayload c params).
  split; [apply create_payload; assumption|].
  destruct (constructor_fields _ _ Hc) as (Hfields & _).
  assert (Hr : routerId c = Js.or (Js.prop cfg (lit "routerId")) (JStr (lit "default")))
    by (rewrite Hfields; reflexivity).
  split; [rewrite assoc_requestPayload; reflexivity|].
  split; [rewrite assoc_requestPayload, Hr; reflexivity|].
  split.
  { intros k Hk. rewrite assoc_requestPayload, assoc_buildOptionalParams.
    rewrite (proj2 (mem_In k defined_keys) Hk).
    unfold defined_keys in Hk. cbn [In] in Hk.
    repeat (destruct Hk as [<-|Hk]; [reflexivity|]). destruct Hk. }
  split; [rewrite assoc_requestPayload, assoc_buildOptionalParams; reflexivity|].
  intros k. unfold Js.has_prop.
  rewrite assoc_requestPayload, assoc_buildOptionalParams.
  destruct (jsstring_eqb_spec k (lit "messages")) as [->|?]; [intros _; left; reflexivity|].
  destruct (jsstring_eqb_spec k (lit "routerId")) as [->|?];
    [intros _; right; left; reflexivity|].
  destruct (mem k defined_keys) eqn:Hmem.
  - intros _. do 3 right. apply mem_In; assumption.
  - destruct (jsstring_eqb_spec k (lit "model")) as [->|?];
      [intros _; do 2 right; left; reflexivity | discriminate].
Qed.

Lemma create_payload_fields_witness :
  exists payload,
    ChatCompletions.payload_of
      (ChatCompletions._createCompletion sample_client
         [(lit "messages", validMessages); (lit "routerId", JStr (lit "default"));
          (lit "max_tokens", JNum 100)]) = JObj payload /\
    Js.assoc payload (lit "messages") = Some (Js.prop sample_request (lit "messages")) /\
    Js.assoc payload (lit "routerId") =
      Some (Js.or (Js.prop sample_config (lit "routerId")) (JStr (lit "default"))) /\
    (forall k, In k defined_keys ->
               Js.assoc payload k =
               if Js.is_undefined (Js.prop sample_request k) then None
               else Some (Js.prop sample_request k)) /\
    Js.assoc payload (lit "model") =
      (if Js.truthy (Js.prop sample_request (lit "model"))
       then Some (Js.prop sample_request (lit "model")) else None) /\
    (forall k, Js.has_prop payload k = true ->
               In k (lit "messages" :: lit "routerId" :: lit "model" :: defined_keys)).
Proof.
  apply (create_payload_fields sample_config sample_client sample_request);
    reflexivity.
Defined.

(** ** Classification of transport failures *)


Lemma get_not_nullish (v : jsval) (k : jsstring) :
  Js.nullish v = false -> Exn.get v k = Ok (Js.prop v k).
Proof. destruct v; simpl; try reflexivity; discriminate. Qed.

Lemma handleError_response (error : axios_error) (r : axios_response) :
  ae_response error = Some r ->
  Js.nullish (resp_data r) = false ->
  exists e, Client._handleError error = Throw e /\
            class e = class_of_status (resp_status r) /\
            status e = JNum (inject_Z (resp_status r)).
Proof.
  intros Hr Hd. unfold Client._handleError, class_of_status. rewrite Hr.
  rewrite (get_not_nullish _ (lit "message") Hd). cbn [Exn.bind].
  destruct (Z.eqb_spec (resp_status r) 401) as [->|?];
    [eexists; repeat split|].
  destruct (Z.eqb_spec (resp_status r) 429) as [->|?];
    [eexists; repeat split|].
  destruct (resp_status r =? 400)%Z; [eexists; repeat split|].
  destruct (resp_status r =? 422)%Z; eexists; repeat split.
Qed.

Lemma handleError_no_response (error : axios_error) :
  ae_response error = None ->
  exists e, Client._handleError error = Throw e /\
            class e = C_ModelPilotError /\ status e = JUndefined.
Proof.
  intros Hr. unfold Client._handleError. rewrite Hr.
  destruct (ae_request error); eexists; repeat split.
Qed.



(** ** The retry loop *)

Section RetryLoop.

Variable this : ModelPilot.
Variable httpClient : nat -> axios_outcome.

Lemma request_loop_exit (fuel attempt : nat) (last : option js_error) (slept : list Z) :
  Client.attempt_le attempt (maxRetries this) = false ->
  Client.request_loop this httpClient fuel attempt last slept =
  Some (mkRun (Thrown last) attempt slept).
Proof. intros H. destruct fuel; simpl; rewrite H; reflexivity. Qed.

Lemma request_loop_success (fuel attempt : nat) (last : option js_error)
      (slept : list Z) (r : axios_response) :
  Client.attempt_le attempt (maxRetries this) = true ->
  Client.intercepted (httpClient attempt) = Ok r ->
  Client.request_loop this httpClient (S fuel) attempt last slept =
  Some (mkRun (Returned (resp_data r)) (S attempt) slept).
Proof. intros H Hr. simpl. rewrite H, Hr. reflexivity. Qed.

Lemma request_loop_no_retry (fuel attempt : nat) (last : option js_error)
      (slept : list Z) (e : js_error) :
  Client.attempt_le attempt (maxRetries this) = true ->
  Client.intercepted (httpClient attempt) = Throw e ->
  no_retry e = true ->
  Client.request_loop this httpClient (S fuel) attempt last slept =
  Some (mkRun (Thrown (Some e)) (S attempt) slept).
Proof.
  intros H Hr Hn. simpl. rewrite H, Hr. cbn [negb].
  unfold no_retry in Hn. rewrite Hn. reflexivity.
Qed.

Lemma request_loop_last (fuel attempt : nat) (last : option js_error)
      (slept : list Z) (e : js_error) :
  Client.attempt_le attempt (maxRetries this) = true ->
  Client.intercepted (httpClient attempt) = Throw e ->
  no_retry e = false ->
  Client.attempt_eq attempt (maxRetries this) = true ->
  Client.request_loop this httpClient (S fuel) attempt last slept =
  Some (mkRun (Thrown (Some e)) (S attempt) slept).
Proof.
  intros H Hr Hn Heq. simpl. rewrite H, Hr. cbn [negb].
  unfold no_retry in Hn. rewrite Hn, Heq. reflexivity.
Qed.

Lemma request_loop_retry (fuel attempt : nat) (last : option js_error)
      (slept : list Z) (e : js_error) :
  Client.attempt_le attempt (maxRetries this) = true ->
  Client.intercepted (httpClient attempt) = Throw e ->
  no_retry e = false ->
  Client.attempt_eq attempt (maxRetries this) = false ->
  Client.request_loop this httpClient (S fuel) attempt last slept =
  Client.request_loop this httpClient fuel (S attempt) (Some e)
                      (slept ++ [Client.backoff attempt]).
Proof.
  intros H Hr Hn Heq. simpl. rewrite H, Hr. cbn [negb].
  unfold no_retry in Hn. rewrite Hn, Heq. reflexivity.
Qed.


Lemma attempt_eq_succ (attempt : nat) :
  Client.attempt_eq attempt (maxRetries this) = true ->
  Client.attempt_le (S attempt) (maxRetries this) = false.
Proof.
  unfold Client.attempt_eq, Client.attempt_le.
  destruct (maxRetries this) as [| | |m| | |]; try reflexivity.
  intros H. apply Qeq_bool_iff in H.
  destruct (Qle_bool (inject_Z (Z.of_nat (S attempt))) m) eqn:E; [|reflexivity].
  apply Qle_bool_iff in E. rewrite <- H in E.
  rewrite <- Zle_Qle in E. lia.
Qed.


(** What a finished run of the loop satisfies. *)
Lemma request_loop_spec (fuel : nat) :
  forall attempt last slept run,
    Client.request_loop this httpClient fuel attempt last slept = Some run ->
    (Client.attempt_le attempt (maxRetries this) = false ->
     attempts run = attempt /\ outcome run = Thrown last)
    /\
    (Client.attempt_le attempt (maxRetries this) = true ->
     (attempt < attempts run)%nat /\
     Client.attempt_le (attempts run - 1) (maxRetries this) = true /\
     (forall k, (attempt <= k)%nat -> (S k < attempts run)%nat ->
                retried (httpClient k)) /\
     outcome run =
       completion_of (Client.intercepted (httpClient (attempts run - 1))) /\
     (retried (httpClient (attempts run - 1)) ->
      Client.attempt_le (attempts run) (maxRetries this) = false)).
Proof.
  induction fuel as [|fuel IH]; intros attempt last slept run Hrun.
  - simpl in Hrun.
    destruct (Client.attempt_le attempt (maxRetries this)) eqn:Hle;
      cbn [negb] in Hrun; [discriminate|].
    injection Hrun as <-. split; [intros _; split; reflexivity | discriminate].
  - destruct (Client.attempt_le attempt (maxRetries this)) eqn:Hle.
    2:{ rewrite request_loop_exit in Hrun by assumption.
        injection Hrun as <-. split; [intros _; split; reflexivity | discriminate]. }
    split; [discriminate | intros _].
    assert (Hone : forall o,
               Client.intercepted (httpClient attempt) = o ->
               (forall e, o = Throw e -> no_retry e = false ->
                          Client.attempt_eq attempt (maxRetries this) = true) ->
               run = mkRun (completion_of o) (S attempt) slept ->
               (attempt < attempts run)%nat /\
               Client.attempt_le (attempts run - 1) (maxRetries this) = true /\
               (forall k, (attempt <= k)%nat -> (S k < attempts run)%nat ->
                          retried (httpClient k)) /\
               outcome run =
                 completion_of (Client.intercepted (httpClient (attempts run - 1))) /\
               (retried (httpClient (attempts run - 1)) ->
                Client.attempt_le (attempts run) (maxRetries this) = false)).
    { intros o Ho Hlast ->. cbn [attempts outcome].
      replace (S attempt - 1)%nat with attempt by lia.
      split; [lia|]. split; [assumption|].
      split; [intros k H1 H2; lia|].
      split; [rewrite Ho; reflexivity|].
      intros (e & He & Hn). apply attempt_eq_succ.
      apply (Hlast e); congruence. }
    destruct (Client.intercepted (httpClient attempt)) as [r|e] eqn:Hi.
    { rewrite (request_loop_success _ _ _ _ r) in Hrun by assumption.
      injection Hrun as <-. apply (Hone (Ok r)); [reflexivity| |reflexivity].
      intros e He; discriminate He. }
    destruct (no_retry e) eqn:Hn.
    { rewrite (request_loop_no_retry _ _ _ _ e) in Hrun by assumption.
      injection Hrun as <-. apply (Hone (Throw e)); [reflexivity| |reflexivity].
      intros e' He'; injection He' as <-; congruence. }
    destruct (Client.attempt_eq attempt (maxRetries this)) eqn:Heq.
    { rewrite (request_loop_last _ _ _ _ e) in Hrun by assumption.
      injection Hrun as <-. apply (Hone (Throw e)); [reflexivity| |reflexivity].
      intros; reflexivity. }
    rewrite (request_loop_retry _ _ _ _ e) in Hrun by assumption.
    destruct (IH _ _ _ _ Hrun) as (Hexit & Hmore).
    destruct (Client.attempt_le (S attempt) (maxRetries this)) eqn:Hle'.
    + destruct (Hmore eq_refl) as (Hlt & Hle'' & Hretried & Hout & Hex).
      split; [lia|]. split; [assumption|].
      split; [|split; assumption].
      intros k H1 H2. destruct (Nat.eq_dec k attempt) as [->|Hne].
      * exists e; split; assumption.
      * apply Hretried; lia.
    + destruct (Hexit eq_refl) as (Hatt & Hout).
      rewrite Hatt. replace (S attempt - 1)%nat with attempt by lia.
      split; [lia|]. split; [assumption|].
      split; [intros k H1 H2; lia|].
      split; [rewrite Hout, Hi; reflexivity|].
      intros _; assumption.
Qed.


End RetryLoop.

Lemma no_retry_status (e : js_error) (s : Z) :
  class e = class_of_status s ->
  status e = JNum (inject_Z s) ->
  no_retry e = negb (500 <=? s)%Z.
Proof.
  unfold no_retry, Errors.instanceof, class_of_status. intros -> ->.
  destruct (Z.eqb_spec s 401) as [->|?]; [reflexivity|].
  destruct (Z.eqb_spec s 429) as [->|?]; [reflexivity|].
  cbn. unfold Js.Qlt_bool, Qle_bool. cbn. rewrite Z.mul_1_r. reflexivity.
Qed.

Lemma retried_iff_transient (o : axios_outcome) :
  well_formed o -> (retried o <-> transient o).
Proof.
  unfold retried. destruct o as [r|error]; simpl.
  - intros _. split; [intros (e & He & _); discriminate He | intros []].
  - destruct (ae_response error) as [r|] eqn:Hr.
    + intros ((Hlo & Hhi) & Hd).
      destruct (handleError_response _ _ Hr Hd) as (e & He & Hc & Hs).
      pose proof (no_retry_status _ _ Hc Hs) as Hn.
      split.
      * intros (e' & He' & Hn'). rewrite He in He'. injection He' as <-.
        rewrite Hn in Hn'. apply negb_false_iff, Z.leb_le in Hn'. lia.
      * intros (H5 & _). exists e. split; [assumption|].
        rewrite Hn. apply negb_false_iff, Z.leb_le. assumption.
    + intros _. destruct (handleError_no_response _ Hr) as (e & He & Hc & Hs).
      split; [trivial|]. intros _. exists e. split; [assumption|].
      unfold no_retry, Errors.instanceof. rewrite Hc. reflexivity.
Qed.





(** The run of [request] on that transport, computed. *)
Example request_flaky_run :
  Client.request sample_client flaky_transport =
  Some (mkRun (Returned (JObj [(lit "success", JBool true)])) 3 [1000%Z; 2000%Z]).
Proof. reflexivity. Qed.

(** ** Zero retries *)

Lemma prop_set_prop (props : list (jsstring * jsval)) (k k' : jsstring) (v : jsval) :
  Js.prop (JObj (Js.set_prop props k v)) k' =
  if JsString.eqb k k' then v else Js.prop (JObj props) k'.
Proof.
  simpl. rewrite assoc_set_prop. destruct (JsString.eqb k k'); reflexivity.
Qed.

(** C10.  Take any configuration the constructor accepts and set its
    [maxRetries] to a number [n >= 0].  The configuration is still
    accepted (zero included), and the client's effective [maxRetries] is
    [n] when [n > 0] and the default 3 when [n = 0]: retries cannot be
    switched off by configuring 0. *)
Theorem constructor_maxRetries_zero_is_default
        (base : list (jsstring * jsval)) (c0 : ModelPilot) (n : Q) :
  Client.constructor (JObj base) = Ok c0 ->
  0 <= n ->
  exists c,
    Client.constructor (JObj (Js.set_prop base (lit "maxRetries") (JNum n))) = Ok c /\
    maxRetries c = (if Qeq_bool n 0 then JNum 3 else JNum n).
Proof.
  intros Hbase Hn.
  set (cfg := JObj (Js.set_prop base (lit "maxRetries") (JNum n))).
  assert (Hkey : Js.prop cfg (lit "apiKey") = Js.prop (JObj base) (lit "apiKey"))
    by (unfold cfg; rewrite prop_set_prop; reflexivity).
  assert (Hurl : Js.prop cfg (lit "baseURL") = Js.prop (JObj base) (lit "baseURL"))
    by (unfold cfg; rewrite prop_set_prop; reflexivity).
  assert (Hrid : Js.prop cfg (lit "routerId") = Js.prop (JObj base) (lit "routerId"))
    by (unfold cfg; rewrite prop_set_prop; reflexivity).
  assert (Htmo : Js.prop cfg (lit "timeout") = Js.prop (JObj base) (lit "timeout"))
    by (unfold cfg; rewrite prop_set_prop; reflexivity).
  assert (Hhdr : Js.prop cfg (lit "defaultHeaders")
                 = Js.prop (JObj base) (lit "defaultHeaders"))
    by (unfold cfg; rewrite prop_set_prop; reflexivity).
  assert (Hmax : Js.prop cfg (lit "maxRetries") = JNum n)
    by (unfold cfg; rewrite prop_set_prop; reflexivity).
  assert (Hget : Exn.get cfg (lit "apiKey") = Ok (Js.prop (JObj base) (lit "apiKey")))
    by (rewrite <- Hkey; reflexivity).
  assert (Hcheck : Js.truthy (JNum n)
                   && (negb (Js.typeof (JNum n) =? "number")%string || Js.lt (JNum n) 0)
                   = false).
  { cbn. unfold Js.Qlt_bool. rewrite (Qle_bool_true 0 n Hn). cbn.
    apply andb_false_r. }
  assert (Hund : Js.is_undefined cfg = false) by reflexivity.
  clearbody cfg.
  unfold Client.constructor in *. cbn [Js.is_undefined] in Hbase. rewrite Hund.
  unfold Client.validateConfig in *.
  change (Exn.get (JObj base) (lit "apiKey"))
    with (Ok (Js.prop (JObj base) (lit "apiKey"))) in Hbase.
  rewrite Hget, Hkey, Hurl, Htmo, Hmax, Hcheck.
  cbn [Exn.bind Exn.throw_if] in *.
  destruct (Exn.throw_if (negb (Js.truthy (Js.prop (JObj base) (lit "apiKey")))) _);
    cbn [Exn.bind] in *; [|discriminate Hbase].
  destruct (Exn.throw_if
              (negb (Js.typeof (Js.prop (JObj base) (lit "apiKey")) =? "string")%string) _);
    cbn [Exn.bind] in *; [|discriminate Hbase].
  destruct (Exn.throw_if (Js.truthy (Js.prop (JObj base) (lit "baseURL")) && _) _);
    cbn [Exn.bind] in *; [|discriminate Hbase].
  destruct (Exn.throw_if (Js.truthy (Js.prop (JObj base) (lit "timeout")) && _) _);
    cbn [Exn.bind] in *; [|discriminate Hbase].
  destruct (Exn.throw_if (Js.truthy (Js.prop (JObj base) (lit "maxRetries")) && _) _);
    cbn [Exn.bind] in *; [|discriminate Hbase].
  cbn [apiKey] in *. rewrite Hkey, Hurl, Hrid, Htmo, Hhdr, Hmax.
  destruct (Client.startsWith (Js.prop (JObj base) (lit "apiKey")) (lit "mp_")) as [ok|e];
    cbn [Exn.bind] in *; [|discriminate Hbase].
  destruct (Exn.throw_if (negb ok) _); cbn [Exn.bind] in *; [|discriminate Hbase].
  eexists. split; [reflexivity|].
  cbn [maxRetries]. unfold Js.or. cbn [Js.truthy].
  destruct (Qeq_bool n 0); reflexivity.
Qed.

Lemma constructor_maxRetries_zero_is_default_witness :
  exists c,
    Client.constructor (JObj (Js.set_prop zero_retries_config (lit "maxRetries") (JNum 0)))
      = Ok c /\
    maxRetries c = (if Qeq_bool 0 0 then JNum 3 else JNum 0).
Proof.
  apply (constructor_maxRetries_zero_is_default zero_retries_config
           (mkClient (JStr (lit "mp_test-api-key"))
                     (JStr (lit "https://your-firebase-project.cloudfunctions.net"))
                     (JStr (lit "default")) (JNum 30000) (JObj []) (JNum 5)) 0).
  - reflexivity.
  - apply Qle_refl.
Defined.

(** The same, computed: a configured [maxRetries] of 0 yields 3. *)
Example constructor_zero_retries :
  Client.constructor (JObj [(lit "apiKey", JStr (lit "mp_test-api-key"));
                            (lit "maxRetries", JNum 0)]) =
  Ok (mkClient (JStr (lit "mp_test-api-key"))
               (JStr (lit "https://your-firebase-project.cloudfunctions.net"))
               (JStr (lit "default")) (JNum 30000) (JObj []) (JNum 3)).
Proof. reflexivity. Qed.

(** ** The stream decoder *)

(** C5.  Fed the three buffers of the test suite, the decoder yields
    exactly three chunks: one with delta content "Hello", one with delta
    content " world", then the terminal chunk with [finish_reason]
    "stop"; [getText] yields exactly "Hello world". *)
Theorem decoder_hello_world (clock : nat -> Z) (number : Q -> jsstring) :
  Stream.toArray clock (Stream.new [hello_buffer; world_buffer; done_buffer]) =
    [Stream.content_chunk (clock 0%nat) (JStr (lit "Hello"));
     Stream.content_chunk (clock 1%nat) (JStr (lit " world"));
     Stream.final_chunk (clock 2%nat)]
  /\ finish_reason (Stream.final_chunk (clock 2%nat)) = JStr (lit "stop")
  /\ Stream.getText number clock
       (Stream.new [hello_buffer; world_buffer; done_buffer]) = lit "Hello world".
Proof. repeat split. Qed.

(** Splitting is compatible with appending more text: the lines of
    [a ++ b] are the complete lines of [a], then the lines of what [a]
    left unfinished followed by [b]. *)
Lemma split_nonempty (sep : N) (s : jsstring) : Str.split sep s <> [].
Proof.
  destruct s as [|c s]; simpl; [discriminate|].
  destruct (N.eqb c sep); [discriminate|].
  destruct (Str.split sep s); discriminate.
Qed.

Lemma split_app (sep : N) (a b : jsstring) :
  Str.split sep (a ++ b) =
  removelast (Str.split sep a) ++ Str.split sep (last (Str.split sep a) [] ++ b).
Proof.
  induction a as [|c a IH]; [reflexivity|].
  cbn [app Str.split].
  pose proof (split_nonempty sep a) as Hne.
  destruct (N.eqb c sep) eqn:Hc.
  - rewrite IH.
    destruct (Str.split sep a) as [|l ls]; [congruence|]. reflexivity.
  - rewrite IH.
    destruct (Str.split sep a) as [|l ls]; [congruence|].
    destruct ls as [|l2 ls].
    + cbn [removelast last app Str.split]. rewrite Hc. reflexivity.
    + cbn [removelast last app]. reflexivity.
Qed.

Lemma last_append {A : Type} (l l' : list A) (d : A) :
  l' <> [] -> last (l ++ l') d = last l' d.
Proof.
  intros Hne. induction l as [|x l IH]; [reflexivity|].
  cbn [app last]. rewrite IH.
  destruct (l ++ l') eqn:E; [|reflexivity].
  apply app_eq_nil in E. destruct E; contradiction.
Qed.

Section Decoding.

Variable clock : nat -> Z.

Lemma receive_all (source : list jsstring) :
  forall chunk buffer yielded,
    fold_left (Stream.receive clock) (chunk :: source) (buffer, yielded) =
    (last (Str.split Str.newline (buffer ++ List.concat (chunk :: source))) [],
     fold_left (Stream.process clock)
               (removelast
                  (Str.split Str.newline (buffer ++ List.concat (chunk :: source))))
               yielded).
Proof.
  induction source as [|next source IH]; intros chunk buffer yielded.
  - cbn [fold_left List.concat]. rewrite app_nil_r. reflexivity.
  - change (fold_left (Stream.receive clock) (chunk :: next :: source) (buffer, yielded))
      with (fold_left (Stream.receive clock) (next :: source)
                      (Stream.receive clock (buffer, yielded) chunk)).
    unfold Stream.receive at 2. rewrite IH.
    change (List.concat (chunk :: next :: source))
      with (chunk ++ List.concat (next :: source)).
    rewrite app_assoc.
    rewrite (split_app Str.newline (buffer ++ chunk) (List.concat (next :: source))).
    pose proof (split_nonempty Str.newline
                  (last (Str.split Str.newline (buffer ++ chunk)) []
                   ++ List.concat (next :: source))) as Hne.
    rewrite last_append by assumption.
    rewrite removelast_app by assumption.
    rewrite fold_left_app. reflexivity.
Qed.

(** The decoder's output depends on the source only through the
    concatenation of its chunks. *)
Lemma toArray_decode (source : list jsstring) :
  Stream.toArray clock (Stream.new source) = decode_from clock [] (List.concat source).
Proof.
  unfold Stream.toArray, Stream.iterate, decode_from, Stream.new.
  cbn [Stream.stream Stream._buffer].
  destruct source as [|chunk source].
  - reflexivity.
  - rewrite receive_all. reflexivity.
Qed.

End Decoding.

(** C6.  Two sources whose chunks concatenate to the same character
    sequence, however the sequence is cut (inside a line or a JSON object
    included), decode to the same chunks; in particular the concatenated
    text and the terminal chunk are the same. *)
Theorem decoder_rechunking_invariant (clock : nat -> Z) (number : Q -> jsstring)
        (source1 source2 : list jsstring) :
  List.concat source1 = List.concat source2 ->
  Stream.toArray clock (Stream.new source1) = Stream.toArray clock (Stream.new source2)
  /\ Stream.getText number clock (Stream.new source1)
     = Stream.getText number clock (Stream.new source2)
  /\ last (Stream.toArray clock (Stream.new source1)) JUndefined
     = last (Stream.toArray clock (Stream.new source2)) JUndefined.
Proof.
  intros Heq.
  assert (H : Stream.toArray clock (Stream.new source1)
              = Stream.toArray clock (Stream.new source2))
    by (rewrite !toArray_decode, Heq; reflexivity).
  unfold Stream.getText. rewrite H. repeat split.
Qed.

Lemma decoder_rechunking_invariant_witness :
  Stream.toArray (fun k => Z.of_nat k) (Stream.new [hello_buffer; world_buffer; done_buffer])
  = Stream.toArray (fun k => Z.of_nat k) (Stream.new recut_source)
  /\ Stream.getText (fun _ => []) (fun k => Z.of_nat k)
       (Stream.new [hello_buffer; world_buffer; done_buffer])
     = Stream.getText (fun _ => []) (fun k => Z.of_nat k) (Stream.new recut_source)
  /\ last (Stream.toArray (fun k => Z.of_nat k)
             (Stream.new [hello_buffer; world_buffer; done_buffer])) JUndefined
     = last (Stream.toArray (fun k => Z.of_nat k) (Stream.new recut_source)) JUndefined.
Proof.
  apply (decoder_rechunking_invariant (fun k => Z.of_nat k) (fun _ => [])
           [hello_buffer; world_buffer; done_buffer] recut_source).
  vm_compute. reflexivity.
Defined.

Lemma process_content (clock : nat -> Z) (yielded : list jsval) (line : jsstring) :
  Forall is_content_chunk yielded ->
  Forall is_content_chunk (Stream.process clock yielded line).
Proof.
  intros H. unfold Stream.process.
  destruct (negb (Str.is_empty (Str.trim line))); [|assumption].
  destruct (Stream.extractStreamingText line); try assumption;
    (apply Forall_app; split; [assumption|]; constructor; [|constructor];
     eexists; eexists; reflexivity).
Qed.

Lemma fold_process_content (clock : nat -> Z) (lines : list jsstring) :
  forall yielded,
    Forall is_content_chunk yielded ->
    Forall is_content_chunk (fold_left (Stream.process clock) lines yielded).
Proof.
  induction lines as [|line lines IH]; intros yielded H; [assumption|].
  cbn [fold_left]. apply IH, process_content, H.
Qed.

Lemma receive_content (clock : nat -> Z) (source : list jsstring) :
  forall buffer yielded,
    Forall is_content_chunk yielded ->
    Forall is_content_chunk
           (snd (fold_left (Stream.receive clock) source (buffer, yielded))).
Proof.
  induction source as [|chunk source IH]; intros buffer yielded H; [assumption|].
  cbn [fold_left]. unfold Stream.receive at 2.
  apply IH, fold_process_content, H.
Qed.

(** C7.  Whatever the source delivers (nothing at all included), the
    decoder's output is a finite sequence that ends with one terminal
    chunk, with [delta = {}], [finish_reason = "stop"] and [index = 0];
    every chunk before it has [finish_reason = null] and the object tag
    "chat.completion.chunk", so the terminal chunk is the only one of
    its kind. *)
Theorem decoder_ends_with_terminal_chunk (clock : nat -> Z)
        (this : Stream.ChatCompletionStream) :
  exists front terminal,
    Stream.toArray clock this = front ++ [terminal] /\
    delta terminal = JObj [] /\
    finish_reason terminal = JStr (lit "stop") /\
    index terminal = JNum 0 /\
    object terminal = JStr (lit "chat.completion.chunk") /\
    Forall (fun chunk => finish_reason chunk = JNull /\
                         object chunk = JStr (lit "chat.completion.chunk")) front.
Proof.
  unfold Stream.toArray, Stream.iterate.
  pose proof (receive_content clock (Stream.stream this) (Stream._buffer this) []
                (Forall_nil _)) as Hc.
  destruct (fold_left (Stream.receive clock) (Stream.stream this)
                      (Stream._buffer this, [])) as [buffer yielded].
  cbn [snd fst] in *.
  exists (Stream.process clock yielded buffer).
  eexists. split; [reflexivity|].
  repeat (split; [reflexivity|]).
  apply (process_content clock _ buffer) in Hc.
  eapply Forall_impl; [|exact Hc].
  intros chunk (created & text & ->). split; reflexivity.
Qed.

(** The empty stream yields the terminal chunk alone. *)
Example decoder_empty_stream (clock : nat -> Z) :
  Stream.toArray clock (Stream.new []) = [Stream.final_chunk (clock 0%nat)].
Proof. reflexivity. Qed.

(** ** Malformed lines *)

Lemma split_newline_free (line : jsstring) :
  newline_free line -> Str.split Str.newline line = [line].
Proof.
  unfold newline_free. induction line as [|c line IH]; intros H; [reflexivity|].
  cbn [Str.split].
  destruct (N.eqb_spec c Str.newline) as [->|Hc].
  - exfalso. apply H. left; reflexivity.
  - rewrite IH; [reflexivity|]. intros Hin; apply H; right; assumption.
Qed.

Lemma split_line_then (line rest : jsstring) :
  newline_free line ->
  Str.split Str.newline (line ++ Str.newline :: rest) =
  line :: Str.split Str.newline rest.
Proof.
  unfold newline_free. induction line as [|c line IH]; intros H.
  - cbn [app Str.split]. rewrite N.eqb_refl. reflexivity.
  - cbn [app Str.split].
    destruct (N.eqb_spec c Str.newline) as [->|Hc].
    + exfalso. apply H. left; reflexivity.
    + rewrite IH; [reflexivity|]. intros Hin; apply H; right; assumption.
Qed.

Lemma split_join (lines : list jsstring) :
  Forall newline_free lines -> lines <> [] ->
  Str.split Str.newline (Str.join Str.newline lines) = lines.
Proof.
  induction lines as [|line lines IH]; intros Hall Hne; [congruence|].
  inversion Hall as [|? ? Hline Hrest]; subst.
  destruct lines as [|line2 lines].
  - apply split_newline_free; assumption.
  - cbn [Str.join]. rewrite split_line_then by assumption.
    f_equal. apply IH; [assumption | discriminate].
Qed.

Lemma extract_malformed (line : jsstring) :
  malformed line -> Stream.extractStreamingText line = JNull.
Proof.
  intros (e & He). unfold Stream.extractStreamingText.
  destruct (_ || _); [reflexivity|].
  rewrite He. reflexivity.
Qed.

Lemma process_skips (clock : nat -> Z) (yielded : list jsval) (line : jsstring) :
  Stream.extractStreamingText line = JNull ->
  Stream.process clock yielded line = yielded.
Proof.
  intros H. unfold Stream.process. rewrite H.
  destruct (negb _); reflexivity.
Qed.






Lemma newline_free_dec (line : jsstring) :
  existsb (N.eqb Str.newline) line = false -> newline_free line.
Proof.
  intros H Hin. assert (E : existsb (N.eqb Str.newline) line = true).
  { apply existsb_exists. exists Str.newline. split; [assumption | apply N.eqb_refl]. }
  congruence.
Qed.


(** The same stream, computed: the broken line leaves no trace. *)
Example decoder_broken_line_run (clock : nat -> Z) :
  Stream.toArray clock (Stream.new [broken_line ++ [10%N]; hello_line ++ [10%N]]) =
  [Stream.content_chunk (clock 0%nat) (JStr (lit "Hello"));
   Stream.final_chunk (clock 1%nat)].
Proof. reflexivity. Qed.

(* ===================================================================== *)
(** * Further properties of the code *)
(* ===================================================================== *)

(** ** The validators, declaratively *)

Lemma typeof_string (v : jsval) :
  (Js.typeof v =? "string")%string = is_string v.
Proof. destruct v; reflexivity. Qed.

Lemma includes_roles_truthy (v : jsval) :
  Utils.includes Utils.roles v = true -> Js.truthy v = true.
Proof.
  destruct v as [| | | |s| |]; try discriminate.
  destruct s; [discriminate | reflexivity].
Qed.

(** One message: the four checks of the loop body pass exactly on
    [message_ok]. *)
Lemma validateMessages_entries_cons (index : nat) (m : jsval) (rest : list jsval) :
  Utils.validateMessages_entries index (m :: rest) =
  if message_ok m then Utils.validateMessages_entries (S index) rest
  else Utils.validateMessages_entries index [m].
Proof.
  unfold message_ok, is_object. cbn [Utils.validateMessages_entries].
  destruct (Js.truthy m); cbn [negb orb andb Exn.throw_if Exn.bind]; [|reflexivity].
  destruct (Js.typeof m =? "object")%string;
    cbn [negb orb andb Exn.throw_if Exn.bind]; [|reflexivity].
  destruct (Utils.includes Utils.roles (Js.prop m (lit "role"))) eqn:Hinc.
  - rewrite (includes_roles_truthy _ Hinc). cbn [negb andb Exn.throw_if Exn.bind].
    destruct (Js.truthy (Js.prop m (lit "content")));
      destruct (Js.truthy (Js.prop m (lit "function_call")));
      destruct (Js.truthy (Js.prop m (lit "tool_calls"))); reflexivity.
  - cbn [andb]. destruct (Js.truthy (Js.prop m (lit "role"))); reflexivity.
Qed.

Lemma validateMessages_entries_single_fails (index : nat) (m : jsval) :
  message_ok m = false ->
  exists rest,
    Utils.validateMessages_entries index [m] =
    Throw (Errors.Error (Utils.at_index "messages" index rest)).
Proof.
  unfold message_ok, is_object. cbn [Utils.validateMessages_entries].
  destruct (Js.truthy m); cbn [negb orb andb Exn.throw_if Exn.bind]; [|eauto].
  destruct (Js.typeof m =? "object")%string;
    cbn [negb orb andb Exn.throw_if Exn.bind]; [|eauto].
  destruct (Js.truthy (Js.prop m (lit "role"))) eqn:Hr;
    cbn [negb orb andb Exn.throw_if Exn.bind]; [|eauto].
  destruct (Utils.includes Utils.roles (Js.prop m (lit "role")));
    cbn [negb orb andb Exn.throw_if Exn.bind]; [|eauto].
  destruct (Js.truthy (Js.prop m (lit "content")));
    destruct (Js.truthy (Js.prop m (lit "function_call")));
    destruct (Js.truthy (Js.prop m (lit "tool_calls")));
    cbn [negb orb andb Exn.throw_if Exn.bind]; intros H;
    try discriminate H; eauto.
Qed.

Lemma validateMessages_entries_ok (entries : list jsval) :
  forall index,
    Utils.validateMessages_entries index entries = Ok tt <->
    forallb message_ok entries = true.
Proof.
  induction entries as [|m rest IH]; intros index.
  - split; reflexivity.
  - rewrite validateMessages_entries_cons. cbn [forallb].
    destruct (message_ok m) eqn:Hm; cbn [andb].
    + apply IH.
    + destruct (validateMessages_entries_single_fails index m Hm) as (r & ->).
      split; discriminate.
Qed.

Lemma validateMessages_spec (messages : jsval) :
  Utils.validateMessages messages = Ok tt <-> messages_ok messages = true.
Proof.
  destruct messages as [| | | | |items|]; try (split; discriminate).
  destruct items as [|m rest]; [split; discriminate|].
  unfold Utils.validateMessages, messages_ok.
  cbn [List.length Nat.eqb Exn.throw_if Exn.bind].
  apply validateMessages_entries_ok.
Qed.

(** X1.  [validateMessages] returns normally exactly on a non-empty
    array each of whose entries is an object (or array) with a role among
    system, user, assistant, function and tool and with a truthy
    [content], [function_call] or [tool_calls]. *)
Theorem validateMessages_accepts_iff (messages : jsval) :
  Utils.validateMessages messages = Ok tt <-> messages_ok messages = true.
Proof. apply validateMessages_spec. Qed.

Lemma validateMessages_entries_first (good : list jsval) :
  forall index bad tail,
    forallb message_ok good = true ->
    message_ok bad = false ->
    exists rest,
      Utils.validateMessages_entries index (good ++ bad :: tail) =
      Throw (Errors.Error
               (Utils.at_index "messages" (index + List.length good) rest)).
Proof.
  induction good as [|m good IH]; intros index bad tail Hgood Hbad.
  - cbn [app List.length]. rewrite Nat.add_0_r.
    rewrite validateMessages_entries_cons, Hbad.
    apply validateMessages_entries_single_fails; assumption.
  - cbn [forallb] in Hgood. apply andb_true_iff in Hgood. destruct Hgood as (Hm & Hgood).
    cbn [app List.length]. rewrite validateMessages_entries_cons, Hm.
    replace (index + S (List.length good))%nat with (S index + List.length good)%nat by lia.
    apply IH; assumption.
Qed.

(** X2.  [validateMessages] stops at the first entry that is not
    acceptable: the error it throws is a plain [Error] whose message
    starts with [messages[i]], [i] being the position of that entry;
    what follows it is never looked at. *)
Theorem validateMessages_reports_first_invalid
        (good : list jsval) (bad : jsval) (tail : list jsval) :
  forallb message_ok good = true ->
  message_ok bad = false ->
  exists rest,
    Utils.validateMessages (JArr (good ++ bad :: tail)) =
    Throw (Errors.Error (Utils.at_index "messages" (List.length good) rest)).
Proof.
  intros Hgood Hbad.
  destruct (validateMessages_entries_first good 0 bad tail Hgood Hbad) as (rest & H).
  exists rest. unfold Utils.validateMessages.
  destruct (good ++ bad :: tail) eqn:E.
  - destruct good; discriminate E.
  - cbn [List.length Nat.eqb Exn.throw_if Exn.bind]. exact H.
Qed.

Lemma validateMessages_reports_first_invalid_witness :
  exists rest,
    Utils.validateMessages
      (JArr ([JObj [(lit "role", JStr (lit "user")); (lit "content", JStr (lit "Hello!"))]]
             ++ JObj [(lit "role", JStr (lit "robot")); (lit "content", JStr (lit "x"))]
             :: [JNull])) =
    Throw (Errors.Error
             (Utils.at_index "messages"
                (List.length
                   [JObj [(lit "role", JStr (lit "user"));
                          (lit "content", JStr (lit "Hello!"))]]) rest)).
Proof.
  apply (validateMessages_reports_first_invalid
           [JObj [(lit "role", JStr (lit "user")); (lit "content", JStr (lit "Hello!"))]]
           (JObj [(lit "role", JStr (lit "robot")); (lit "content", JStr (lit "x"))])
           [JNull]); reflexivity.
Defined.

(** X3.  The content rule does not look at the role: a message with a
    recognised role, the roles function and tool included, and with no
    truthy [content], [function_call] or [tool_calls] (an empty-string
    content counts as none) is rejected with the message
    "... .content is required when role is not function or tool". *)
Theorem validateMessages_requires_content_for_every_role
        (good : list jsval) (m : jsval) (tail : list jsval) :
  forallb message_ok good = true ->
  is_object m = true ->
  Utils.includes Utils.roles (Js.prop m (lit "role")) = true ->
  Js.truthy (Js.prop m (lit "content")) = false ->
  Js.truthy (Js.prop m (lit "function_call")) = false ->
  Js.truthy (Js.prop m (lit "tool_calls")) = false ->
  Utils.validateMessages (JArr (good ++ m :: tail)) =
  Throw (Errors.Error
           (Utils.at_index "messages" (List.length good)
              ".content is required when role is not function or tool")).
Proof.
  intros Hgood Hobj Hrole Hc Hf Ht.
  assert (Hbad : message_ok m = false)
    by (unfold message_ok; rewrite Hc, Hf, Ht; apply andb_false_r).
  unfold Utils.validateMessages.
  destruct (good ++ m :: tail) eqn:E; [destruct good; discriminate E|].
  cbn [List.length Nat.eqb Exn.throw_if Exn.bind]. rewrite <- E. clear E.
  assert (Hgen : forall index,
             Utils.validateMessages_entries index (good ++ m :: tail) =
             Throw (Errors.Error
                      (Utils.at_index "messages" (index + List.length good)
                         ".content is required when role is not function or tool"))).
  { clear - Hgood Hobj Hrole Hc Hf Ht Hbad.
    induction good as [|g good IH]; intros index.
    - cbn [app List.length]. rewrite Nat.add_0_r.
      rewrite validateMessages_entries_cons, Hbad.
      unfold is_object in Hobj. apply andb_true_iff in Hobj. destruct Hobj as (H1 & H2).
      cbn [Utils.validateMessages_entries].
      rewrite H1, H2, (includes_roles_truthy _ Hrole), Hrole, Hc, Hf, Ht.
      reflexivity.
    - cbn [forallb] in Hgood. apply andb_true_iff in Hgood.
      destruct Hgood as (Hg & Hgood).
      cbn [app List.length]. rewrite validateMessages_entries_cons, Hg.
      replace (index + S (List.length good))%nat
        with (S index + List.length good)%nat by lia.
      apply IH; assumption. }
  apply (Hgen 0%nat).
Qed.

Lemma validateMessages_requires_content_for_every_role_witness :
  Utils.validateMessages
    (JArr ([] ++ JObj [(lit "role", JStr (lit "tool"));
                       (lit "tool_call_id", JStr (lit "call_1"));
                       (lit "content", JStr [])] :: [])) =
  Throw (Errors.Error
           (Utils.at_index "messages" (List.length (@nil jsval))
              ".content is required when role is not function or tool")).
Proof.
  apply (validateMessages_requires_content_for_every_role
           [] (JObj [(lit "role", JStr (lit "tool"));
                     (lit "tool_call_id", JStr (lit "call_1"));
                     (lit "content", JStr [])]) []); reflexivity.
Defined.

Lemma validateFunctions_entries_cons (index : nat) (f : jsval) (rest : list jsval) :
  Utils.validateFunctions_entries index (f :: rest) =
  if function_ok f then Utils.validateFunctions_entries (S index) rest
  else Utils.validateFunctions_entries index [f].
Proof.
  unfold function_ok, is_object. cbn [Utils.validateFunctions_entries].
  rewrite !typeof_string.
  destruct (Js.truthy f); cbn [negb orb andb Exn.throw_if Exn.bind]; [|reflexivity].
  destruct (Js.typeof f =? "object")%string;
    cbn [negb orb andb Exn.throw_if Exn.bind]; [|reflexivity].
  destruct (Js.truthy (Js.prop f (lit "name")));
    cbn [negb orb andb Exn.throw_if Exn.bind]; [|reflexivity].
  destruct (is_string (Js.prop f (lit "name")));
    cbn [negb orb andb Exn.throw_if Exn.bind]; [|reflexivity].
  destruct (Js.truthy (Js.prop f (lit "description")));
    destruct (is_string (Js.prop f (lit "description")));
    cbn [negb orb andb Exn.throw_if Exn.bind]; try reflexivity;
    destruct (Js.truthy (Js.prop f (lit "parameters")));
    destruct (Js.typeof (Js.prop f (lit "parameters")) =? "object")%string;
    reflexivity.
Qed.

Lemma validateFunctions_entries_single_fails (index : nat) (f : jsval) :
  function_ok f = false ->
  exists rest,
    Utils.validateFunctions_entries index [f] =
    Throw (Errors.Error (Utils.at_index "functions" index rest)).
Proof.
  unfold function_ok, is_object. cbn [Utils.validateFunctions_entries].
  rewrite !typeof_string.
  destruct (Js.truthy f); cbn [negb orb andb Exn.throw_if Exn.bind]; [|eauto].
  destruct (Js.typeof f =? "object")%string;
    cbn [negb orb andb Exn.throw_if Exn.bind]; [|eauto].
  destruct (Js.truthy (Js.prop f (lit "name")));
    cbn [negb orb andb Exn.throw_if Exn.bind]; [|eauto].
  destruct (is_string (Js.prop f (lit "name")));
    cbn [negb orb andb Exn.throw_if Exn.bind]; [|eauto].
  destruct (Js.truthy (Js.prop f (lit "description")));
    destruct (is_string (Js.prop f (lit "description")));
    cbn [negb orb andb Exn.throw_if Exn.bind]; eauto;
    destruct (Js.truthy (Js.prop f (lit "parameters")));
    destruct (Js.typeof (Js.prop f (lit "parameters")) =? "object")%string;
    cbn [negb orb andb Exn.throw_if Exn.bind]; intros H;
    try discriminate H; eauto.
Qed.

Lemma validateFunctions_entries_ok (entries : list jsval) :
  forall index,
    Utils.validateFunctions_entries index entries = Ok tt <->
    forallb function_ok entries = true.
Proof.
  induction entries as [|f rest IH]; intros index.
  - split; reflexivity.
  - rewrite validateFunctions_entries_cons. cbn [forallb].
    destruct (function_ok f) eqn:Hf; cbn [andb].
    + apply IH.
    + destruct (validateFunctions_entries_single_fails index f Hf) as (r & ->).
      split; discriminate.
Qed.

Lemma validateFunctions_spec (functions : jsval) :
  Utils.validateFunctions functions = Ok tt <-> functions_ok functions = true.
Proof.
  destruct functions as [| | | | |items|]; try (split; discriminate).
  apply validateFunctions_entries_ok.
Qed.

(** X4.  [validateFunctions] returns normally exactly on an array, the
    empty one included, each of whose entries is an object with a
    non-empty string [name], a [description] that is falsy or a string
    and [parameters] that are falsy or an object. *)
Theorem validateFunctions_accepts_iff (functions : jsval) :
  Utils.validateFunctions functions = Ok tt <-> functions_ok functions = true.
Proof. apply validateFunctions_spec. Qed.

Lemma validateTools_entries_cons (index : nat) (t : jsval) (rest : list jsval) :
  Utils.validateTools_entries index (t :: rest) =
  if tool_ok t then Utils.validateTools_entries (S index) rest
  else Utils.validateTools_entries index [t].
Proof.
  unfold tool_ok. cbn [Utils.validateTools_entries].
  unfold is_object.
  destruct (Js.truthy t); cbn [negb orb andb Exn.throw_if Exn.bind]; [|reflexivity].
  destruct (Js.typeof t =? "object")%string;
    cbn [negb orb andb Exn.throw_if Exn.bind]; [|reflexivity].
  destruct (Js.truthy (Js.prop t (lit "type")));
    cbn [negb orb andb Exn.throw_if Exn.bind]; [|reflexivity].
  destruct (Js.str_eq (Js.prop t (lit "type")) (lit "function"));
    cbn [negb orb andb Exn.throw_if Exn.bind]; [|reflexivity].
  destruct (function_ok (Js.prop t (lit "function"))) eqn:Hf.
  - assert (Ht : Js.truthy (Js.prop t (lit "function")) = true).
    { unfold function_ok, is_object in Hf.
      destruct (Js.truthy (Js.prop t (lit "function"))); [reflexivity | discriminate]. }
    rewrite Ht. cbn [negb Exn.throw_if Exn.bind].
    change (Utils.validateFunctions (JArr [Js.prop t (lit "function")]))
      with (Utils.validateFunctions_entries 0 [Js.prop t (lit "function")]).
    rewrite (proj2 (validateFunctions_entries_ok [Js.prop t (lit "function")] 0%nat))
      by (cbn [forallb]; rewrite Hf; reflexivity).
    reflexivity.
  - destruct (Js.truthy (Js.prop t (lit "function")));
      cbn [negb Exn.throw_if Exn.bind]; [|reflexivity].
    change (Utils.validateFunctions (JArr [Js.prop t (lit "function")]))
      with (Utils.validateFunctions_entries 0 [Js.prop t (lit "function")]).
    destruct (validateFunctions_entries_single_fails 0 _ Hf) as (r & ->).
    reflexivity.
Qed.

Lemma validateTools_entries_single_fails (index : nat) (t : jsval) :
  tool_ok t = false ->
  exists e, Utils.validateTools_entries index [t] = Throw e.
Proof.
  unfold tool_ok, is_object. cbn [Utils.validateTools_entries].
  destruct (Js.truthy t); cbn [negb orb andb Exn.throw_if Exn.bind]; [|eauto].
  destruct (Js.typeof t =? "object")%string;
    cbn [negb orb andb Exn.throw_if Exn.bind]; [|eauto].
  destruct (Js.truthy (Js.prop t (lit "type")));
    cbn [negb orb andb Exn.throw_if Exn.bind]; [|eauto].
  destruct (Js.str_eq (Js.prop t (lit "type")) (lit "function"));
    cbn [negb orb andb Exn.throw_if Exn.bind]; [|discriminate].
  intros Hf.
  destruct (Js.truthy (Js.prop t (lit "function")));
    cbn [negb Exn.throw_if Exn.bind]; [|eauto].
  change (Utils.validateFunctions (JArr [Js.prop t (lit "function")]))
    with (Utils.validateFunctions_entries 0 [Js.prop t (lit "function")]).
  destruct (validateFunctions_entries_single_fails 0 _ Hf) as (r & ->).
  cbn [Exn.bind]. eauto.
Qed.

Lemma validateTools_entries_ok (entries : list jsval) :
  forall index,
    Utils.validateTools_entries index entries = Ok tt <->
    forallb tool_ok entries = true.
Proof.
  induction entries as [|t rest IH]; intros index.
  - split; reflexivity.
  - rewrite validateTools_entries_cons. cbn [forallb].
    destruct (tool_ok t) eqn:Ht; cbn [andb].
    + apply IH.
    + destruct (validateTools_entries_single_fails index t Ht) as (e & ->).
      split; discriminate.
Qed.

Lemma validateTools_spec (tools : jsval) :
  Utils.validateTools tools = Ok tt <-> tools_ok tools = true.
Proof.
  destruct tools as [| | | | |items|]; try (split; discriminate).
  apply validateTools_entries_ok.
Qed.

(** X5.  [validateTools] returns normally exactly on an array, the empty
    one included, each of whose entries is an object with a truthy
    [type] and, when the type is "function", a [function] that passes
    the rules for function definitions; the [function] of a tool of any
    other type is not examined. *)
Theorem validateTools_accepts_iff (tools : jsval) :
  Utils.validateTools tools = Ok tt <-> tools_ok tools = true.
Proof. apply validateTools_spec. Qed.

Lemma validateTools_entries_function_index (good : list jsval) :
  forall index t tail,
    forallb tool_ok good = true ->
    is_object t = true ->
    Js.str_eq (Js.prop t (lit "type")) (lit "function") = true ->
    Js.truthy (Js.prop t (lit "function")) = true ->
    function_ok (Js.prop t (lit "function")) = false ->
    exists rest,
      Utils.validateTools_entries index (good ++ t :: tail) =
      Throw (Errors.Error (Utils.at_index "functions" 0 rest)).
Proof.
  induction good as [|g good IH]; intros index t tail Hgood Hobj Hty Hfn Hbad.
  - cbn [app].
    assert (Htool : tool_ok t = false)
      by (unfold tool_ok; rewrite Hty, Hbad; cbn; apply andb_false_r).
    rewrite validateTools_entries_cons, Htool.
    cbn [Utils.validateTools_entries].
    unfold is_object in Hobj. apply andb_true_iff in Hobj. destruct Hobj as (H1 & H2).
    rewrite H1, H2. cbn [negb orb Exn.throw_if Exn.bind].
    assert (Htype : Js.truthy (Js.prop t (lit "type")) = true).
    { destruct (Js.prop t (lit "type")) as [| | | |s| |]; try discriminate Hty.
      destruct s; [discriminate Hty | reflexivity]. }
    rewrite Htype, Hty, Hfn. cbn [negb Exn.throw_if Exn.bind].
    change (Utils.validateFunctions (JArr [Js.prop t (lit "function")]))
      with (Utils.validateFunctions_entries 0 [Js.prop t (lit "function")]).
    destruct (validateFunctions_entries_single_fails 0 _ Hbad) as (r & ->).
    exists r. reflexivity.
  - cbn [forallb] in Hgood. apply andb_true_iff in Hgood. destruct Hgood as (Hg & Hgood).
    cbn [app]. rewrite validateTools_entries_cons, Hg.
    apply IH; assumption.
Qed.

(** X6.  When a tool of type "function" carries a [function] that
    breaks the function-definition rules, the error names
    [functions[0]], whatever the position of the tool in [tools]: the
    function is validated as a one-element array of its own. *)
Theorem validateTools_reports_functions_0
        (good : list jsval) (t : jsval) (tail : list jsval) :
  forallb tool_ok good = true ->
  is_object t = true ->
  Js.str_eq (Js.prop t (lit "type")) (lit "function") = true ->
  Js.truthy (Js.prop t (lit "function")) = true ->
  function_ok (Js.prop t (lit "function")) = false ->
  exists rest,
    Utils.validateTools (JArr (good ++ t :: tail)) =
    Throw (Errors.Error (Utils.at_index "functions" 0 rest)).
Proof.
  intros. unfold Utils.validateTools.
  apply validateTools_entries_function_index; assumption.
Qed.

Lemma validateTools_reports_functions_0_witness :
  exists rest,
    Utils.validateTools
      (JArr ([JObj [(lit "type", JStr (lit "retrieval"))]]
             ++ JObj [(lit "type", JStr (lit "function"));
                      (lit "function", JObj [(lit "description", JStr (lit "no name"))])]
             :: [])) =
    Throw (Errors.Error (Utils.at_index "functions" 0 rest)).
Proof.
  apply (validateTools_reports_functions_0
           [JObj [(lit "type", JStr (lit "retrieval"))]]
           (JObj [(lit "type", JStr (lit "function"));
                  (lit "function", JObj [(lit "description", JStr (lit "no name"))])])
           []); reflexivity.
Defined.

(** ** What [create] accepts *)

Lemma result_unit_cases (r : result unit) : r = Ok tt \/ exists e, r = Throw e.
Proof. destruct r as [[]|e]; eauto. Qed.

Lemma max_tokens_guard (v : jsval) :
  Js.truthy v && (negb (Js.typeof v =? "number")%string || Js.le v 0)
  = negb (number_ok v (fun q => Js.Qlt_bool 0 q)).
Proof.
  unfold number_ok, Js.le, Js.num_rel, Js.Qlt_bool.
  destruct v as [| |b|q|s| |]; cbn;
    repeat match goal with
           | |- context [Qeq_bool ?x ?y] => destruct (Qeq_bool x y)
           | |- context [Qle_bool ?x ?y] => destruct (Qle_bool x y)
           end;
    try reflexivity; [destruct b | destruct s]; reflexivity.
Qed.

Lemma temperature_guard (v : jsval) :
  Js.truthy v && (negb (Js.typeof v =? "number")%string || Js.lt v 0 || Js.gt v 2)
  = negb (number_ok v (fun q => Qle_bool 0 q && Qle_bool q 2)).
Proof.
  unfold number_ok, Js.lt, Js.gt, Js.num_rel, Js.Qlt_bool.
  destruct v as [| |b|q|s| |]; cbn;
    repeat match goal with
           | |- context [Qeq_bool ?x ?y] => destruct (Qeq_bool x y)
           | |- context [Qle_bool ?x ?y] => destruct (Qle_bool x y)
           end;
    try reflexivity; [destruct b | destruct s]; reflexivity.
Qed.

Lemma top_p_guard (v : jsval) :
  Js.truthy v && (negb (Js.typeof v =? "number")%string || Js.le v 0 || Js.gt v 1)
  = negb (number_ok v (fun q => Js.Qlt_bool 0 q && Qle_bool q 1)).
Proof.
  unfold number_ok, Js.le, Js.gt, Js.num_rel, Js.Qlt_bool.
  destruct v as [| |b|q|s| |]; cbn;
    repeat match goal with
           | |- context [Qeq_bool ?x ?y] => destruct (Qeq_bool x y)
           | |- context [Qle_bool ?x ?y] => destruct (Qle_bool x y)
           end;
    try reflexivity; [destruct b | destruct s]; reflexivity.
Qed.

Lemma guarded_validation (v : jsval) (validate : jsval -> result unit)
      (ok : jsval -> bool) :
  (validate v = Ok tt <-> ok v = true) ->
  (if Js.truthy v then validate v else Ok tt) = Ok tt
  <-> negb (Js.truthy v) || ok v = true.
Proof.
  intros H. destruct (Js.truthy v); cbn [negb orb]; [exact H | tauto].
Qed.

Lemma create_spec (c : ModelPilot) (params : jsval) :
  (exists d, ChatCompletions.create c params = Ok d) <-> request_ok params = true.
Proof.
  unfold ChatCompletions.create, request_ok.
  rewrite max_tokens_guard, temperature_guard, top_p_guard.
  destruct (Js.truthy (Js.prop params (lit "messages"))) eqn:Hm.
  2:{ cbn [andb]. split; [|discriminate]. intros (d & H).
      destruct params; cbn in H; try discriminate H;
        cbn in Hm; rewrite Hm in H; discriminate H. }
  rewrite (truthy_prop_get _ _ Hm). cbn [Exn.bind]. rewrite Hm.
  cbn [negb andb Exn.throw_if Exn.bind].
  pose proof (validateMessages_spec (Js.prop params (lit "messages"))) as Hvm.
  destruct (result_unit_cases (Utils.validateMessages (Js.prop params (lit "messages"))))
    as [Hr | (e & Hr)]; rewrite Hr in *; cbn [Exn.bind].
  2:{ destruct (messages_ok _); [destruct Hvm as (_ & Hvm); discriminate (Hvm eq_refl)|].
      cbn [andb]. split; [intros (d & H); discriminate H | discriminate]. }
  rewrite (proj1 Hvm eq_refl). cbn [andb].
  pose proof (guarded_validation (Js.prop params (lit "functions")) _ _
                (validateFunctions_spec (Js.prop params (lit "functions")))) as Hvf.
  destruct (result_unit_cases
              (if Js.truthy (Js.prop params (lit "functions"))
               then Utils.validateFunctions (Js.prop params (lit "functions"))
               else Ok tt)) as [Hr2 | (e & Hr2)]; rewrite Hr2 in *; cbn [Exn.bind].
  2:{ destruct (negb _ || functions_ok _);
        [destruct Hvf as (_ & Hvf); discriminate (Hvf eq_refl)|].
      cbn [andb]. split; [intros (d & H); discriminate H | discriminate]. }
  rewrite (proj1 Hvf eq_refl). cbn [andb].
  pose proof (guarded_validation (Js.prop params (lit "tools")) _ _
                (validateTools_spec (Js.prop params (lit "tools")))) as Hvt.
  destruct (result_unit_cases
              (if Js.truthy (Js.prop params (lit "tools"))
               then Utils.validateTools (Js.prop params (lit "tools"))
               else Ok tt)) as [Hr3 | (e & Hr3)]; rewrite Hr3 in *; cbn [Exn.bind].
  2:{ destruct (negb _ || tools_ok _);
        [destruct Hvt as (_ & Hvt); discriminate (Hvt eq_refl)|].
      cbn [andb]. split; [intros (d & H); discriminate H | discriminate]. }
  rewrite (proj1 Hvt eq_refl). cbn [andb].
  destruct (number_ok (Js.prop params (lit "max_tokens")) _);
    cbn [negb andb Exn.throw_if Exn.bind];
    [|split; [intros (d & H); discriminate H | discriminate]].
  destruct (number_ok (Js.prop params (lit "temperature")) _);
    cbn [negb andb Exn.throw_if Exn.bind];
    [|split; [intros (d & H); discriminate H | discriminate]].
  destruct (number_ok (Js.prop params (lit "top_p")) _);
    cbn [negb andb Exn.throw_if Exn.bind];
    [|split; [intros (d & H); discriminate H | discriminate]].
  split; [reflexivity|]. intros _.
  destruct (Js.truthy (Js.prop params (lit "stream"))); eauto.
Qed.

(** X7.  [create] gets as far as dispatching a request exactly when
    [messages] is truthy and valid, [functions] and [tools] are falsy or
    valid, and each of [max_tokens], [temperature] and [top_p] is falsy
    (absent, 0, an empty string, ...) or a number in range: above 0 for
    [max_tokens], from 0 to 2 for [temperature], above 0 and at most 1
    for [top_p].  No other parameter is checked. *)
Theorem create_accepts_iff (c : ModelPilot) (params : jsval) :
  (exists d, ChatCompletions.create c params = Ok d) <-> request_ok params = true.
Proof. apply create_spec. Qed.

(** ** The errors [create] raises *)




(** ** What the constructor accepts *)

Lemma maxRetries_guard (v : jsval) :
  Js.truthy v && (negb (Js.typeof v =? "number")%string || Js.lt v 0)
  = negb (number_ok v (fun q => Qle_bool 0 q)).
Proof.
  unfold number_ok, Js.lt, Js.num_rel, Js.Qlt_bool.
  destruct v as [| |b|q|s| |]; cbn;
    repeat match goal with
           | |- context [Qeq_bool ?x ?y] => destruct (Qeq_bool x y)
           | |- context [Qle_bool ?x ?y] => destruct (Qle_bool x y)
           end;
    try reflexivity; [destruct b | destruct s]; reflexivity.
Qed.

Lemma baseURL_guard (v : jsval) :
  Js.truthy v && negb (Js.typeof v =? "string")%string
  = negb (negb (Js.truthy v) || is_string v).
Proof. rewrite typeof_string. destruct (Js.truthy v), (is_string v); reflexivity. Qed.

Lemma constructor_spec (cfg : jsval) (c : ModelPilot) :
  Client.constructor cfg = Ok c <-> config_ok cfg = true /\ c = client_of cfg.
Proof.
  unfold Client.constructor, config_ok.
  destruct (Js.nullish cfg) eqn:Hn.
  { destruct cfg; try discriminate Hn; cbn; split;
      try discriminate; intros (H & _); discriminate H. }
  assert (Hu : Js.is_undefined cfg = false) by (destruct cfg; (reflexivity || discriminate Hn)).
  rewrite Hu. unfold Client.validateConfig.
  rewrite (get_not_nullish _ (lit "apiKey") Hn). cbn [Exn.bind].
  rewrite baseURL_guard, max_tokens_guard, maxRetries_guard, typeof_string.
  destruct (Js.prop cfg (lit "apiKey")) as [| |b|q|s| |] eqn:Hkey;
    try (cbn; split; [discriminate | intros (H & _); discriminate H]).
  - destruct b; cbn; split; try discriminate; intros (H & _); discriminate H.
  - destruct (Js.truthy (JNum q)); cbn; split; try discriminate;
      intros (H & _); discriminate H.
  - destruct s as [|ch s].
    { cbn. split; [discriminate | intros (H & _); discriminate H]. }
    cbn [Js.truthy is_string negb Exn.throw_if Exn.bind].
    destruct (negb (Js.truthy (Js.prop cfg (lit "baseURL"))) || _);
      cbn [negb andb Exn.throw_if Exn.bind];
      [|rewrite andb_false_r; split; [discriminate | intros (H & _); discriminate H]].
    destruct (number_ok (Js.prop cfg (lit "timeout")) _);
      cbn [negb andb Exn.throw_if Exn.bind];
      [|rewrite !andb_false_r; split; [discriminate | intros (H & _); discriminate H]].
    destruct (number_ok (Js.prop cfg (lit "maxRetries")) _);
      cbn [negb andb Exn.throw_if Exn.bind];
      [|rewrite !andb_false_r; split; [discriminate | intros (H & _); discriminate H]].
    rewrite !andb_true_r. cbn [apiKey]. rewrite Hkey. cbn [Client.startsWith Exn.bind].
    destruct (JsString.startsWith (ch :: s) (lit "mp_"));
      cbn [negb Exn.throw_if Exn.bind].
    + unfold client_of. rewrite Hkey.
      split; [intros H; injection H as <-; split; reflexivity|].
      intros (_ & ->). reflexivity.
    + split; [discriminate | intros (H & _); discriminate H].
Qed.

(** X9.  The constructor succeeds exactly on a configuration whose
    [apiKey] is a string starting with "mp_", whose [baseURL] is falsy or
    a string, whose [timeout] is falsy or a positive number and whose
    [maxRetries] is falsy or a non-negative number ([routerId] and
    [defaultHeaders] are not checked).  The client then holds the key
    and, for each of [baseURL], [routerId], [timeout], [defaultHeaders]
    and [maxRetries], the configured value when it is truthy and the
    default otherwise. *)
Theorem constructor_accepts_iff (cfg : jsval) (c : ModelPilot) :
  Client.constructor cfg = Ok c <-> config_ok cfg = true /\ c = client_of cfg.
Proof. apply constructor_spec. Qed.

(** ** Request headers *)

Lemma constructor_apiKey (cfg : jsval) (c : ModelPilot) :
  Client.constructor cfg = Ok c ->
  exists key, apiKey c = JStr key /\ JsString.startsWith key (lit "mp_") = true.
Proof.
  intros H. apply constructor_spec in H. destruct H as (Hok & ->).
  unfold config_ok in Hok. cbn [client_of apiKey].
  destruct (Js.prop cfg (lit "apiKey")); try discriminate Hok.
  eexists. split; [reflexivity|].
  destruct (JsString.startsWith s (lit "mp_")); [reflexivity | discriminate Hok].
Qed.

(** X10.  On a constructed client the request interceptor cannot fail:
    [buildHeaders] accepts the client's key whatever headers the request
    configuration carries.  In the headers it returns, a header of the
    additional ones (an object without repeated keys) takes precedence
    over the library's own, the [Authorization] header included; every
    other library header keeps its value, [Authorization] being
    "Bearer " followed by the key. *)
Theorem buildHeaders_on_constructed_client
        (cfg : jsval) (c : ModelPilot) (additional : list (jsstring * jsval)) :
  Client.constructor cfg = Ok c ->
  NoDup (List.map fst additional) ->
  (forall config, exists config', Headers.request_interceptor c config = Ok config')
  /\
  exists key headers,
    apiKey c = JStr key /\
    Headers.buildHeaders (apiKey c) (JObj additional) = Ok headers /\
    forall k,
      Js.assoc headers k =
      match Js.assoc additional k with
      | Some v => Some v
      | None => Js.assoc (Headers.default_headers key) k
      end.
Proof.
  intros Hc Hnd. destruct (constructor_apiKey _ _ Hc) as (key & Hk & Hp).
  split.
  { intros config. unfold Headers.request_interceptor, Headers.buildHeaders.
    rewrite Hk, Hp. cbn [negb Exn.throw_if Exn.bind]. eauto. }
  exists key. eexists. split; [assumption|].
  rewrite Hk. unfold Headers.buildHeaders. cbn [Js.is_undefined].
  rewrite Hp. cbn [negb Exn.throw_if Exn.bind Obj.own_props].
  split; [reflexivity|].
  intros k. apply assoc_spread. assumption.
Qed.

Lemma buildHeaders_on_constructed_client_witness :
  (forall config, exists config',
      Headers.request_interceptor sample_client config = Ok config')
  /\
  exists key headers,
    apiKey sample_client = JStr key /\
    Headers.buildHeaders (apiKey sample_client) (JObj override_headers) = Ok headers /\
    forall k,
      Js.assoc headers k =
      match Js.assoc override_headers k with
      | Some v => Some v
      | None => Js.assoc (Headers.default_headers key) k
      end.
Proof.
  apply (buildHeaders_on_constructed_client sample_config sample_client).
  - reflexivity.
  - repeat constructor; cbn; intros H;
      repeat (destruct H as [H|H]; [discriminate H|]); exact H.
Defined.



(** ** The request configuration *)

(** X12.  The configuration [request] builds from an options object
    (without repeated keys): every own key of the options ends up in the
    configuration with the options' value, [url] and [method] included,
    so an [url] among the options replaces the endpoint and the "POST"
    default applies only when the options have no [method] key at all;
    [data], [params] and [headers] are always present (as [undefined]
    when the options lack them), and nothing else is added. *)
Theorem request_config_fields (endpoint : jsval) (options : list (jsstring * jsval)) :
  NoDup (List.map fst options) ->
  exists config,
    Transport.request_config endpoint (JObj options) = Ok config /\
    Js.assoc config (lit "url") =
      Some (match Js.assoc options (lit "url") with Some v => v | None => endpoint end) /\
    Js.assoc config (lit "method") =
      Some (match Js.assoc options (lit "method") with
            | Some v => v
            | None => JStr (lit "POST")
            end) /\
    (forall k, In k [lit "data"; lit "params"; lit "headers"] ->
               Js.assoc config k = Some (Js.prop (JObj options) k)) /\
    (forall k, ~ In k config_keys -> Js.assoc config k = Js.assoc options k).
Proof.
  intros Hnd. unfold Transport.request_config. cbn [Js.is_undefined Exn.get Exn.bind].
  eexists. split; [reflexivity|].
  cbn [Obj.own_props].
  split; [rewrite assoc_spread by assumption; cbn [Js.assoc];
          destruct (Js.assoc options (lit "url")); reflexivity|].
  split.
  { rewrite assoc_spread by assumption. cbn [Js.assoc Js.prop].
    destruct (Js.assoc options (lit "method")) as [v|]; reflexivity. }
  split.
  { intros k Hk. rewrite assoc_spread by assumption. cbn [In] in Hk.
    destruct Hk as [<-|[<-|[<-|[]]]]; cbn [Js.assoc Js.prop];
      match goal with |- context [Js.assoc options ?key] =>
        destruct (Js.assoc options key) end; reflexivity. }
  intros k Hk. rewrite assoc_spread by assumption.
  destruct (Js.assoc options k) as [v|]; [reflexivity|].
  unfold config_keys in Hk. cbn [In] in Hk. cbn [Js.assoc].
  repeat match goal with
  | |- context [JsString.eqb ?a k] =>
      destruct (jsstring_eqb_spec a k) as [Heq|?]; [exfalso; apply Hk; tauto|]
  end.
  reflexivity.
Qed.

Lemma request_config_fields_witness :
  exists config,
    Transport.request_config (JStr (lit "/getModels")) (JObj get_options) = Ok config /\
    Js.assoc config (lit "url") =
      Some (match Js.assoc get_options (lit "url") with
            | Some v => v
            | None => JStr (lit "/getModels")
            end) /\
    Js.assoc config (lit "method") =
      Some (match Js.assoc get_options (lit "method") with
            | Some v => v
            | None => JStr (lit "POST")
            end) /\
    (forall k, In k [lit "data"; lit "params"; lit "headers"] ->
               Js.assoc config k = Some (Js.prop (JObj get_options) k)) /\
    (forall k, ~ In k config_keys -> Js.assoc config k = Js.assoc get_options k).
Proof.
  apply (request_config_fields (JStr (lit "/getModels")) get_options).
  repeat constructor; cbn; intros H;
    repeat (destruct H as [H|H]; [discriminate H|]); exact H.
Defined.



(** ** The course of a request *)

Lemma attempt_le_mono (a b : nat) (limit : jsval) :
  (a <= b)%nat -> Client.attempt_le b limit = true -> Client.attempt_le a limit = true.
Proof.
  unfold Client.attempt_le. destruct limit as [| | |m| | |]; try discriminate.
  intros Hab H. apply Qle_bool_iff in H. apply Qle_bool_iff.
  eapply Qle_trans; [|exact H]. rewrite <- Zle_Qle. lia.
Qed.

Lemma request_loop_course (this : ModelPilot) (httpClient : nat -> axios_outcome)
      (n : nat) :
  forall fuel attempt last slept,
    (forall k, (attempt <= k)%nat -> (k < attempt + n)%nat -> retried (httpClient k)) ->
    Client.attempt_le (attempt + n) (maxRetries this) = true ->
    (n < fuel)%nat ->
    (~ retried (httpClient (attempt + n)%nat)
     \/ Client.attempt_eq (attempt + n) (maxRetries this) = true) ->
    Client.request_loop this httpClient fuel attempt last slept =
    Some (mkRun (completion_of (Client.intercepted (httpClient (attempt + n)%nat)))
                (S (attempt + n))
                (slept ++ List.map Client.backoff (seq attempt n))).
Proof.
  induction n as [|n IH]; intros fuel attempt last slept Hre Hle Hfuel Hfin.
  - rewrite Nat.add_0_r in *. cbn [seq List.map]. rewrite app_nil_r.
    destruct fuel as [|fuel]; [lia|].
    destruct (Client.intercepted (httpClient attempt)) as [r|e] eqn:Hi.
    + apply request_loop_success; assumption.
    + destruct (no_retry e) eqn:Hn.
      * apply request_loop_no_retry; assumption.
      * destruct Hfin as [Hnot | Heq].
        -- exfalso. apply Hnot. exists e. split; assumption.
        -- apply request_loop_last; assumption.
  - destruct fuel as [|fuel]; [lia|].
    destruct (Hre attempt) as (e & Hi & Hn); [lia|lia|].
    assert (Hle0 : Client.attempt_le attempt (maxRetries this) = true)
      by (eapply attempt_le_mono; [|exact Hle]; lia).
    assert (Hle1 : Client.attempt_le (S attempt) (maxRetries this) = true)
      by (eapply attempt_le_mono; [|exact Hle]; lia).
    assert (Hne : Client.attempt_eq attempt (maxRetries this) = false).
    { destruct (Client.attempt_eq attempt (maxRetries this)) eqn:E; [|reflexivity].
      apply attempt_eq_succ in E. congruence. }
    rewrite (request_loop_retry this httpClient _ _ _ _ e) by assumption.
    replace (attempt + S n)%nat with (S attempt + n)%nat in * by lia.
    rewrite (IH fuel (S attempt) (Some e) (slept ++ [Client.backoff attempt])).
    + cbn [seq List.map]. rewrite <- app_assoc. reflexivity.
    + intros k H1 H2. apply Hre; lia.
    + assumption.
    + lia.
    + assumption.
Qed.

Lemma final_not_retried (o : axios_outcome) :
  well_formed o ->
  match o with
  | Resolved _ => True
  | Rejected error =>
      match ae_response error with
      | Some r => (resp_status r < 500)%Z
      | None => False
      end
  end ->
  ~ retried o.
Proof.
  intros Hwf Hfin Hre. apply (retried_iff_transient o Hwf) in Hre.
  destruct o as [r|error]; [exact Hre|].
  cbn in *. destruct (ae_response error); [lia | exact Hfin].
Qed.

Lemma request_course_spec (c : ModelPilot) (m : Q) (httpClient : nat -> axios_outcome)
        (n : nat) :
  maxRetries c = JNum m ->
  inject_Z (Z.of_nat n) <= m ->
  (forall k, (k < n)%nat -> well_formed (httpClient k) /\ transient (httpClient k)) ->
  well_formed (httpClient n) ->
  final_attempt m n (httpClient n) ->
  Client.request c httpClient =
  Some (mkRun (completion_of (Client.intercepted (httpClient n)))
              (S n)
              (List.map Client.backoff (seq 0 n))).
Proof.
  intros Hm Hn Hbefore Hwf Hfin.
  unfold Client.request.
  rewrite (request_loop_course c httpClient n _ 0%nat None []); [reflexivity| | | |].
  - intros k _ Hk. destruct (Hbefore k Hk) as (Hw & Ht).
    apply retried_iff_transient; assumption.
  - rewrite Hm. cbn. apply Qle_bool_iff. exact Hn.
  - rewrite Hm. cbn [Client.iterations].
    apply Qfloor_resp_le in Hn. rewrite Qfloor_Z in Hn. lia.
  - cbn [Nat.add]. destruct Hfin as [Heq | Hfin].
    + right. rewrite Hm. cbn. apply Qeq_bool_iff. exact Heq.
    + left. apply final_not_retried; assumption.
Qed.

(** X14.  The course of a request.  Let the attempts before the [n]-th
    fail transiently (a 5xx response or no response) and let the
    [n]-th, with [n] not above [maxRetries], be final: a success, a
    response below 500, or the last attempt allowed.  Then [request]
    makes exactly [n + 1] attempts, ends as the [n]-th attempt did
    (returning its data or raising its error), and in between has slept
    the delays [backoff 0], ..., [backoff (n - 1)], one before each
    retry and none before the first attempt or after the last. *)




(** X15.  A transport that never gets a response exhausts the retries:
    with an integral [maxRetries = R], [request] makes [R + 1] attempts,
    sleeps [R] times and raises the [ModelPilotError] "Network error: No
    response received". *)
Theorem request_without_response (c : ModelPilot) (retries : nat)
        (httpClient : nat -> axios_outcome) :
  maxRetries c = JNum (inject_Z (Z.of_nat retries)) ->
  (forall k, exists msg, httpClient k = Rejected (mkAxiosError msg None true)) ->
  Client.request c httpClient =
  Some (mkRun (Thrown (Some (Errors.ModelPilotError
                               (JStr (lit "Network error: No response received"))
                               JUndefined)))
              (S retries)
              (List.map Client.backoff (seq 0 retries))).
Proof.
  intros Hm Hdead.
  rewrite (request_course_spec c (inject_Z (Z.of_nat retries)) httpClient retries).
  - destruct (Hdead retries) as (msg & ->). reflexivity.
  - assumption.
  - apply Qle_refl.
  - intros k _. destruct (Hdead k) as (msg & ->). split; exact I.
  - destruct (Hdead retries) as (msg & ->). exact I.
  - left. reflexivity.
Qed.

Lemma request_without_response_witness :
  Client.request sample_client dead_transport =
  Some (mkRun (Thrown (Some (Errors.ModelPilotError
                               (JStr (lit "Network error: No response received"))
                               JUndefined)))
              (S 3)
              (List.map Client.backoff (seq 0 3))).
Proof.
  apply (request_without_response sample_client 3 dead_transport).
  - reflexivity.
  - intros k. eexists. reflexivity.
Defined.

Lemma pow2_ge_16 (k : nat) : (4 <= k)%nat -> (16 <= 2 ^ Z.of_nat k)%Z.
Proof.
  intros H. change 16%Z with (2 ^ 4)%Z.
  apply Z.pow_le_mono_r; lia.
Qed.

(** X16.  The back-off schedule: the delay before retry [k] is
    [1000 * 2^k] milliseconds for the first four retries (1000, 2000,
    4000, 8000) and 10000 from then on; it never decreases and always
    lies between 1000 and 10000. *)
Theorem backoff_schedule (k : nat) :
  ((k < 4)%nat -> Client.backoff k = (1000 * 2 ^ Z.of_nat k)%Z) /\
  ((4 <= k)%nat -> Client.backoff k = 10000%Z) /\
  (1000 <= Client.backoff k <= 10000)%Z /\
  (Client.backoff k <= Client.backoff (S k))%Z.
Proof.
  unfold Client.backoff.
  assert (Hpos : (1 <= 2 ^ Z.of_nat k)%Z) by (apply Z.pow_le_mono_r with (b := 0%Z); lia).
  assert (Hstep : (2 ^ Z.of_nat (S k) = 2 * 2 ^ Z.of_nat k)%Z)
    by (rewrite Nat2Z.inj_succ, Z.pow_succ_r; lia).
  repeat split.
  - intros Hk. destruct k as [|[|[|[|k]]]]; try lia; reflexivity.
  - intros Hk. pose proof (pow2_ge_16 k Hk). lia.
  - lia.
  - lia.
  - rewrite Hstep. lia.
Qed.

Lemma backoff_schedule_witness :
  Client.backoff 2 = 4000%Z /\ Client.backoff 7 = 10000%Z.
Proof.
  split.
  - rewrite (proj1 (backoff_schedule 2)) by lia. reflexivity.
  - apply (proj1 (proj2 (backoff_schedule 7))). lia.
Defined.

(** ** Error responses *)

(** X17.  An error response whose body is [null] (or [undefined]) does
    not become a domain error: reading [data.message] raises a
    [TypeError], whatever the status, 401 included.  This error is not
    an instance of [ModelPilotError], and the retry loop treats it as
    retryable. *)
Theorem handleError_null_body (error : axios_error) (r : axios_response) :
  ae_response error = Some r ->
  Js.nullish (resp_data r) = true ->
  exists e, Client._handleError error = Throw e /\
            class e = C_TypeError /\
            Errors.instanceof e C_ModelPilotError = false /\
            no_retry e = false.
Proof.
  intros Hr Hd. unfold Client._handleError. rewrite Hr.
  destruct (resp_data r); try discriminate Hd; cbn [Exn.get Exn.bind];
    repeat match goal with |- context [if ?b then _ else _] => destruct b end;
    eexists; repeat split.
Qed.

Lemma handleError_null_body_witness :
  exists e, Client._handleError null_body_401 = Throw e /\
            class e = C_TypeError /\
            Errors.instanceof e C_ModelPilotError = false /\
            no_retry e = false.
Proof.
  apply (handleError_null_body null_body_401 (mkResponse 401 JNull)); reflexivity.
Defined.

(** X18.  The message of the raised error is [data.message] when that
    is truthy and a fixed default otherwise; a message nested as
    [data.error.message] is not used.  With a body that has no truthy
    [message], the error for 401 and 429 carries the default message and
    nothing of the body (no [response], [code] or [param]), while the
    generic [APIError] of every other status carries the body as
    [response] together with [data.error.code] and
    [data.error.param]. *)
Theorem handleError_without_message (error : axios_error) (r : axios_response) :
  ae_response error = Some r ->
  Js.nullish (resp_data r) = false ->
  Js.truthy (Js.prop (resp_data r) (lit "message")) = false ->
  exists e,
    Client._handleError error = Throw e /\
    message e = JStr (default_message (resp_status r)) /\
    (if ((resp_status r =? 401) || (resp_status r =? 429))%Z
     then response e = JNull /\ code e = JUndefined /\ param e = JUndefined
     else response e = resp_data r /\
          code e = Js.prop (Js.prop (resp_data r) (lit "error")) (lit "code") /\
          param e = Js.prop (Js.prop (resp_data r) (lit "error")) (lit "param")).
Proof.
  intros Hr Hd Hm. unfold Client._handleError, default_message. rewrite Hr.
  rewrite (get_not_nullish _ (lit "message") Hd). cbn [Exn.bind].
  unfold Js.or. rewrite Hm.
  assert (Hu : Js.is_undefined (resp_data r) = false)
    by (destruct (resp_data r); (reflexivity || discriminate Hd)).
  destruct (resp_status r =? 401)%Z; [eexists; repeat split|].
  destruct (resp_status r =? 429)%Z; [eexists; repeat split|].
  cbn [orb].
  destruct (resp_status r =? 400)%Z;
    [|destruct (resp_status r =? 422)%Z];
    (eexists; split; [reflexivity|]; split; [reflexivity|];
     unfold Errors.APIError; cbn [response code param]; rewrite Hu; repeat split).
Qed.

Lemma handleError_without_message_witness :
  exists e,
    Client._handleError overloaded = Throw e /\
    message e = JStr (default_message 503) /\
    (if ((503 =? 401) || (503 =? 429))%Z
     then response e = JNull /\ code e = JUndefined /\ param e = JUndefined
     else response e = nested_error_body /\
          code e = Js.prop (Js.prop nested_error_body (lit "error")) (lit "code") /\
          param e = Js.prop (Js.prop nested_error_body (lit "error")) (lit "param")).
Proof.
  apply (handleError_without_message overloaded (mkResponse 503 nested_error_body));
    reflexivity.
Defined.

(** ** The decoder as a function of the text *)

Lemma trimStart_snoc_nonspace (s : jsstring) (c : N) :
  Str.is_space c = false -> Str.trimStart (s ++ [c]) <> [].
Proof.
  intros Hc. induction s as [|x s IH]; cbn [app Str.trimStart].
  - rewrite Hc. discriminate.
  - destruct (Str.is_space x); [exact IH | discriminate].
Qed.

Lemma trim_nonspace_head (c : N) (s : jsstring) :
  Str.is_space c = false -> Str.is_empty (Str.trim (c :: s)) = false.
Proof.
  intros Hc. unfold Str.trim, Str.trimEnd. cbn [Str.trimStart]. rewrite Hc.
  cbn [rev].
  pose proof (trimStart_snoc_nonspace (rev s) c Hc) as Hne.
  destruct (Str.trimStart (rev s ++ [c])) as [|y t] eqn:E; [congruence|].
  cbn [rev]. destruct (rev t); reflexivity.
Qed.

Lemma trim_nil : Str.trim [] = [].
Proof. reflexivity. Qed.

(** A blank line yields no text: the test [line.trim()] of the iterator
    is implied by the extraction. *)
Lemma extract_blank (line : jsstring) :
  Str.is_empty (Str.trim line) = true -> Stream.extractStreamingText line = JNull.
Proof.
  intros Hblank. unfold Stream.extractStreamingText, Str.strip_data_prefix.
  destruct (JsString.startsWith line (lit "data: ")) eqn:Hp.
  - destruct line as [|c line]; [discriminate Hp|].
    change (lit "data: ") with (100%N :: lit "ata: ") in Hp.
    cbn [JsString.startsWith] in Hp. apply andb_prop in Hp. destruct Hp as [Hc _].
    apply N.eqb_eq in Hc. subst c.
    rewrite trim_nonspace_head in Hblank by reflexivity. discriminate.
  - rewrite Hblank. reflexivity.
Qed.

Lemma process_text (clock : nat -> Z) (yielded : list jsval) (line : jsstring) :
  Stream.process clock yielded line =
  if is_null (Stream.extractStreamingText line) then yielded
  else yielded ++ [Stream.content_chunk (clock (List.length yielded))
                                        (Stream.extractStreamingText line)].
Proof.
  unfold Stream.process.
  destruct (Str.is_empty (Str.trim line)) eqn:Hb; cbn [negb].
  - rewrite (extract_blank line Hb). reflexivity.
  - destruct (Stream.extractStreamingText line); reflexivity.
Qed.

Lemma fold_process_stamp (clock : nat -> Z) (lines : list jsstring) :
  forall yielded,
    fold_left (Stream.process clock) lines yielded =
    yielded ++ stamp clock (List.length yielded)
                     (filter (fun v => negb (is_null v))
                             (List.map Stream.extractStreamingText lines)).
Proof.
  induction lines as [|line lines IH]; intros yielded.
  - cbn. rewrite app_nil_r. reflexivity.
  - cbn [fold_left List.map filter]. rewrite IH, process_text.
    destruct (is_null (Stream.extractStreamingText line)); cbn [negb].
    + reflexivity.
    + rewrite <- app_assoc. cbn [app stamp].
      rewrite length_app, Nat.add_1_r. reflexivity.
Qed.

Lemma stamp_length (clock : nat -> Z) (texts : list jsval) :
  forall k, List.length (stamp clock k texts) = List.length texts.
Proof.
  induction texts as [|t texts IH]; intros k; cbn; [reflexivity|].
  rewrite IH. reflexivity.
Qed.

Lemma removelast_snoc_last (A : Type) (l : list A) (d : A) :
  l <> [] -> removelast l ++ [last l d] = l.
Proof.
  intros H. symmetry. apply app_removelast_last. exact H.
Qed.

Lemma decode_from_texts (clock : nat -> Z) (text : jsstring) :
  decode_from clock [] text =
  stamp clock 0 (line_texts text)
  ++ [Stream.final_chunk (clock (List.length (line_texts text)))].
Proof.
  unfold decode_from, line_texts.
  set (lines := Str.split Str.newline text).
  assert (Hfold : Stream.process clock
                    (fold_left (Stream.process clock) (removelast lines) [])
                    (last lines [])
                  = fold_left (Stream.process clock) lines []).
  { rewrite <- (removelast_snoc_last _ lines []) at 3 by apply split_nonempty.
    rewrite fold_left_app. reflexivity. }
  rewrite Hfold, fold_process_stamp. cbn [app List.length].
  rewrite stamp_length. reflexivity.
Qed.

(** X19.  What the decoder computes.  The chunks of a fresh stream
    depend only on the concatenated text of the source: one content
    chunk for every line (piece between line feeds, the unterminated
    last one included) from which [extractStreamingText] extracts a
    text, in the order of the lines and with that text as
    [delta.content], followed by the terminal chunk.  Blank lines,
    [DONE] markers and lines without content leave no trace. *)
Theorem decoder_output (clock : nat -> Z) (source : list jsstring) :
  Stream.toArray clock (Stream.new source) =
  stamp clock 0 (line_texts (List.concat source))
  ++ [Stream.final_chunk (clock (List.length (line_texts (List.concat source))))].
Proof.
  rewrite toArray_decode. apply decode_from_texts.
Qed.

Lemma extract_null_or_truthy (line : jsstring) :
  Stream.extractStreamingText line = JNull \/
  Js.truthy (Stream.extractStreamingText line) = true.
Proof.
  unfold Stream.extractStreamingText.
  destruct (_ || _); [left; reflexivity|].
  destruct (JSON.parse (Str.strip_data_prefix line)) as [parsed|e];
    [|left; reflexivity].
  cbn [Exn.bind].
  destruct (Exn.get parsed (lit "choices")) as [choices|e]; [|left; reflexivity].
  cbn [Exn.bind].
  destruct (Js.truthy choices && _); [|left; reflexivity].
  destruct (Js.truthy (Js.prop (Js.prop choices (lit "0")) (lit "delta"))); cbn [andb].
  - destruct (Js.truthy (Js.prop (Js.prop (Js.prop choices (lit "0")) (lit "delta"))
                                 (lit "content"))) eqn:Hd.
    + right. cbn [Exn.try_catch]. exact Hd.
    + destruct (Js.truthy (Js.prop (Js.prop choices (lit "0")) (lit "message")));
        cbn [andb]; [|left; reflexivity].
      destruct (Js.truthy (Js.prop (Js.prop (Js.prop choices (lit "0")) (lit "message"))
                                   (lit "content"))) eqn:Hm;
        [right; exact Hm | left; reflexivity].
  - destruct (Js.truthy (Js.prop (Js.prop choices (lit "0")) (lit "message")));
      cbn [andb]; [|left; reflexivity].
    destruct (Js.truthy (Js.prop (Js.prop (Js.prop choices (lit "0")) (lit "message"))
                                 (lit "content"))) eqn:Hm;
      [right; exact Hm | left; reflexivity].
Qed.

Lemma line_texts_truthy (text : jsstring) :
  Forall (fun v => Js.truthy v = true) (line_texts text).
Proof.
  unfold line_texts. apply Forall_forall. intros v Hin.
  apply filter_In in Hin. destruct Hin as (Hin & Hnn).
  apply in_map_iff in Hin. destruct Hin as (line & <- & _).
  destruct (extract_null_or_truthy line) as [H|H]; [|exact H].
  rewrite H in Hnn. discriminate.
Qed.

(** X20.  Only truthy content is ever emitted: [extractStreamingText]
    returns [null] or a truthy value, so every chunk before the
    terminal one carries a truthy [delta.content].  A delta whose
    content is the empty string (or [0], [false], [null]) produces no
    chunk at all. *)
Theorem decoder_content_truthy (clock : nat -> Z) (source : list jsstring) :
  (forall line, Stream.extractStreamingText line = JNull \/
                Js.truthy (Stream.extractStreamingText line) = true) /\
  Forall (fun chunk => Js.truthy (Stream.delta_content chunk) = true)
         (removelast (Stream.toArray clock (Stream.new source))).
Proof.
  split; [exact extract_null_or_truthy|].
  rewrite toArray_decode, decode_from_texts, removelast_last.
  pose proof (line_texts_truthy (List.concat source)) as H.
  generalize 0%nat. induction H as [|t texts Ht _ IH]; intros k; cbn [stamp].
  - constructor.
  - constructor; [exact Ht | apply IH].
Qed.



(** ** Lines that are not data lines *)

Lemma lex_extends (s : jsstring) :
  forall mode toks out,
    JSON.lex mode toks s = Some out -> exists suffix, out = rev toks ++ suffix.
Proof.
  assert (Hstart : forall c toks mode' toks',
             JSON.start c toks = Some (mode', toks') ->
             exists t, rev toks' = rev toks ++ t).
  { intros c toks mode' toks'. unfold JSON.start.
    repeat match goal with
           | |- context [if ?b then _ else _] => destruct b
           end;
      intros H; inversion H; subst; cbn [rev];
      solve [exists []; rewrite app_nil_r; reflexivity | eexists; reflexivity]. }
  assert (Hext : forall (a b : list JSON.token) t,
             rev b = rev a ++ t ->
             forall out, (exists s0, out = rev b ++ s0) -> exists s1, out = rev a ++ s1).
  { intros a b t Hab out (s0 & ->). rewrite Hab, <- app_assoc. eexists; reflexivity. }
  induction s as [|c s IH]; intros mode toks out H.
  - destruct mode; cbn [JSON.lex] in H; try discriminate.
    + inversion H; subst. exists []. rewrite app_nil_r. reflexivity.
    + destruct (JSON.parse_number (rev acc)); inversion H; subst.
      cbn [rev]. eexists; reflexivity.
    + destruct (JSON.parse_word (rev acc)); inversion H; subst.
      cbn [rev]. eexists; reflexivity.
  - destruct mode; cbn [JSON.lex] in H.
    + destruct (JSON.start c toks) as [[mode' toks']|] eqn:Hs; [|discriminate].
      destruct (Hstart _ _ _ _ Hs) as (t & Ht).
      eapply Hext; [exact Ht|]. eapply IH; exact H.
    + destruct (c =? 34)%N.
      * apply IH in H. destruct H as (s0 & ->). cbn [rev]. rewrite <- app_assoc.
        eexists; reflexivity.
      * destruct (c =? 92)%N; [eapply IH; exact H|].
        destruct (c <? 32)%N; [discriminate|]. eapply IH; exact H.
    + destruct (c =? 117)%N; [eapply IH; exact H|].
      destruct (JSON.escape c); [eapply IH; exact H | discriminate].
    + destruct (JSON.hex_value c); [|discriminate].
      destruct (Nat.eqb read 3); eapply IH; exact H.
    + destruct (JSON.is_num_char c); [eapply IH; exact H|].
      destruct (JSON.parse_number (rev acc)) as [q|]; [|discriminate].
      destruct (JSON.start c (JSON.TNum q :: toks)) as [[mode' toks']|] eqn:Hs;
        [|discriminate].
      destruct (Hstart _ _ _ _ Hs) as (t & Ht).
      apply IH in H. destruct H as (s0 & ->). rewrite Ht. cbn [rev].
      rewrite <- !app_assoc. eexists; reflexivity.
    + destruct (JSON.is_lower c); [eapply IH; exact H|].
      destruct (JSON.parse_word (rev acc)) as [w|]; [|discriminate].
      destruct (JSON.start c (w :: toks)) as [[mode' toks']|] eqn:Hs;
        [|discriminate].
      destruct (Hstart _ _ _ _ Hs) as (t & Ht).
      apply IH in H. destruct H as (s0 & ->). rewrite Ht. cbn [rev].
      rewrite <- !app_assoc. eexists; reflexivity.
Qed.

Lemma start_lower (c : N) (toks : list JSON.token) :
  JSON.is_lower c = true -> JSON.start c toks = Some (JSON.LWord [c], toks).
Proof.
  intros Hlow. unfold JSON.start. rewrite Hlow.
  unfold JSON.is_lower in Hlow. unfold JSON.is_ws, JSON.is_digit.
  apply andb_prop in Hlow. destruct Hlow as [H1 H2].
  apply N.leb_le in H1. apply N.leb_le in H2.
  repeat match goal with
         | |- context [(c =? ?k)%N] =>
             destruct (N.eqb_spec c k); [lia|]
         end.
  cbn [orb].
  destruct (N.leb_spec 48 c); destruct (N.leb_spec c 57); try lia; reflexivity.
Qed.

Lemma lex_word (field : jsstring) :
  forallb JSON.is_lower field = true ->
  forall acc toks rest,
    JSON.lex (JSON.LWord acc) toks (field ++ 58%N :: rest) =
    match JSON.parse_word (rev (rev field ++ acc)) with
    | Some t => JSON.lex JSON.LStart (JSON.TColon :: t :: toks) rest
    | None => None
    end.
Proof.
  induction field as [|c field IH]; intros Hall acc toks rest.
  - cbn [app rev JSON.lex].
    change (JSON.is_lower 58) with false. cbn iota.
    destruct (JSON.parse_word (rev acc)); reflexivity.
  - cbn [forallb] in Hall. apply andb_prop in Hall. destruct Hall as [Hc Hall].
    cbn [app JSON.lex]. rewrite Hc, IH by assumption.
    cbn [rev]. rewrite <- app_assoc. reflexivity.
Qed.

Lemma parse_other_field (field rest : jsstring) :
  forallb JSON.is_lower field = true ->
  exists e, JSON.parse (field ++ 58%N :: rest) = Throw e.
Proof.
  intros Hall. unfold JSON.parse.
  destruct (JSON.lex JSON.LStart [] (field ++ 58%N :: rest)) as [toks|] eqn:Hlex;
    [|eexists; reflexivity].
  assert (Hrun : JSON.run JSON.MValue [] toks = None).
  { destruct field as [|c field].
    - cbn [app JSON.lex] in Hlex.
      change (JSON.start 58 []) with (Some (JSON.LStart, [JSON.TColon])) in Hlex.
      cbn iota in Hlex.
      apply lex_extends in Hlex. destruct Hlex as (s0 & ->). reflexivity.
    - cbn [forallb] in Hall. apply andb_prop in Hall. destruct Hall as [Hc Hall].
      cbn [app JSON.lex] in Hlex. rewrite (start_lower c [] Hc) in Hlex.
      rewrite lex_word in Hlex by assumption.
      destruct (JSON.parse_word (rev (rev field ++ [c]))) as [t|] eqn:Hw;
        [|discriminate].
      apply lex_extends in Hlex. destruct Hlex as (s0 & ->).
      unfold JSON.parse_word in Hw.
      repeat match type of Hw with
             | (if ?b then _ else _) = _ => destruct b
             end;
        inversion Hw; subst; reflexivity. }
  rewrite Hrun. eexists; reflexivity.
Qed.

(** X22.  Only [data: ] lines and bare JSON lines can produce a chunk.
    A line [field:rest] whose field consists of lower-case letters (or
    is empty, a comment line) and that does not begin with [data: ] is
    not valid JSON: it is dropped without a chunk and without an error.
    This covers [event:], [id:] and [retry:] lines and also a [data:]
    line written without the space after the colon. *)
Theorem decoder_drops_other_fields (clock : nat -> Z) (field rest : jsstring)
        (yielded : list jsval) :
  other_field_line field rest ->
  Stream.extractStreamingText (field ++ 58%N :: rest) = JNull /\
  Stream.process clock yielded (field ++ 58%N :: rest) = yielded.
Proof.
  intros (Hall & Hp).
  assert (H : Stream.extractStreamingText (field ++ 58%N :: rest) = JNull).
  { apply extract_malformed. unfold malformed, Str.strip_data_prefix.
    rewrite Hp. apply parse_other_field. exact Hall. }
  split; [exact H | apply process_skips; exact H].
Qed.

Lemma decoder_drops_other_fields_witness :
  other_field_line (lit "data") (skipn 5 tight_line) /\
  Stream.extractStreamingText (lit "data" ++ 58%N :: skipn 5 tight_line) = JNull /\
  Stream.process (fun _ => 0%Z) [] (lit "data" ++ 58%N :: skipn 5 tight_line) = [].
Proof.
  split; [split; reflexivity|].
  apply (decoder_drops_other_fields (fun _ => 0%Z) (lit "data") (skipn 5 tight_line) []).
  split; reflexivity.
Defined.

(** ** Carriage returns *)

Lemma lex_cr (s : jsstring) :
  forall mode toks,
    JSON.lex mode toks (s ++ [carriage_return]) = JSON.lex mode toks s.
Proof.
  induction s as [|c s IH]; intros mode toks.
  - destruct mode; reflexivity.
  - destruct mode; cbn [app JSON.lex].
    + destruct (JSON.start c toks) as [[mode' toks']|]; [apply IH | reflexivity].
    + destruct (c =? 34)%N; [apply IH|].
      destruct (c =? 92)%N; [apply IH|].
      destruct (c <? 32)%N; [reflexivity | apply IH].
    + destruct (c =? 117)%N; [apply IH|].
      destruct (JSON.escape c); [apply IH | reflexivity].
    + destruct (JSON.hex_value c); [|reflexivity].
      destruct (Nat.eqb read 3); apply IH.
    + destruct (JSON.is_num_char c); [apply IH|].
      destruct (JSON.parse_number (rev acc)); [|reflexivity].
      destruct (JSON.start c _) as [[mode' toks']|]; [apply IH | reflexivity].
    + destruct (JSON.is_lower c); [apply IH|].
      destruct (JSON.parse_word (rev acc)); [|reflexivity].
      destruct (JSON.start c _) as [[mode' toks']|]; [apply IH | reflexivity].
Qed.

Lemma trimStart_cr (s : jsstring) :
  Str.trimEnd (Str.trimStart (s ++ [carriage_return])) = Str.trimEnd (Str.trimStart s).
Proof.
  induction s as [|c s IH].
  - reflexivity.
  - cbn [app Str.trimStart]. destruct (Str.is_space c); [exact IH|].
    unfold Str.trimEnd.
    change (c :: s ++ [carriage_return]) with ((c :: s) ++ [carriage_return]).
    rewrite rev_app_distr. reflexivity.
Qed.

Lemma startsWith_cr (p : jsstring) :
  ~ In carriage_return p ->
  forall s, JsString.startsWith (s ++ [carriage_return]) p = JsString.startsWith s p.
Proof.
  induction p as [|x p IH]; intros Hp s; [destruct s; reflexivity|].
  destruct s as [|y s]; cbn [app JsString.startsWith].
  - destruct (N.eqb_spec x carriage_return) as [->|Hx]; [|reflexivity].
    exfalso. apply Hp. left. reflexivity.
  - rewrite IH; [reflexivity|]. intros Hin. apply Hp. right. exact Hin.
Qed.

Lemma skipn_startsWith (p : jsstring) :
  forall s x, JsString.startsWith s p = true ->
              skipn (List.length p) (s ++ x) = skipn (List.length p) s ++ x.
Proof.
  induction p as [|c p IH]; intros s x H; [reflexivity|].
  destruct s as [|y s]; [discriminate H|].
  cbn [JsString.startsWith] in H. apply andb_prop in H. destruct H as [_ H].
  cbn [List.length skipn app]. apply IH. exact H.
Qed.

Lemma strip_cr (line : jsstring) :
  Str.strip_data_prefix (line ++ [carriage_return]) =
  Str.strip_data_prefix line ++ [carriage_return].
Proof.
  unfold Str.strip_data_prefix.
  rewrite startsWith_cr
    by (cbn; intros H; repeat (destruct H as [H|H]; [discriminate H|]); exact H).
  destruct (JsString.startsWith line (lit "data: ")) eqn:Hp; [|reflexivity].
  apply (skipn_startsWith (lit "data: ")). exact Hp.
Qed.

Lemma extract_cr (line : jsstring) :
  Stream.extractStreamingText (line ++ [carriage_return]) =
  Stream.extractStreamingText line.
Proof.
  unfold Stream.extractStreamingText. rewrite strip_cr.
  unfold Str.trim. rewrite trimStart_cr.
  unfold JSON.parse. rewrite lex_cr. reflexivity.
Qed.

Lemma newline_free_cr (line : jsstring) :
  newline_free line -> newline_free (line ++ [carriage_return]).
Proof.
  unfold newline_free. intros H Hin. apply in_app_or in Hin.
  destruct Hin as [Hin|[Hin|[]]]; [exact (H Hin) | discriminate Hin].
Qed.

Lemma same_up_to_cr_texts (lines1 lines2 : list jsstring) :
  same_up_to_cr lines1 lines2 ->
  List.map Stream.extractStreamingText lines1 =
  List.map Stream.extractStreamingText lines2.
Proof.
  induction 1 as [|a b l1 l2 Hab _ IH]; [reflexivity|].
  cbn [List.map]. rewrite IH. f_equal.
  destruct Hab as [->| ->]; [reflexivity | apply extract_cr].
Qed.

Lemma same_up_to_cr_newline_free (lines1 lines2 : list jsstring) :
  same_up_to_cr lines1 lines2 ->
  Forall newline_free lines2 -> Forall newline_free lines1.
Proof.
  induction 1 as [|a b l1 l2 Hab _ IH]; intros Hall; [constructor|].
  inversion Hall as [|? ? Hb Hrest]; subst.
  constructor; [|apply IH; exact Hrest].
  destruct Hab as [->| ->]; [exact Hb | apply newline_free_cr; exact Hb].
Qed.

(** X23.  Line endings.  A carriage return at the end of a line does
    not change what the line yields, so a source with CRLF line endings
    (or a mixture) gives the same chunks as the source with bare line
    feeds. *)
Theorem decoder_ignores_carriage_returns (clock : nat -> Z)
        (lines1 lines2 : list jsstring) (source1 source2 : list jsstring) :
  Forall newline_free lines2 ->
  same_up_to_cr lines1 lines2 ->
  List.concat source1 = Str.join Str.newline lines1 ->
  List.concat source2 = Str.join Str.newline lines2 ->
  Stream.toArray clock (Stream.new source1) = Stream.toArray clock (Stream.new source2).
Proof.
  intros Hfree Hcr H1 H2.
  rewrite !toArray_decode, !decode_from_texts, H1, H2.
  assert (Htexts : line_texts (Str.join Str.newline lines1)
                   = line_texts (Str.join Str.newline lines2)).
  { unfold line_texts.
    destruct lines2 as [|b l2].
    - inversion Hcr; subst. reflexivity.
    - destruct lines1 as [|a l1]; [inversion Hcr|].
      rewrite !split_join;
        [ | assumption | discriminate
          | eapply same_up_to_cr_newline_free; eassumption | discriminate ].
      rewrite (same_up_to_cr_texts _ _ Hcr). reflexivity. }
  rewrite Htexts. reflexivity.
Qed.

Lemma decoder_ignores_carriage_returns_witness :
  Stream.toArray (fun _ => 0%Z)
    (Stream.new [Str.join Str.newline
                   (List.map (fun l => l ++ [carriage_return]) crlf_lines)]) =
  Stream.toArray (fun _ => 0%Z) (Stream.new [Str.join Str.newline crlf_lines]).
Proof.
  apply (decoder_ignores_carriage_returns (fun _ => 0%Z)
           (List.map (fun l => l ++ [carriage_return]) crlf_lines) crlf_lines).
  - unfold crlf_lines.
    repeat (apply Forall_cons; [apply newline_free_dec; vm_compute; reflexivity|]).
    apply Forall_nil.
  - unfold crlf_lines, same_up_to_cr. cbn [List.map].
    repeat (apply Forall2_cons; [right; reflexivity|]).
    apply Forall2_nil.
  - cbn [List.concat]. rewrite app_nil_r. reflexivity.
  - cbn [List.concat]. rewrite app_nil_r. reflexivity.
Defined.

(** ** The errors [request] raises *)

Lemma handleError_classes (error : axios_error) (r : result axios_response) :
  Client._handleError error = r ->
  exists e, r = Throw e /\ In (class e) request_error_classes.
Proof.
  intros <-. unfold Client._handleError, request_error_classes.
  destruct (ae_response error) as [r|].
  - destruct (Exn.get (resp_data r) (lit "message")) as [msg|e0] eqn:Hget.
    + repeat match goal with |- context [if ?b then _ else _] => destruct b end;
        cbn [Exn.bind]; eexists; (split; [reflexivity|]); cbn; tauto.
    + assert (Hc : class e0 = C_TypeError).
      { destruct (resp_data r); cbn in Hget; try discriminate Hget;
          injection Hget as <-; reflexivity. }
      repeat match goal with |- context [if ?b then _ else _] => destruct b end;
        cbn [Exn.bind]; eexists; (split; [reflexivity|]); rewrite Hc; cbn; tauto.
  - destruct (ae_request error); eexists; (split; [reflexivity|]); cbn; tauto.
Qed.

Lemma request_raises (c : ModelPilot) (httpClient : nat -> axios_outcome)
      (run : request_run) (e : js_error) :
  Client.request c httpClient = Some run ->
  outcome run = Thrown (Some e) ->
  In (class e) request_error_classes.
Proof.
  intros Hrun Hout. unfold Client.request in Hrun.
  destruct (request_loop_spec c httpClient _ _ _ _ _ Hrun) as [Hexit Hloop].
  destruct (Client.attempt_le 0 (maxRetries c)) eqn:Hle.
  - destruct (Hloop eq_refl) as (_ & _ & _ & Hlast & _).
    rewrite Hout in Hlast.
    destruct (httpClient (attempts run - 1)%nat) as [r|error]; [discriminate Hlast|].
    cbn [Client.intercepted] in Hlast.
    destruct (handleError_classes error _ eq_refl) as (e' & He' & Hin).
    rewrite He' in Hlast. cbn in Hlast. injection Hlast as ->. exact Hin.
  - destruct (Hexit eq_refl) as (_ & Hnone). rewrite Hout in Hnone. discriminate.
Qed.

(** X24.  The errors of [request].  Whatever the transport does, an
    error raised by [request] is a [TypeError], a plain
    [ModelPilotError], a generic [APIError], an [AuthenticationError]
    or a [RateLimitError].  The classes [InvalidRequestError],
    [PermissionDeniedError], [NotFoundError], [ConflictError],
    [UnprocessableEntityError] and [InternalServerError] are never
    raised for a response: a 403, 404, 409, 422 or 500 arrives as a
    generic [APIError]. *)
Theorem request_error_kinds (c : ModelPilot) (httpClient : nat -> axios_outcome)
        (run : request_run) (e : js_error) :
  Client.request c httpClient = Some run ->
  outcome run = Thrown (Some e) ->
  In (class e) request_error_classes /\
  class e <> C_InvalidRequestError /\
  class e <> C_PermissionDeniedError /\
  class e <> C_NotFoundError /\
  class e <> C_ConflictError /\
  class e <> C_UnprocessableEntityError /\
  class e <> C_InternalServerError.
Proof.
  intros Hrun Hout.
  pose proof (request_raises c httpClient run e Hrun Hout) as Hin.
  split; [exact Hin|].
  unfold request_error_classes in Hin. cbn [In] in Hin.
  repeat split; intros Hc; rewrite Hc in Hin;
    repeat (destruct Hin as [Hin|Hin]; [discriminate Hin|]); exact Hin.
Qed.

Lemma request_error_kinds_witness :
  exists run e,
    Client.request sample_client missing_transport = Some run /\
    outcome run = Thrown (Some e) /\
    class e = C_APIError /\
    In (class e) request_error_classes /\
    class e <> C_NotFoundError.
Proof.
  eexists; eexists.
  split; [reflexivity|]. split; [reflexivity|]. split; [reflexivity|].
  split.
  - apply (request_error_kinds sample_client missing_transport _ _ eq_refl eq_refl).
  - apply (request_error_kinds sample_client missing_transport _ _ eq_refl eq_refl).
Defined.

(** ** From [create] to the HTTP client *)




(** ** A [maxRetries] that is not a whole number *)



